(** * The Jucer component document: a shallow embedding

    Source: extras/Jucer (experimental)/Source/model/jucer_ComponentDocument.cpp

    The file embeds [ComponentDocument] (construction, load and save of the
    metadata block, the dirty flag, member-name generation, the drag handler)
    and [ComponentTypeManager].  The JUCE classes the document is written on
    (String, ValueTree, UndoManager, XmlDocument, streams, files) are not part
    of that file; what the document needs of them is modelled below, each
    such definition saying so in its comment. *)

From Stdlib Require Import Ascii String ZArith Lia.
From stdpp Require Import base strings list gmap pretty.

#[local] Set Warnings "-register-all".
Local Open Scope string_scope.
Local Open Scope Z_scope.

(** ** JUCE strings *)

Module JString.

(** Modelled from the spec: the String class is not in this file; the
    operations this file calls on it are given their usual meaning, on
    Rocq's strings.  [String::containsChar]. *)
Fixpoint containsChar (s : string) (c : ascii) : bool :=
  match s with
  | EmptyString => false
  | String a r => if decide (a = c) then true else containsChar r c
  end.

(** Modelled from the spec: [String::getLastCharacter], the NUL character
    for an empty string. *)
Fixpoint getLastCharacter (s : string) : ascii :=
  match s with
  | EmptyString => "000"%char
  | String c EmptyString => c
  | String _ r => getLastCharacter r
  end.

(** Modelled from the spec: [String::dropLastCharacters (1)]. *)
Fixpoint dropLastCharacter (s : string) : string :=
  match s with
  | EmptyString => EmptyString
  | String _ EmptyString => EmptyString
  | String c r => String c (dropLastCharacter r)
  end.

Fixpoint startsWith (s sub : string) : bool :=
  match sub, s with
  | EmptyString, _ => true
  | String b sub', String a s' =>
      if decide (a = b) then startsWith s' sub' else false
  | String _ _, EmptyString => false
  end.

(** Modelled from the spec: [String::contains], [sub] occurs somewhere in
    [s]. *)
Fixpoint contains (s sub : string) : bool :=
  startsWith s sub
  || match s with
     | EmptyString => false
     | String _ s' => contains s' sub
     end.

Fixpoint retainCharacters (allowed s : string) : string :=
  match s with
  | EmptyString => EmptyString
  | String c r =>
      if containsChar allowed c
      then String c (retainCharacters allowed r)
      else retainCharacters allowed r
  end.

Definition concatenate (l : list string) : string := foldr String.app "" l.

End JString.
Import JString.

(** ** 32-bit [int] *)

Definition wrap32 (z : Z) : Z := (z + 2 ^ 31) mod 2 ^ 32 - 2 ^ 31.

(** ** Constants of the file (lines 32-41) *)

Definition componentDocumentTag : string := "COMPONENT".
Definition componentGroupTag : string := "COMPONENTS".
Definition idProperty : string := "id".
Definition compBoundsProperty : string := "position".
Definition memberNameProperty : string := "memberName".
Definition compNameProperty : string := "name".
Definition metadataTagStart : string := "JUCER_COMPONENT_METADATA_START".
Definition metadataTagEnd : string := "JUCER_COMPONENT_METADATA_END".

(** ** ValueTree (the spec's Node) *)

(** Modelled from the spec: the ValueTree class is not in this file.  A node
    is a type tag, a mapping from property names to values and an ordered
    sequence of children (spec, section 3).  Every property this file writes
    is a String (lines 75-80, 305, 479), so a value is a [string] here; a
    missing property (a void [var]) is [None] on lookup.  An invalid ValueTree
    ([ValueTree::invalid]) is [None : option ValueTree]. *)
Inductive ValueTree : Type :=
  mkValueTree {
      vtType : string;
      vtProperties : gmap string string;
      vtChildren : list ValueTree
    }.

(** Modelled from the spec: [ValueTree (tag)], a node without properties
    and children. *)
Definition newValueTree (tag : string) : ValueTree := mkValueTree tag ∅ [].

(** Modelled from the spec: [v [name]]. *)
Definition getProperty (v : ValueTree) (name : string) : option string :=
  vtProperties v !! name.

(** Modelled from the spec: [setProperty (name, value, 0)], without an undo
    manager. *)
Definition setProperty (name value : string) (v : ValueTree) : ValueTree :=
  mkValueTree (vtType v) (<[name := value]> (vtProperties v)) (vtChildren v).

(** Modelled from the spec: [removeProperty (name, 0)]. *)
Definition removeProperty (name : string) (v : ValueTree) : ValueTree :=
  mkValueTree (vtType v) (delete name (vtProperties v)) (vtChildren v).

(** Modelled from the spec: [hasType]. *)
Definition hasType (v : ValueTree) (tag : string) : bool :=
  bool_decide (vtType v = tag).

(** Modelled from the spec: [getChild (int)], invalid when the index is out
    of range. *)
Definition getChild (v : ValueTree) (index : Z) : option ValueTree :=
  if index <? 0 then None else vtChildren v !! Z.to_nat index.

(** Modelled from the spec: [getChildWithName], the first child of that
    type. *)
Definition getChildWithName (v : ValueTree) (tag : string) : option ValueTree :=
  List.find (fun c => hasType c tag) (vtChildren v).

(** Modelled from the spec: [addChild (child, -1, 0)], the child is put
    last. *)
Definition appendChild (child : ValueTree) (v : ValueTree) : ValueTree :=
  mkValueTree (vtType v) (vtProperties v) (vtChildren v ++ [child]).

Definition setChildren (cs : list ValueTree) (v : ValueTree) : ValueTree :=
  mkValueTree (vtType v) (vtProperties v) cs.

(** ** The component group and member names (lines 334-361, 423-439) *)

Definition getComponentGroup (root : ValueTree) : option ValueTree :=
  getChildWithName root componentGroupTag.

(** The children of the component group; none when the group is invalid. *)
Definition components (root : ValueTree) : list ValueTree :=
  match getComponentGroup root with
  | Some g => vtChildren g
  | None => []
  end.

Definition getNumComponents (root : ValueTree) : nat := length (components root).

Definition getComponent (root : ValueTree) (index : Z) : option ValueTree :=
  match getComponentGroup root with
  | Some g => getChild g index
  | None => None
  end.

(** [v [memberNameProperty] == name]; a component without the property has
    no member name. *)
Definition hasMemberName (name : string) (v : ValueTree) : bool :=
  bool_decide (getProperty v memberNameProperty = Some name).

(** The scan runs from the last child down to the first. *)
Definition getComponentWithMemberName (root : ValueTree) (name : string)
  : option ValueTree :=
  List.find (hasMemberName name) (rev (components root)).

Definition digits : string := "0123456789".

(** The inner loop of lines 432-433, one character dropped per turn. *)
Fixpoint dropTrailingDigits (fuel : nat) (s : string) : string :=
  match fuel with
  | O => s
  | S f =>
      if containsChar digits (getLastCharacter s)
      then dropTrailingDigits f (dropLastCharacter s)
      else s
  end.

Definition withoutTrailingDigits (s : string) : string :=
  dropTrailingDigits (String.length s) s.

(** [suggestedName << num]. *)
Definition numbered (original : string) (num : Z) : string :=
  withoutTrailingDigits original +:+ pretty num.

(** The outer loop of lines 429-436.  The result carries the number of times
    the loop body ran; [None] when the fuel is spent before the loop ends. *)
Fixpoint memberNameLoop (root : ValueTree) (fuel : nat)
    (original suggestedName : string) (num : Z) : option (string * nat) :=
  match getComponentWithMemberName root suggestedName with
  | None => Some (suggestedName, O)
  | Some _ =>
      match fuel with
      | O => None
      | S f =>
          match memberNameLoop root f original (numbered original num)
                  (wrap32 (num + 1)) with
          | Some (r, k) => Some (r, S k)
          | None => None
          end
      end
  end.

Section MemberNames.

(** [makeValidCppIdentifier (s, false, true, false)], a helper of another
    file of the Jucer. *)
Variable makeValidCppIdentifier : string -> string.

Definition runMemberNameLoop (root : ValueTree) (fuel : nat) (suggestedName : string)
  : option (string * nat) :=
  let original := makeValidCppIdentifier suggestedName in
  memberNameLoop root fuel original original 1.

(** [getNonExistentMemberName]: the loop run with the fuel that
    [memberNameLoop_run] and [candidates_free] show to be enough. *)
Definition getNonExistentMemberName (root : ValueTree) (suggestedName : string)
  : string :=
  match runMemberNameLoop root (S (getNumComponents root)) suggestedName with
  | Some (r, _) => r
  | None => makeValidCppIdentifier suggestedName
  end.

End MemberNames.

(** Modelled from the spec: [makeValidCppIdentifier] is not in this file; the
    spec (section 4.4) says that it normalizes the suggestion into a valid
    identifier.  The model keeps the characters an identifier may hold and
    puts an underscore in front of a result that is empty or starts with a
    digit; a valid identifier is returned as it is. *)
Definition identifierChars : string :=
  "abcdefghijklmnopqrstuvwxyzABCDEFGHIJKLMNOPQRSTUVWXYZ_0123456789".

Definition makeValidCppIdentifierModel (s : string) : string :=
  match retainCharacters identifierChars s with
  | EmptyString => "_"
  | String c r => if containsChar digits c then String "_" (String c r) else String c r
  end.

(** ** The serialized form of a tree *)

(** Modelled from the spec: [ValueTree::createXml], [ValueTree::fromXml],
    [XmlElement::writeToStream] and [XmlDocument] are not in this file.  The
    spec (section 6) gives the form: an element named after the node's type
    tag, the properties as attributes, the children as nested elements, one
    element per line, a child indented two spaces more than its parent. *)
Inductive XmlElement : Type :=
  mkXmlElement {
      xmlTagName : string;
      xmlAttributes : list (string * string);
      xmlChildElements : list XmlElement
    }.

(** Modelled from the spec: [ValueTree::createXml]. *)
Fixpoint createXml (v : ValueTree) : XmlElement :=
  match v with
  | mkValueTree tag props children =>
      mkXmlElement tag (map_to_list props) (List.map createXml children)
  end.

(** Modelled from the spec: [ValueTree::fromXml]; a tree built from an
    element is always valid. *)
Fixpoint fromXml (e : XmlElement) : ValueTree :=
  match e with
  | mkXmlElement tag attrs children =>
      mkValueTree tag (list_to_map attrs) (List.map fromXml children)
  end.

Definition hasTagName (e : XmlElement) (tag : string) : bool :=
  bool_decide (xmlTagName e = tag).

(** Modelled from the spec: [newLine], taken to be the line feed that
    [readNextLine] ends a line at. *)
Definition newLine : string := String "010" "".
Definition quoteChar : ascii := "034"%char.

(** Modelled from the spec: the characters of an attribute value that the
    text form cannot hold are written as entities. *)
Definition escapeChar (c : ascii) : string :=
  if decide (c = "&"%char) then "&amp;"
  else if decide (c = quoteChar) then "&quot;"
  else if decide (c = "<"%char) then "&lt;"
  else if decide (c = ">"%char) then "&gt;"
  else if decide (c = "010"%char) then "&#10;"
  else if decide (c = "013"%char) then "&#13;"
  else String c "".

Fixpoint escapeIllegalXmlChars (s : string) : string :=
  match s with
  | EmptyString => EmptyString
  | String c r => escapeChar c +:+ escapeIllegalXmlChars r
  end.

Fixpoint spaces (n : nat) : string :=
  match n with
  | O => EmptyString
  | S k => String " " (spaces k)
  end.

Definition writeAttribute (a : string * string) : string :=
  " " +:+ fst a +:+ "=" +:+ String quoteChar (escapeIllegalXmlChars (snd a))
      +:+ String quoteChar "".

(** Modelled from the spec: the text of an element, as in the example of
    section 6. *)
Fixpoint writeElementAsText (indent : nat) (e : XmlElement) : string :=
  match e with
  | mkXmlElement tag attrs children =>
      spaces indent +:+ "<" +:+ tag +:+ concatenate (List.map writeAttribute attrs)
      +:+ match children with
          | [] => "/>"
          | _ :: _ =>
              ">" +:+ newLine
              +:+ concatenate (List.map (fun c => writeElementAsText (indent + 2) c +:+ newLine)
                            children)
              +:+ spaces indent +:+ "</" +:+ tag +:+ ">"
          end
  end.

(** Modelled from the spec: [XmlElement::writeToStream (out, String::empty,
    false, false)], on several lines and without a header. *)
Definition writeToStream (e : XmlElement) : string := writeElementAsText 0 e.

(** *** Reading the text back *)

Fixpoint skipWhitespace (s : string) : string :=
  match s with
  | String c r => if Ascii.is_space c then skipWhitespace r else s
  | EmptyString => EmptyString
  end.

Definition xmlNameChars : string := identifierChars +:+ "-:.".

Fixpoint readName (s : string) : string * string :=
  match s with
  | String c r =>
      if containsChar xmlNameChars c
      then let '(n, rest) := readName r in (String c n, rest)
      else (EmptyString, s)
  | EmptyString => (EmptyString, EmptyString)
  end.

(** The text up to the closing quote, and what follows the quote. *)
Fixpoint readQuoted (s : string) : option (string * string) :=
  match s with
  | EmptyString => None
  | String c r =>
      if decide (c = quoteChar) then Some (EmptyString, r)
      else match readQuoted r with
           | Some (v, rest) => Some (String c v, rest)
           | None => None
           end
  end.

Definition entityChar (name : string) : option ascii :=
  if decide (name = "amp") then Some "&"%char
  else if decide (name = "quot") then Some quoteChar
  else if decide (name = "lt") then Some "<"%char
  else if decide (name = "gt") then Some ">"%char
  else if decide (name = "#10") then Some "010"%char
  else if decide (name = "#13") then Some "013"%char
  else None.

(** [pending] is the entity name read so far, after an ampersand. *)
Fixpoint unescape (pending : option string) (s : string) : option string :=
  match s with
  | EmptyString =>
      match pending with
      | None => Some EmptyString
      | Some _ => None
      end
  | String c r =>
      match pending with
      | None =>
          if decide (c = "&"%char) then unescape (Some EmptyString) r
          else String c <$> unescape None r
      | Some name =>
          if decide (c = ";"%char)
          then match entityChar name with
               | Some x => String x <$> unescape None r
               | None => None
               end
          else unescape (Some (name +:+ String c "")) r
      end
  end.

(** What follows the prefix [p] in [s], when [s] starts with [p]. *)
Fixpoint stripPrefix (p s : string) : option string :=
  match p with
  | EmptyString => Some s
  | String a p' =>
      match s with
      | String b s' => if decide (a = b) then stripPrefix p' s' else None
      | EmptyString => None
      end
  end.

Fixpoint parseAttributes (fuel : nat) (s : string)
  : option (list (string * string) * string) :=
  match fuel with
  | O => None
  | S f =>
      let s1 := skipWhitespace s in
      if startsWith s1 "/" || startsWith s1 ">" then Some ([], s1)
      else
        let '(name, r) := readName s1 in
        if decide (name = EmptyString) then None
        else match stripPrefix ("=" +:+ String quoteChar "") r with
             | Some r1 =>
                 match readQuoted r1 with
                 | Some (raw, r2) =>
                     match unescape None raw, parseAttributes f r2 with
                     | Some v, Some (rest, r3) => Some ((name, v) :: rest, r3)
                     | _, _ => None
                     end
                 | None => None
                 end
             | None => None
             end
  end.

(** Modelled from the spec: the reader of what [writeElementAsText] writes,
    an element and its children by recursive descent. *)
Fixpoint parseElement (fuel : nat) (s : string) : option (XmlElement * string) :=
  match fuel with
  | O => None
  | S f =>
      match stripPrefix "<" (skipWhitespace s) with
      | Some r =>
          let '(tag, r1) := readName r in
          if decide (tag = EmptyString) then None
          else match parseAttributes (S (String.length r1)) r1 with
               | Some (attrs, r2) =>
                   match stripPrefix "/>" r2 with
                   | Some r3 => Some (mkXmlElement tag attrs [], r3)
                   | None =>
                       match stripPrefix ">" r2 with
                       | Some r3 =>
                           match parseChildren f tag r3 with
                           | Some (cs, r4) => Some (mkXmlElement tag attrs cs, r4)
                           | None => None
                           end
                       | None => None
                       end
                   end
               | None => None
               end
      | None => None
      end
  end
with parseChildren (fuel : nat) (tag : string) (s : string)
  : option (list XmlElement * string) :=
  match fuel with
  | O => None
  | S f =>
      let s1 := skipWhitespace s in
      match stripPrefix "</" s1 with
      | Some r =>
          let '(name, r1) := readName r in
          if decide (name = tag)
          then match stripPrefix ">" (skipWhitespace r1) with
               | Some r2 => Some ([], r2)
               | None => None
               end
          else None
      | None =>
          match parseElement f s1 with
          | Some (c, r) =>
              match parseChildren f tag r with
              | Some (cs, r1) => Some (c :: cs, r1)
              | None => None
              end
          | None => None
          end
      end
  end.

(** Modelled from the spec: [XmlDocument::getDocumentElement], one element
    with white space around it; null ([None]) when the text is not of that
    form. *)
Definition getDocumentElement (text : string) : option XmlElement :=
  match parseElement (S (String.length text)) text with
  | Some (e, rest) =>
      if decide (skipWhitespace rest = EmptyString) then Some e else None
  | None => None
  end.

(** The elements that the text form can hold: the tag and the attribute
    names are made of name characters and are not empty. *)
Fixpoint allIn (allowed s : string) : bool :=
  match s with
  | EmptyString => true
  | String c r => containsChar allowed c && allIn allowed r
  end.

Definition isXmlName (s : string) : bool :=
  negb (bool_decide (s = EmptyString)) && allIn xmlNameChars s.

Fixpoint wellFormedXml (e : XmlElement) : bool :=
  match e with
  | mkXmlElement tag attrs children =>
      isXmlName tag && forallb (fun a => isXmlName (fst a)) attrs
      && forallb wellFormedXml children
  end.

(** The fuel that reading an element back takes. *)
Fixpoint fuelForElement (e : XmlElement) : nat :=
  match e with
  | mkXmlElement _ _ children =>
      S (foldr (fun c n => S (Nat.max (fuelForElement c) n)) 1%nat children)
  end.

Definition fuelForChildren (children : list XmlElement) : nat :=
  foldr (fun c n => S (Nat.max (fuelForElement c) n)) 1%nat children.

(** ** Files and streams *)

(** Modelled from the spec: [File], the streams and
    [overwriteFileWithNewDataIfDifferent] are not in this file.  A file name
    is a stem and an extension; the file system holds the text of the files
    that exist and says which files can be written. *)
Definition File : Type := string * string.

Definition withFileExtension (f : File) (ext : string) : File := (fst f, ext).

Record FileSystem : Type :=
  mkFileSystem {
      fileContents : gmap (string * string) string;
      canWrite : File -> bool
    }.

Definition createInputStream (fs : FileSystem) (f : File) : option string :=
  fileContents fs !! f.

(** Modelled from the spec: a write happens only when the content differs
    from what is on disk (section 4.4), and fails on a file that cannot be
    written. *)
Definition overwriteFileWithNewDataIfDifferent (fs : FileSystem) (f : File)
    (data : string) : bool * FileSystem :=
  if decide (fileContents fs !! f = Some data) then (true, fs)
  else if canWrite fs f
       then (true, mkFileSystem (<[f := data]> (fileContents fs)) (canWrite fs))
       else (false, fs).

(** Modelled from the spec: the lines that [readNextLine] returns until the
    stream [isExhausted]. *)
Fixpoint streamLines (s : string) : list string :=
  match s with
  | EmptyString => []
  | String c r =>
      if decide (c = "010"%char) then EmptyString :: streamLines r
      else match streamLines r with
           | [] => [String c EmptyString]
           | l :: ls => String c l :: ls
           end
  end.

(** ** Geometry *)

(** [Rectangle<int>] and [Point<int>]; the conversions between a rectangle
    and its text, and the resizing by a zone, are parameters of the drag
    handler below. *)
Record Rectangle : Type := mkRectangle { rectX : Z; rectY : Z; rectW : Z; rectH : Z }.

Definition Point : Type := Z * Z.

Definition withPosition (r : Rectangle) (p : Point) : Rectangle :=
  mkRectangle (fst p) (snd p) (rectW r) (rectH r).

(** ** The undo manager *)

(** Modelled from the spec: UndoManager and the undoable actions of ValueTree
    are not in this file.  Section 4.3 of the spec: a history of closed
    transactions and one open transaction; [beginNewTransaction] closes the
    open one and drops it when it is empty; [undoCurrentTransactionOnly]
    reverts and discards the actions of the open one; [undo] reverts the most
    recent transaction, its actions in reverse order.  Sections 4.1 and 9: a
    mutation that is given the undo manager is recorded when it changes
    something.  Redoing plays no part in what follows and is left out.

    A ValueTree is a handle on a shared node (section 3: the identity of a
    node is reference identity, and a node that is removed from its parent
    lives on while a reference retains it).  A handle on a component is
    modelled by the position that the component has in the component group
    when the handle is taken; a write through the handle reaches the
    document's tree for as long as the node is in it.  A node leaves the
    tree when [reload] replaces the root, or when the adding of the node is
    undone: whoever still has a handle on it then keeps the node itself, a
    write through the handle changes that node only, and the action that
    records such a write ([SetDetachedPropertyAction]) names the holder and
    the position under which the holder keeps the node. *)
Inductive UndoableAction : Type :=
| SetPropertyAction (target : nat) (name newValue : string) (oldValue : option string)
| AddChildAction (child : ValueTree)
| SetDetachedPropertyAction (owner target : nat) (name newValue : string)
    (oldValue : option string).

(** The most recent transaction first, and in a transaction the most recent
    action first. *)
Record UndoManager : Type :=
  mkUndoManager {
      transactions : list (list UndoableAction);
      currentTransaction : list UndoableAction
    }.

Definition emptyUndoManager : UndoManager := mkUndoManager [] [].

(** Modelled from the spec: [UndoManager::beginNewTransaction]. *)
Definition umBeginNewTransaction (um : UndoManager) : UndoManager :=
  match currentTransaction um with
  | [] => um
  | _ :: _ => mkUndoManager (currentTransaction um :: transactions um) []
  end.

(** Modelled from the spec: [UndoManager::perform], the action joins the
    open transaction. *)
Definition perform (a : UndoableAction) (um : UndoManager) : UndoManager :=
  mkUndoManager (transactions um) (a :: currentTransaction um).

(** Modelled from the spec: [UndoManager::clearUndoHistory]. *)
Definition clearUndoHistory (um : UndoManager) : UndoManager := emptyUndoManager.

(** *** Writing into the component group *)

Fixpoint alterFirst (p : ValueTree -> bool) (f : ValueTree -> ValueTree)
    (l : list ValueTree) : list ValueTree :=
  match l with
  | [] => []
  | x :: r => if p x then f x :: r else x :: alterFirst p f r
  end.

Definition updateComponentGroup (f : ValueTree -> ValueTree) (root : ValueTree)
  : ValueTree :=
  setChildren (alterFirst (fun c => hasType c componentGroupTag) f (vtChildren root)) root.

Definition updateComponentAt (i : nat) (f : ValueTree -> ValueTree) (root : ValueTree)
  : ValueTree :=
  updateComponentGroup (fun g => setChildren (alter f i (vtChildren g)) g) root.

Definition removeLastChild (v : ValueTree) : ValueTree :=
  setChildren (removelast (vtChildren v)) v.

(** Modelled from the spec: the reverting of one action, as far as the
    document's tree goes; a write on a node that has left the tree is
    reverted on that node. *)
Definition undoAction (root : ValueTree) (a : UndoableAction) : ValueTree :=
  match a with
  | SetPropertyAction i name _ (Some old) => updateComponentAt i (setProperty name old) root
  | SetPropertyAction i name _ None => updateComponentAt i (removeProperty name) root
  | AddChildAction _ => updateComponentGroup removeLastChild root
  | SetDetachedPropertyAction _ _ _ _ _ => root
  end.

(** Modelled from the spec: whether the action is one on a node of the
    document's tree, so that the document's listener hears of its
    reverting. *)
Definition touchesTree (a : UndoableAction) : bool :=
  match a with
  | SetDetachedPropertyAction _ _ _ _ _ => false
  | _ => true
  end.

Definition restoreProperty (name : string) (oldValue : option string) (v : ValueTree)
  : ValueTree :=
  match oldValue with
  | Some old => setProperty name old v
  | None => removeProperty name v
  end.

(** The holders that the actions of a history name, each plus one, and the
    least number that is none of them. *)
Definition actionOwner (a : UndoableAction) : nat :=
  match a with
  | SetDetachedPropertyAction owner _ _ _ _ => S owner
  | _ => 0%nat
  end.

Definition nextOwner (um : UndoManager) : nat :=
  foldr Nat.max 0%nat
    (List.map actionOwner (currentTransaction um ++ concat (transactions um))).

Definition undoActions (actions : list UndoableAction) (root : ValueTree) : ValueTree :=
  fold_left undoAction actions root.

(** ** Live components and the type manager (lines 55-139) *)

Record Component : Type :=
  mkComponent {
      componentProperties : gmap string string;
      componentBounds : Rectangle;
      componentName : string
    }.

(** A handler; [handlerCreateComponent] is what its [createComponent()]
    returns, [None] for a null pointer. *)
Record ComponentTypeHandler : Type :=
  mkComponentTypeHandler {
      handlerName : string;
      handlerXmlTag : string;
      handlerMemberNameRoot : string;
      handlerCreateComponent : option Component;
      handlerDefaultSize : Rectangle
    }.

(** What a call that may use a null pointer comes to. *)
Inductive Outcome (A : Type) : Type :=
| Returned (a : A)
| NullPointerDereference.
Arguments Returned {A} a.
Arguments NullPointerDereference {A}.

(** The text of a [var]: empty for a void one. *)
Definition varToString (v : option string) : string := default EmptyString v.

Record MouseEvent : Type := mkMouseEvent { getOffsetFromDragStart : Point }.

Definition menuItemOffset : Z := 0x63451fa4.

(** Modelled from the spec: PopupMenu is not in this file.  A menu is the
    list of its items, each an id and a text; [addItem] puts the item
    last. *)
Definition PopupMenu : Type := list (Z * string).

Definition addItem (itemId : Z) (text : string) (menu : PopupMenu) : PopupMenu :=
  (menu ++ [(itemId, text)])%list.

(** Modelled from the spec: [getClassName] is declared in the header, which is
    not in this file; it is the root's class-name property (spec, section 3),
    written without the undo manager. *)
Definition classNameProperty : string := "className".

Definition getClassName (root : ValueTree) : string :=
  varToString (getProperty root classNameProperty).

Section Document.

(** [ResizableBorderComponent::Zone], [Rectangle<int>::fromString],
    [Rectangle<int>::toString] and [Zone::resizeRectangleBy], the handlers
    the manager registers and the identifier helper: all outside this
    file. *)
Context {Zone : Type}.
Variable stringToComponentBounds : string -> Rectangle.
Variable componentBoundsToString : Rectangle -> string.
Variable resizeRectangleBy : Zone -> Rectangle -> Point -> Rectangle.
Variable handlers : list ComponentTypeHandler.
Variable makeValidCppIdentifier : string -> string.

(** *** ComponentTypeHandler *)

Definition handlerUpdateComponent (comp : Component) (state : ValueTree) : Component :=
  mkComponent (componentProperties comp)
    (stringToComponentBounds (varToString (getProperty state compBoundsProperty)))
    (varToString (getProperty state compNameProperty)).

(** [uid] is the result of [createAlphaNumericUID], [rx] and [ry] those of
    the two calls of [nextInt (100)]. *)
Definition createNewItem (h : ComponentTypeHandler) (root : ValueTree)
    (uid : string) (rx ry : Z) : ValueTree :=
  let v := newValueTree (handlerXmlTag h) in
  let v := setProperty idProperty uid v in
  let v := setProperty compNameProperty EmptyString v in
  let v := setProperty memberNameProperty
             (getNonExistentMemberName makeValidCppIdentifier root
                (handlerMemberNameRoot h)) v in
  setProperty compBoundsProperty
    (componentBoundsToString
       (withPosition (handlerDefaultSize h) (wrap32 (rx + 100), wrap32 (ry + 100)))) v.

(** *** ComponentTypeManager *)

Definition getHandlerFor (type : string) : option ComponentTypeHandler :=
  List.find (fun h => bool_decide (handlerXmlTag h = type)) (rev handlers).

Definition createFromStoredType (value : ValueTree) : option Component :=
  match getHandlerFor (vtType value) with
  | None => None
  | Some handler =>
      match handlerCreateComponent handler with
      | Some c => Some (handlerUpdateComponent c value)
      | None => None
      end
  end.

Definition getTypeNames : list string := List.map handlerName handlers.

Definition getHandler (index : Z) : option ComponentTypeHandler :=
  if index <? 0 then None else handlers !! Z.to_nat index.

Definition getNumHandlers : Z := Z.of_nat (length handlers).

(** *** ComponentDocument *)

(** The handler holds ValueTrees (line 484): [draggedComponents] are the
    positions the nodes had in the group when the handler took them, [None]
    for an invalid tree; [detachedNodes] are the nodes among them that have
    left the document's tree since, under those positions, so that two
    handles on one node share it; [handlerId] tells this handler from the
    earlier ones whose writes the undo history may still record. *)
Record DragHandler : Type :=
  mkDragHandler {
      draggedComponents : list (option nat);
      originalPositions : list Rectangle;
      zone : Zone;
      detachedNodes : gmap nat ValueTree;
      handlerId : nat
    }.

Definition withDetachedNodes (nodes : gmap nat ValueTree) (h : DragHandler)
  : DragHandler :=
  mkDragHandler (draggedComponents h) (originalPositions h) (zone h) nodes (handlerId h).

(** Modelled from the spec: the node [v] at the position [i] leaves the
    tree; a handler that has a handle on it keeps it (section 3). *)
Definition keepNode (i : nat) (v : ValueTree) (h : DragHandler) : DragHandler :=
  if bool_decide (Some i ∈ draggedComponents h)
  then match detachedNodes h !! i with
       | Some _ => h
       | None => withDetachedNodes (<[i := v]> (detachedNodes h)) h
       end
  else h.

(** The last component of [tree] leaves it. *)
Definition keepLastNode (tree : ValueTree) (h : DragHandler) : DragHandler :=
  match last (components tree) with
  | Some v => keepNode (pred (length (components tree))) v h
  | None => h
  end.

Definition keepHandleNode (comps : list ValueTree) (handle : option nat)
    (nodes : gmap nat ValueTree) : gmap nat ValueTree :=
  match handle with
  | Some i =>
      match nodes !! i, comps !! i with
      | None, Some v => <[i := v]> nodes
      | _, _ => nodes
      end
  | None => nodes
  end.

(** Modelled from the spec: all the components [comps] leave the document
    with their root (sections 3 and 4.4); the handler keeps the nodes it has
    handles on.  A handle that stands for no node is the invalid tree from
    then on. *)
Definition detachAll (comps : list ValueTree) (h : DragHandler) : DragHandler :=
  let nodes := foldr (keepHandleNode comps) (detachedNodes h) (draggedComponents h) in
  mkDragHandler
    (List.map (fun handle => handle ≫= fun i => const i <$> nodes !! i)
       (draggedComponents h))
    (originalPositions h) (zone h) nodes (handlerId h).

(** Modelled from the spec: what the reverting of one action on the tree
    [tree] means to the handler: the child whose adding is undone leaves the
    tree, and a write of this handler on a node it keeps is taken back. *)
Definition undoHandlerAction (tree : ValueTree) (h : DragHandler) (a : UndoableAction)
  : DragHandler :=
  match a with
  | SetPropertyAction _ _ _ _ => h
  | AddChildAction _ => keepLastNode tree h
  | SetDetachedPropertyAction owner i name _ oldValue =>
      if decide (owner = handlerId h)
      then withDetachedNodes (alter (restoreProperty name oldValue) i (detachedNodes h)) h
      else h
  end.

Fixpoint undoHandlerActions (actions : list UndoableAction) (tree : ValueTree)
    (h : DragHandler) : DragHandler :=
  match actions with
  | [] => h
  | a :: rest => undoHandlerActions rest (undoAction tree a) (undoHandlerAction tree h a)
  end.

Record ComponentDocument : Type :=
  mkComponentDocument {
      cppFile : File;
      root : ValueTree;
      changedSinceSaved : bool;
      undoManager : UndoManager;
      dragger : option DragHandler
    }.

Definition beginNewTransaction (doc : ComponentDocument) : ComponentDocument :=
  mkComponentDocument (cppFile doc) (root doc) (changedSinceSaved doc)
    (umBeginNewTransaction (undoManager doc)) (dragger doc).

(** The three listener callbacks (lines 163-176). *)
Definition valueTreePropertyChanged (doc : ComponentDocument) : ComponentDocument :=
  mkComponentDocument (cppFile doc) (root doc) true (undoManager doc) (dragger doc).

Definition valueTreeChildrenChanged (doc : ComponentDocument) : ComponentDocument :=
  mkComponentDocument (cppFile doc) (root doc) true (undoManager doc) (dragger doc).

Definition valueTreeParentChanged (doc : ComponentDocument) : ComponentDocument :=
  mkComponentDocument (cppFile doc) (root doc) true (undoManager doc) (dragger doc).

Definition hasChangedSinceLastSave (doc : ComponentDocument) : bool :=
  changedSinceSaved doc.

(** *** Writing (lines 197-236) *)

Definition writeCode : string * string :=
  ("/**  */" +:+ newLine +:+ newLine, "/**  */" +:+ newLine +:+ newLine).

Definition writeMetadata (out : string) (tree : ValueTree) : string :=
  out +:+ "#if 0" +:+ newLine
      +:+ "/** Jucer-generated metadata section - Edit this data at own risk!" +:+ newLine
      +:+ metadataTagStart +:+ newLine +:+ newLine
      +:+ writeToStream (createXml tree)
      +:+ newLine
      +:+ metadataTagEnd +:+ " */" +:+ newLine
      +:+ "#endif" +:+ newLine.

Definition save (fs : FileSystem) (doc : ComponentDocument)
  : bool * FileSystem * ComponentDocument :=
  let '(cpp, header) := writeCode in
  let cpp := writeMetadata cpp (root doc) in
  let '(ok1, fs1) := overwriteFileWithNewDataIfDifferent fs (cppFile doc) cpp in
  if ok1
  then
    let '(ok2, fs2) :=
      overwriteFileWithNewDataIfDifferent fs1 (withFileExtension (cppFile doc) ".h") header in
    if ok2
    then (true, fs2,
           mkComponentDocument (cppFile doc) (root doc) false (undoManager doc) (dragger doc))
    else (false, fs2, doc)
  else (false, fs1, doc).

(** *** Reading (lines 238-306) *)

(** The inner loop of [reload]: the lines up to the first that contains the
    end tag, or up to the end of the stream. *)
Fixpoint readUntilMetadataEnd (lines : list string) : string :=
  match lines with
  | [] => EmptyString
  | line :: rest =>
      if contains line metadataTagEnd then EmptyString
      else line +:+ newLine +:+ readUntilMetadataEnd rest
  end.

(** The outer loop: skip to the first line that contains the start tag. *)
Fixpoint readMetadata (lines : list string) : string :=
  match lines with
  | [] => EmptyString
  | line :: rest =>
      if contains line metadataTagStart then readUntilMetadataEnd rest
      else readMetadata rest
  end.

Definition checkRootObject (tree : ValueTree) : ValueTree :=
  let tree :=
    match getComponentGroup tree with
    | Some _ => tree
    | None => appendChild (newValueTree componentGroupTag) tree
    end in
  if decide (getClassName tree = EmptyString)
  then setProperty classNameProperty "NewComponent" tree
  else tree.

Definition reload (fs : FileSystem) (doc : ComponentDocument)
  : bool * ComponentDocument :=
  match createInputStream fs (cppFile doc) with
  | None => (false, doc)
  | Some text =>
      let xmlString := readMetadata (streamLines text) in
      match getDocumentElement xmlString with
      | Some xml =>
          if hasTagName xml componentDocumentTag
          then
            (* newTree.isValid() holds of every tree that fromXml builds *)
            let newTree := fromXml xml in
            (* root = newTree: the nodes of the old tree leave the document *)
            (true,
              mkComponentDocument (cppFile doc) (checkRootObject newTree) false
                (clearUndoHistory (undoManager doc))
                (detachAll (components (root doc)) <$> dragger doc))
          else (false, doc)
      | None => (false, doc)
      end
  end.

(** The constructor (lines 143-151); the listener is added last. *)
Definition newComponentDocument (fs : FileSystem) (cppFile_ : File) : ComponentDocument :=
  let doc :=
    mkComponentDocument cppFile_ (newValueTree componentDocumentTag) false
      emptyUndoManager None in
  let doc := snd (reload fs doc) in
  mkComponentDocument (cppFile doc) (checkRootObject (root doc)) (changedSinceSaved doc)
    (undoManager doc) (dragger doc).

(** *** Adding components (lines 319-331) *)

(** Modelled from the spec: [addChild (child, -1, getUndoManager())] on the
    component group, as line 329 calls it: nothing on an invalid group; the
    action is recorded and the listener sees the change. *)
Definition addComponent (child : ValueTree) (doc : ComponentDocument) : ComponentDocument :=
  match getComponentGroup (root doc) with
  | None => doc
  | Some _ =>
      mkComponentDocument (cppFile doc)
        (updateComponentGroup (appendChild child) (root doc)) true
        (perform (AddChildAction child) (undoManager doc)) (dragger doc)
  end.

(** The loop of [addNewComponentMenuItems] (lines 315-316), from the index
    [i] on. *)
Fixpoint addMenuItemsFrom (i : Z) (typeNames : list string) (menu : PopupMenu)
  : PopupMenu :=
  match typeNames with
  | [] => menu
  | name :: rest =>
      addMenuItemsFrom (wrap32 (i + 1)) rest
        (addItem (wrap32 (i + menuItemOffset)) ("New " +:+ name) menu)
  end.

Definition addNewComponentMenuItems (menu : PopupMenu) : PopupMenu :=
  addMenuItemsFrom 0 getTypeNames menu.

Definition performNewComponentMenuItem (menuResultCode : Z) (uid : string) (rx ry : Z)
    (doc : ComponentDocument) : ComponentDocument :=
  if (menuItemOffset <=? menuResultCode)
     && (menuResultCode <? wrap32 (menuItemOffset + Z.of_nat (length getTypeNames)))
  then match getHandler (wrap32 (menuResultCode - menuItemOffset)) with
       | Some handler => addComponent (createNewItem handler (root doc) uid rx ry) doc
       | None => doc
       end
  else doc.

(** *** Components and their states (lines 363-421) *)

Definition isStateForComponent (storedState : ValueTree) (comp : Component) : bool :=
  bool_decide (getProperty storedState idProperty = componentProperties comp !! idProperty).

(** The handle on the first child that is the state of [comp]; invalid
    ([None]) when there is none. *)
Definition getComponentState (tree : ValueTree) (comp : Component) : option nat :=
  fst <$> list_find (fun v => isStateForComponent v comp = true) (components tree).

(** The node a handle stands for. *)
Definition handleNode (tree : ValueTree) (handle : option nat) : option ValueTree :=
  match handle with
  | Some i => components tree !! i
  | None => None
  end.

(** [containsComponent]: a loop of its own over the group (lines 396-398). *)
Definition containsComponent (tree : ValueTree) (comp : Component) : bool :=
  existsb (fun v => isStateForComponent v comp) (components tree).

(** [c->getProperties().set (idProperty, v [idProperty])]. *)
Definition setComponentId (v : ValueTree) (c : Component) : Component :=
  mkComponent
    (match getProperty v idProperty with
     | Some s => <[idProperty := s]> (componentProperties c)
     | None => delete idProperty (componentProperties c)
     end)
    (componentBounds c) (componentName c).

(** [createComponent]: line 370 uses the pointer that
    [createFromStoredType] returned without a test. *)
Definition createComponent (doc : ComponentDocument) (index : Z)
  : Outcome (option Component) :=
  match getComponent (root doc) index with
  | Some v =>
      match createFromStoredType v with
      | Some c => Returned (Some (setComponentId v c))
      | None => NullPointerDereference
      end
  | None => Returned None
  end.

Definition updateComponent (doc : ComponentDocument) (comp : Component) : Component :=
  match handleNode (root doc) (getComponentState (root doc) comp) with
  | Some v =>
      match getHandlerFor (vtType v) with
      | Some _ => handlerUpdateComponent comp v
      | None => comp
      end
  | None => comp
  end.

(** *** The drag handler (lines 442-507) *)

(** The node of the document's handler that the handle [i] stands for, when
    that node has left the tree. *)
Definition detachedNode (doc : ComponentDocument) (i : nat)
  : option (DragHandler * ValueTree) :=
  dragger doc ≫= fun h => pair h <$> detachedNodes h !! i.

(** Modelled from the spec: [v.setProperty (name, newValue, undoManager)]
    through a handle of the document's handler, as line 479 calls it:
    nothing on an invalid handle; an action is recorded when the value
    changes.  On a node of the document's tree the listener is called; on a
    node that has left the tree the document's tree and its dirty flag stay
    as they are. *)
Definition setPropertyUndoable (handle : option nat) (name newValue : string)
    (doc : ComponentDocument) : ComponentDocument :=
  match handle with
  | None => doc
  | Some i =>
      match detachedNode doc i with
      | Some (h, v) =>
          if decide (getProperty v name = Some newValue) then doc
          else
            mkComponentDocument (cppFile doc) (root doc) (changedSinceSaved doc)
              (perform
                 (SetDetachedPropertyAction (handlerId h) i name newValue
                    (getProperty v name))
                 (undoManager doc))
              (Some (withDetachedNodes
                       (<[i := setProperty name newValue v]> (detachedNodes h)) h))
      | None =>
          match components (root doc) !! i with
          | None => doc
          | Some v =>
              if decide (getProperty v name = Some newValue) then doc
              else
                mkComponentDocument (cppFile doc)
                  (updateComponentAt i (setProperty name newValue) (root doc)) true
                  (perform (SetPropertyAction i name newValue (getProperty v name))
                     (undoManager doc))
                  (dragger doc)
          end
      end
  end.

(** Modelled from the spec: [UndoManager::undoCurrentTransactionOnly]; the
    listener sees the reverting of what was done to the document's tree. *)
Definition undoCurrentTransactionOnly (doc : ComponentDocument) : ComponentDocument :=
  match currentTransaction (undoManager doc) with
  | [] => doc
  | actions =>
      mkComponentDocument (cppFile doc) (undoActions actions (root doc))
        (changedSinceSaved doc || existsb touchesTree actions)
        (mkUndoManager (transactions (undoManager doc)) [])
        (undoHandlerActions actions (root doc) <$> dragger doc)
  end.

(** Modelled from the spec: [UndoManager::undo]; an open transaction counts
    as the most recent one. *)
Definition undo (doc : ComponentDocument) : bool * ComponentDocument :=
  match transactions (umBeginNewTransaction (undoManager doc)) with
  | [] => (false, doc)
  | t :: older =>
      (true,
        mkComponentDocument (cppFile doc) (undoActions t (root doc))
          (changedSinceSaved doc || existsb touchesTree t)
          (mkUndoManager older []) (undoHandlerActions t (root doc) <$> dragger doc))
  end.

(** The constructor of the handler (lines 445-461): the states of the items
    and their bounds, then a new transaction.  The states are nodes of the
    document's tree, and the handler is a new one. *)
Definition newDragHandler (doc : ComponentDocument) (items : list Component)
    (zone_ : Zone) : DragHandler * ComponentDocument :=
  let states := List.map (getComponentState (root doc)) items in
  (mkDragHandler states
     (List.map (fun v => stringToComponentBounds
                        (varToString (handleNode (root doc) v
                                        ≫= fun n => getProperty n compBoundsProperty)))
        states)
     zone_ ∅ (nextOwner (undoManager doc)),
    beginNewTransaction doc).

Definition move (h : DragHandler) (v : option nat) (distance : Point)
    (originalPos : Rectangle) (doc : ComponentDocument) : ComponentDocument :=
  let newBounds := resizeRectangleBy (zone h) originalPos distance in
  setPropertyUndoable v compBoundsProperty (componentBoundsToString newBounds) doc.

Fixpoint moveAll (h : DragHandler) (distance : Point) (vs : list (option nat))
    (ps : list Rectangle) (doc : ComponentDocument) : ComponentDocument :=
  match vs, ps with
  | v :: vs', p :: ps' => moveAll h distance vs' ps' (move h v distance p doc)
  | _, _ => doc
  end.

Definition drag (h : DragHandler) (e : MouseEvent) (doc : ComponentDocument)
  : ComponentDocument :=
  moveAll h (getOffsetFromDragStart e) (draggedComponents h) (originalPositions h)
    (undoCurrentTransactionOnly doc).

Definition setDragger (d : option DragHandler) (doc : ComponentDocument)
  : ComponentDocument :=
  mkComponentDocument (cppFile doc) (root doc) (changedSinceSaved doc)
    (undoManager doc) d.

(** [dragger = new DragHandler (...)]: a handler that was still there is
    deleted, and its destructor begins a new transaction. *)
Definition beginDrag (items : list Component) (e : MouseEvent) (zone_ : Zone)
    (doc : ComponentDocument) : ComponentDocument :=
  let '(h, doc1) := newDragHandler doc items zone_ in
  let doc2 := match dragger doc with
              | Some _ => beginNewTransaction doc1
              | None => doc1
              end in
  setDragger (Some h) doc2.

Definition continueDrag (e : MouseEvent) (doc : ComponentDocument) : ComponentDocument :=
  match dragger doc with
  | Some h => drag h e doc
  | None => doc
  end.

(** [dragger = 0] deletes the handler, whose destructor begins a new
    transaction. *)
Definition endDrag (e : MouseEvent) (doc : ComponentDocument) : ComponentDocument :=
  match dragger doc with
  | Some h => beginNewTransaction (setDragger None (drag h e doc))
  | None => doc
  end.

(** *** The operations of a document, one step at a time *)

Inductive Operation : Type :=
| OpBeginNewTransaction
| OpPropertyChanged
| OpChildrenChanged
| OpParentChanged
| OpSave
| OpReload
| OpNewComponent (menuResultCode : Z) (uid : string) (rx ry : Z)
| OpBeginDrag (items : list Component) (e : MouseEvent) (zone_ : Zone)
| OpContinueDrag (e : MouseEvent)
| OpEndDrag (e : MouseEvent)
| OpUndo.

Definition step (op : Operation) (st : FileSystem * ComponentDocument)
  : FileSystem * ComponentDocument :=
  let '(fs, doc) := st in
  match op with
  | OpBeginNewTransaction => (fs, beginNewTransaction doc)
  | OpPropertyChanged => (fs, valueTreePropertyChanged doc)
  | OpChildrenChanged => (fs, valueTreeChildrenChanged doc)
  | OpParentChanged => (fs, valueTreeParentChanged doc)
  | OpSave => let '(_, fs1, doc1) := save fs doc in (fs1, doc1)
  | OpReload => (fs, snd (reload fs doc))
  | OpNewComponent code uid rx ry => (fs, performNewComponentMenuItem code uid rx ry doc)
  | OpBeginDrag items e z => (fs, beginDrag items e z doc)
  | OpContinueDrag e => (fs, continueDrag e doc)
  | OpEndDrag e => (fs, endDrag e doc)
  | OpUndo => (fs, snd (undo doc))
  end.

(** Whether the operation is a save or a reload that succeeds. *)
Definition succeeds (op : Operation) (st : FileSystem * ComponentDocument) : bool :=
  match op with
  | OpSave => fst (fst (save (fst st) (snd st)))
  | OpReload => fst (reload (fst st) (snd st))
  | _ => false
  end.

(** A gesture after [beginDrag]: the [continueDrag] calls, then [endDrag]. *)
Definition continueDrags (es : list MouseEvent) (doc : ComponentDocument)
  : ComponentDocument :=
  fold_left (fun d e => continueDrag e d) es doc.

Definition dragGesture (items : list Component) (zone_ : Zone) (start : MouseEvent)
    (updates : list MouseEvent) (finish : MouseEvent) (doc : ComponentDocument)
  : ComponentDocument :=
  endDrag finish (continueDrags updates (beginDrag items start zone_ doc)).

(** The bounds property of the component a handle stands for. *)
Definition boundsAt (tree : ValueTree) (i : nat) : option string :=
  components tree !! i ≫= fun n => getProperty n compBoundsProperty.

(** The tree as it was before the open transaction. *)
Definition treeBeforeTransaction (doc : ComponentDocument) : ValueTree :=
  undoActions (currentTransaction (undoManager doc)) (root doc).

(** What a handler is made with, and keeps. *)
Definition handlerFrame (h : DragHandler)
  : list (option nat) * list Rectangle * Zone * nat :=
  (draggedComponents h, originalPositions h, zone h, handlerId h).

(** Every node of the document's handler is in the document's tree. *)
Definition handlesInTree (doc : ComponentDocument) : Prop :=
  forall h, dragger doc = Some h -> detachedNodes h = ∅.

(** Every node of the document's handler has left the document's tree. *)
Definition handlesDetached (doc : ComponentDocument) : Prop :=
  forall h i,
    dragger doc = Some h -> (Some i ∈ draggedComponents h) -> is_Some (detachedNode doc i).

(** Nothing in the open transaction is an action on the document's tree. *)
Definition recordsOffTree (doc : ComponentDocument) : Prop :=
  existsb touchesTree (currentTransaction (undoManager doc)) = false.

(** The handler as it was before the open transaction. *)
Definition draggerBeforeTransaction (doc : ComponentDocument) : option DragHandler :=
  undoHandlerActions (currentTransaction (undoManager doc)) (root doc) <$> dragger doc.

(** The bounds that a drag by [distance] writes through the handle [i], for
    a handler [h] made on the tree [original]. *)
Definition dragTarget (original : ValueTree) (h : DragHandler) (distance : Point)
    (i : nat) : string :=
  componentBoundsToString
    (resizeRectangleBy (zone h)
       (stringToComponentBounds (varToString (boundsAt original i))) distance).

(** In the course of a drag every component has its original bounds or the
    bounds the drag gives it, and something is recorded only if some bounds
    differ. *)
Definition draggedFrom (original : ValueTree) (h : DragHandler) (distance : Point)
    (doc : ComponentDocument) : Prop :=
  (forall i, boundsAt (root doc) i = boundsAt original i
             \/ (boundsAt (root doc) i = Some (dragTarget original h distance i)
                 /\ boundsAt original i <> Some (dragTarget original h distance i)))
  /\ (currentTransaction (undoManager doc) <> [] ->
      exists i, boundsAt (root doc) i <> boundsAt original i).

(** The number of children of the root that are component groups. *)
Definition countComponentGroups (tree : ValueTree) : nat :=
  length (List.filter (fun c => hasType c componentGroupTag) (vtChildren tree)).

End Document.

(** ** Recognizing a component file (lines 178-195) *)

Section ComponentFiles.

(** [File::hasFileExtension], outside this file. *)
Variable hasFileExtension : File -> string -> bool.

Definition isComponentFile (fs : FileSystem) (file : File) : bool :=
  if hasFileExtension file ".cpp"
  then match createInputStream fs file with
       | Some text =>
           existsb (fun line => contains line metadataTagStart) (streamLines text)
       | None => false
       end
  else false.

End ComponentFiles.

(** ** Definitions used in the statements *)

(** The member names of the components, in the order of the group. *)
Definition memberNames (root : ValueTree) : list string :=
  omap (fun v => getProperty v memberNameProperty) (components root).

(** The names that the loop tries after the first, [d] of them, when the
    counter starts at [wrap32 c]. *)
Definition candidates (original : string) (c : Z) (d : nat) : list string :=
  List.map (fun k => numbered original (wrap32 (c + Z.of_nat k))) (seq 0 d).

(** What [checkRootObject] establishes: a component group, at least, and a
    class name that is not empty. *)
Definition rootChecked (tree : ValueTree) : Prop :=
  (1 <= countComponentGroups tree)%nat /\ getClassName tree <> EmptyString.

(** The two facts about the root that the operations of a document leave as
    they are. *)
Definition rootFrame (tree : ValueTree) : nat * string :=
  (countComponentGroups tree, getClassName tree).

(** The lines of the metadata block as [reload] cuts it out of a file:
    [before], a line with the start tag, [body], and after it either the end
    of the file or a line with the end tag. *)
Definition metadataLayout (before : list string) (startLine : string)
    (body after : list string) : Prop :=
  Forall (fun l => contains l metadataTagStart = false) before
  /\ contains startLine metadataTagStart = true
  /\ Forall (fun l => contains l metadataTagEnd = false) body
  /\ (after = [] \/ exists endLine rest,
         after = endLine :: rest /\ contains endLine metadataTagEnd = true).

(** A text at which the reading of a name stops. *)
Definition stopsName (s : string) : bool :=
  match s with
  | EmptyString => true
  | String c _ => negb (containsChar xmlNameChars c)
  end.

(** A text that ends the attributes of an element. *)
Definition opensOrCloses (s : string) : bool := startsWith s "/" || startsWith s ">".

(** The text of the children followed by [k]. *)
Definition childrenText (indent : nat) (children : list XmlElement) (k : string) : string :=
  foldr (fun c acc => writeElementAsText indent c +:+ newLine +:+ acc) k children.

(** The ids of the components, in the order of the group; [None] for a
    component without the property. *)
Definition componentIds (tree : ValueTree) : list (option string) :=
  List.map (fun v => getProperty v idProperty) (components tree).

(** The root of a document made without a file to read: a COMPONENT with the
    default class name and an empty component group. *)
Definition defaultRoot : ValueTree :=
  mkValueTree componentDocumentTag {[ classNameProperty := "NewComponent" ]}
    [newValueTree componentGroupTag].

(** Every component of the group has a type that some handler answers
    for. *)
Definition knownTypes (handlers : list ComponentTypeHandler) (tree : ValueTree) : Prop :=
  Forall (fun v => exists h, h ∈ handlers /\ handlerXmlTag h = vtType v) (components tree).

(** Two documents that differ at most in the dirty flag. *)
Definition sameButFlag {Zone : Type} (a b : @ComponentDocument Zone) : Prop :=
  cppFile a = cppFile b /\ root a = root b /\ undoManager a = undoManager b
  /\ dragger a = dragger b.

(** The items that [addNewComponentMenuItems] adds for the handlers. *)
Definition newComponentItems (handlers : list ComponentTypeHandler) : PopupMenu :=
  imap (fun i h => (menuItemOffset + Z.of_nat i, "New " +:+ handlerName h)) handlers.

(** ** A concrete configuration for the examples *)

Module Demo.

(** Modelled from the spec: the zone of a drag is not in this file; the
    examples use one zone that moves the rectangle and one that drags its
    right edge. *)
Inductive Zone : Type := ZoneCentre | ZoneRight.

(** Modelled from the spec: a rectangle is written as the four numbers
    x y w h (section 6). *)
Definition componentBoundsToString (r : Rectangle) : string :=
  pretty (rectX r) +:+ " " +:+ pretty (rectY r) +:+ " " +:+ pretty (rectW r)
    +:+ " " +:+ pretty (rectH r).

Definition digitValue (c : ascii) : option Z := Z.of_nat <$> Ascii.is_nat c.

Fixpoint parseDigits (acc : Z) (s : string) : Z :=
  match s with
  | EmptyString => acc
  | String c r =>
      match digitValue c with
      | Some d => parseDigits (10 * acc + d) r
      | None => acc
      end
  end.

Definition parseInt (s : string) : Z :=
  match s with
  | String "-" r => - parseDigits 0 r
  | _ => parseDigits 0 s
  end.

(** Modelled from the spec: the four numbers read back; the empty rectangle
    for any other text. *)
Definition stringToComponentBounds (s : string) : Rectangle :=
  match List.map parseInt (String.words s) with
  | [x; y; w; h] => mkRectangle x y w h
  | _ => mkRectangle 0 0 0 0
  end.

(** Modelled from the spec: the new bounds are a function of the zone and of
    the offset from the start of the drag (section 4.6). *)
Definition resizeRectangleBy (z : Zone) (r : Rectangle) (distance : Point) : Rectangle :=
  match z with
  | ZoneCentre =>
      mkRectangle (rectX r + fst distance) (rectY r + snd distance) (rectW r) (rectH r)
  | ZoneRight =>
      mkRectangle (rectX r) (rectY r) (Z.max 0 (rectW r + fst distance)) (rectH r)
  end.

Definition blankComponent : Component :=
  mkComponent ∅ (mkRectangle 0 0 0 0) EmptyString.

(** Modelled from the spec: the two handlers that the manager registers
    (lines 91-92) are not in this file; the tag of the text button is that of
    section 6. *)
Definition textButtonHandler : ComponentTypeHandler :=
  mkComponentTypeHandler "TextButton" "TEXTBUTTON" "textButton" (Some blankComponent)
    (mkRectangle 0 0 150 24).

Definition toggleButtonHandler : ComponentTypeHandler :=
  mkComponentTypeHandler "ToggleButton" "TOGGLEBUTTON" "toggleButton" (Some blankComponent)
    (mkRectangle 0 0 150 24).

Definition handlers : list ComponentTypeHandler := [textButtonHandler; toggleButtonHandler].

Definition Document : Type := @ComponentDocument Zone.

Definition cpp : File := ("Demo", ".cpp").

Definition noFiles : FileSystem := mkFileSystem ∅ (fun _ => true).

Definition fileSystemWith (text : string) : FileSystem :=
  mkFileSystem {[ cpp := text ]} (fun _ => true).

Definition readOnly (fs : FileSystem) : FileSystem :=
  mkFileSystem (fileContents fs) (fun _ => false).

Definition component (tag id name memberName position : string) : ValueTree :=
  mkValueTree tag
    (<[idProperty := id]>
       (<[compNameProperty := name]>
          (<[memberNameProperty := memberName]>
             {[ compBoundsProperty := position ]}))) [].

Definition buttonNamed (memberName : string) : ValueTree :=
  mkValueTree "TEXTBUTTON" {[ memberNameProperty := memberName ]} [].

Definition documentOf (comps : list ValueTree) : ValueTree :=
  mkValueTree componentDocumentTag {[ classNameProperty := "Demo" ]}
    [mkValueTree componentGroupTag ∅ comps].

Definition holding (tree : ValueTree) : Document :=
  mkComponentDocument cpp tree true emptyUndoManager None.

Definition twoButtons : ValueTree :=
  documentOf [buttonNamed "button1"; buttonNamed "button2"].

Definition threeButtons : ValueTree :=
  documentOf [buttonNamed "button"; buttonNamed "button1"; buttonNamed "button2"].

(** A text button and a node of a type that has no handler. *)
Definition okButton : ValueTree := component "TEXTBUTTON" "a1" "OK" "okButton" "10 20 150 24".

Definition slider : ValueTree := component "SLIDER" "b2" "Gain" "gainSlider" "10 60 150 24".

Definition panel : ValueTree := documentOf [okButton; slider].

(** A text button whose name holds the text of the end tag. *)
Definition taggedButton : ValueTree :=
  component "TEXTBUTTON" "c3" metadataTagEnd "button" "10 20 150 24".

Definition taggedPanel : ValueTree := documentOf [taggedButton].

Definition pointer (x y : Z) : MouseEvent := mkMouseEvent (x, y).

(** The live component of [okButton]. *)
Definition okComponent : Component :=
  mkComponent {[ idProperty := "a1" ]} (mkRectangle 10 20 150 24) "OK".

(** A file with the start tag and no end tag. *)
Definition openEndedText : string :=
  metadataTagStart +:+ newLine +:+ "<COMPONENT className=" +:+ String quoteChar "Demo"
    +:+ String quoteChar "/>" +:+ newLine.

(** A file whose root has two component groups. *)
Definition twoGroupsText : string :=
  metadataTagStart +:+ newLine
    +:+ "<COMPONENT><COMPONENTS/><COMPONENTS/></COMPONENT>" +:+ newLine
    +:+ metadataTagEnd +:+ " */" +:+ newLine.

(** Modelled from the spec: the extension of a file name is compared with
    the one asked for. *)
Definition hasFileExtension (f : File) (ext : string) : bool := bool_decide (snd f = ext).

(** A document bound to a header file. *)
Definition header : File := ("Demo", ".h").

Definition onHeader (tree : ValueTree) : Document :=
  mkComponentDocument header tree true emptyUndoManager None.

(** A document that has no unsaved change. *)
Definition clean (tree : ValueTree) : Document :=
  mkComponentDocument cpp tree false emptyUndoManager None.

(** The files after the tree has been written. *)
Definition saved (tree : ValueTree) : FileSystem :=
  fileSystemWith (writeMetadata (fst writeCode) tree).

(** The document after [beginDrag] on the live component of [okButton]. *)
Definition dragging (doc : Document) : Document :=
  beginDrag stringToComponentBounds [okComponent] (pointer 0 0) ZoneCentre doc.

End Demo.

(** * Properties

    ** Member names *)

Lemma find_is_Some {A} (p : A -> bool) (l : list A) :
  is_Some (List.find p l) <-> exists x, x ∈ l /\ p x = true.
Proof.
  induction l as [|a l IH]; simpl.
  - split; [intros [? ?]; discriminate | intros (x & Hx & _); inversion Hx].
  - destruct (p a) eqn:Ha.
    + split; [intros _; exists a; split; [left | done] | eauto].
    + rewrite IH. split.
      * intros (x & Hx & Hp). exists x. split; [by right | done].
      * intros (x & Hx & Hp). inversion Hx; subst; [congruence | eauto].
Qed.

Lemma memberName_taken root name :
  is_Some (getComponentWithMemberName root name) <-> name ∈ memberNames root.
Proof.
  unfold getComponentWithMemberName, memberNames. rewrite find_is_Some.
  rewrite list_elem_of_omap. split.
  - intros (v & Hv & Hp). exists v. rewrite list_elem_of_In, <- in_rev, <- list_elem_of_In in Hv. split; [done |].
    unfold hasMemberName in Hp. by apply bool_decide_eq_true in Hp.
  - intros (v & Hv & Hp). exists v. rewrite list_elem_of_In, <- in_rev, <- list_elem_of_In. split; [done |].
    unfold hasMemberName. by apply bool_decide_eq_true.
Qed.

Lemma memberNames_length root : (length (memberNames root) <= getNumComponents root)%nat.
Proof.
  unfold memberNames, getNumComponents.
  induction (components root) as [|v l IH]; [simpl; lia |].
  change (omap ?f (v :: l)) with
    (match f v with Some y => y :: omap f l | None => omap f l end).
  destruct (getProperty v memberNameProperty); simpl length; lia.
Qed.

Lemma numbered_inj original a b : numbered original a = numbered original b -> a = b.
Proof.
  unfold numbered. intros H. apply (inj (String.app _)) in H. by apply (inj pretty) in H.
Qed.

Lemma wrap32_inj (a b : Z) : - 2 ^ 32 < a - b < 2 ^ 32 -> wrap32 a = wrap32 b -> a = b.
Proof.
  unfold wrap32. intros Hclose Heq.
  pose proof (Z.div_mod (a + 2 ^ 31) (2 ^ 32) ltac:(lia)) as Ha.
  pose proof (Z.div_mod (b + 2 ^ 31) (2 ^ 32) ltac:(lia)) as Hb.
  assert ((a + 2 ^ 31) mod 2 ^ 32 = (b + 2 ^ 31) mod 2 ^ 32) as Hmod by lia.
  rewrite Hmod in Ha. lia.
Qed.

Lemma wrap32_succ (c : Z) : wrap32 (wrap32 c + 1) = wrap32 (c + 1).
Proof.
  unfold wrap32. f_equal.
  replace ((c + 2 ^ 31) mod 2 ^ 32 - 2 ^ 31 + 1 + 2 ^ 31)
    with ((c + 2 ^ 31) mod 2 ^ 32 + 1) by lia.
  replace (c + 1 + 2 ^ 31) with (c + 2 ^ 31 + 1) by lia.
  by rewrite Zplus_mod_idemp_l.
Qed.

Lemma candidates_NoDup original c d :
  Z.of_nat d <= 2 ^ 32 -> NoDup (candidates original c d).
Proof.
  intros Hd. unfold candidates. apply NoDup_fmap_2_strong; [| apply NoDup_seq].
  intros a b Ha Hb H. apply numbered_inj in H.
  apply list_elem_of_In, in_seq in Ha. apply list_elem_of_In, in_seq in Hb.
  apply wrap32_inj in H; lia.
Qed.

Lemma candidates_free root original c :
  Z.of_nat (getNumComponents root) < 2 ^ 32 ->
  exists k, (k <= getNumComponents root)%nat
            /\ numbered original (wrap32 (c + Z.of_nat k)) ∉ memberNames root.
Proof.
  intros Hsize.
  destruct (decide (Forall (fun s => s ∈ memberNames root)
                      (candidates original c (S (getNumComponents root))))) as [Hall | Hnot].
  - exfalso.
    assert (candidates original c (S (getNumComponents root)) ⊆+ memberNames root) as Hsub.
    { apply NoDup_submseteq; [apply candidates_NoDup; lia |].
      intros x Hx. rewrite Forall_forall in Hall. by apply Hall. }
    apply submseteq_length in Hsub.
    unfold candidates in Hsub. rewrite length_map, length_seq in Hsub.
    pose proof (memberNames_length root). lia.
  - apply not_Forall_Exists in Hnot; [| intros x; apply _].
    apply Exists_exists in Hnot as (s & Hs & Hfree).
    unfold candidates in Hs. apply list_elem_of_In in Hs. apply in_map_iff in Hs as (k & <- & Hk).
    apply in_seq in Hk. exists k. split; [lia | done].
Qed.

Lemma memberNameLoop_run root original :
  forall (d fuel : nat) (suggestedName : string) (c : Z),
    (d < fuel)%nat ->
    numbered original (wrap32 (c + Z.of_nat d)) ∉ memberNames root ->
    exists r k, memberNameLoop root fuel original suggestedName (wrap32 c) = Some (r, k)
                /\ (k <= S d)%nat
                /\ getComponentWithMemberName root r = None.
Proof.
  induction d as [|d IH]; intros fuel suggestedName c Hfuel Hfree;
    (destruct fuel as [|fuel]; [lia |]); simpl;
    destruct (getComponentWithMemberName root suggestedName) eqn:Hs;
    try (exists suggestedName, O; split; [done | split; [lia | done]]).
  - rewrite Z.add_0_r in Hfree.
    assert (getComponentWithMemberName root (numbered original (wrap32 c)) = None) as Hn.
    { apply eq_None_not_Some. by rewrite memberName_taken. }
    destruct fuel; simpl; rewrite Hn; exists (numbered original (wrap32 c)), 1%nat;
      (split; [done | split; [lia | done]]).
  - rewrite wrap32_succ.
    destruct (IH fuel (numbered original (wrap32 c)) (c + 1)) as (r & k & Hrun & Hk & Hr).
    + lia.
    + replace (c + 1 + Z.of_nat d) with (c + Z.of_nat (S d)) by lia. done.
    + rewrite Hrun. exists r, (S k). split; [done | split; [lia | done]].
Qed.

Lemma memberNameLoop_more_fuel root original :
  forall fuel fuel' suggestedName num res,
    (fuel <= fuel')%nat ->
    memberNameLoop root fuel original suggestedName num = Some res ->
    memberNameLoop root fuel' original suggestedName num = Some res.
Proof.
  induction fuel as [|fuel IH]; intros fuel' s num res Hle Hrun.
  - simpl in Hrun. destruct fuel'; simpl;
      destruct (getComponentWithMemberName root s); congruence.
  - destruct fuel' as [|fuel']; [lia |]. simpl in *.
    destruct (getComponentWithMemberName root s); [| done].
    destruct (memberNameLoop root fuel original (numbered original num) (wrap32 (num + 1)))
      as [[r k]|] eqn:Hrec; [| done].
    by rewrite (IH fuel' _ _ _ ltac:(lia) Hrec).
Qed.

Lemma dropLastCharacter_length s :
  s <> EmptyString -> S (String.length (dropLastCharacter s)) = String.length s.
Proof.
  induction s as [|c s IH]; [done |]. intros _.
  destruct s as [|c' s']; [done |].
  change (dropLastCharacter (String c (String c' s')))
    with (String c (dropLastCharacter (String c' s'))).
  cbn [String.length]. f_equal. by apply IH.
Qed.

Lemma dropTrailingDigits_done fuel s :
  (String.length s <= fuel)%nat ->
  containsChar digits (getLastCharacter (dropTrailingDigits fuel s)) = false.
Proof.
  revert s. induction fuel as [|fuel IH]; intros s Hlen.
  - destruct s; [reflexivity | simpl in Hlen; lia].
  - cbn [dropTrailingDigits].
    destruct (containsChar digits (getLastCharacter s)) eqn:Hd; [| done].
    apply IH. destruct (decide (s = EmptyString)) as [-> | Hne]; [simpl; lia |].
    pose proof (dropLastCharacter_length s Hne). lia.
Qed.

(** C9: for every suggested name and every component group (of a size that
    [getNumChildren] can return, an int), [getNonExistentMemberName]
    terminates: with any fuel above the number of components the loop of
    lines 429-436 ends, its body having run at most that number plus one
    times; the name returned is free, and the inner loop of lines 432-433
    ends too, on a name without a final digit. *)
Theorem getNonExistentMemberName_terminates
    (makeValidCppIdentifier : string -> string) (root : ValueTree) (suggestedName : string) :
  Z.of_nat (getNumComponents root) < 2 ^ 31 ->
  exists (r : string) (k : nat),
    (forall fuel, (getNumComponents root < fuel)%nat ->
                  runMemberNameLoop makeValidCppIdentifier root fuel suggestedName = Some (r, k))
    /\ (k <= getNumComponents root + 1)%nat
    /\ getNonExistentMemberName makeValidCppIdentifier root suggestedName = r
    /\ getComponentWithMemberName root r = None
    /\ containsChar digits
         (getLastCharacter (withoutTrailingDigits (makeValidCppIdentifier suggestedName))) = false.
Proof.
  intros Hsize.
  set (original := makeValidCppIdentifier suggestedName).
  destruct (candidates_free root original 1) as (d & Hd & Hfree); [lia |].
  destruct (memberNameLoop_run root original d (S (getNumComponents root)) original 1)
    as (r & k & Hrun & Hk & Hr); [lia | done |].
  change (wrap32 1) with 1 in Hrun.
  exists r, k. split; [| split; [lia | split; [| split; [done |]]]].
  - intros fuel Hfuel. unfold runMemberNameLoop. fold original.
    apply (memberNameLoop_more_fuel _ _ (S (getNumComponents root))); [lia | done].
  - unfold getNonExistentMemberName, runMemberNameLoop. fold original. by rewrite Hrun.
  - apply dropTrailingDigits_done. lia.
Qed.
Lemma memberName_free root name :
  getComponentWithMemberName root name = None <-> name ∉ memberNames root.
Proof. rewrite <- memberName_taken, eq_None_not_Some. done. Qed.

Lemma getNonExistentMemberName_free mk root suggestedName :
  getComponentWithMemberName root (mk suggestedName) = None ->
  getNonExistentMemberName mk root suggestedName = mk suggestedName.
Proof.
  intros Hfree. unfold getNonExistentMemberName, runMemberNameLoop.
  cbn [memberNameLoop]. by rewrite Hfree.
Qed.

(** C3, where the spec's example fails: with members button1 and button2 the
    name button is free and comes back as it is, not as button3. *)
Lemma getNonExistentMemberName_button_unchanged :
  memberNames Demo.twoButtons = ["button1"; "button2"]
  /\ getNonExistentMemberName makeValidCppIdentifierModel Demo.twoButtons "button" = "button"
  /\ getNonExistentMemberName makeValidCppIdentifierModel Demo.twoButtons "button" <> "button3".
Proof. vm_compute. repeat split; congruence. Qed.

(** C3, in the form that holds of the code: when the member names are
    exactly button1 and button2, [getNonExistentMemberName] returns button
    for button; when they are exactly button, button1 and button2 it returns
    button3; and a suggestion whose normalized form is no member name is
    returned in that normalized form, unchanged. *)
Theorem getNonExistentMemberName_spec :
  (forall root : ValueTree,
      (forall s, s ∈ memberNames root <-> s ∈ ["button1"; "button2"]) ->
      getNonExistentMemberName makeValidCppIdentifierModel root "button" = "button")
  /\ (forall root : ValueTree,
         (forall s, s ∈ memberNames root <-> s ∈ ["button"; "button1"; "button2"]) ->
         getNonExistentMemberName makeValidCppIdentifierModel root "button" = "button3")
  /\ (forall (makeValidCppIdentifier : string -> string) (root : ValueTree)
             (suggestedName : string),
         getComponentWithMemberName root (makeValidCppIdentifier suggestedName) = None ->
         getNonExistentMemberName makeValidCppIdentifier root suggestedName
         = makeValidCppIdentifier suggestedName).
Proof.
  split; [| split].
  - intros root Hnames.
    rewrite (getNonExistentMemberName_free makeValidCppIdentifierModel root "button");
      [reflexivity |].
    change (makeValidCppIdentifierModel "button") with "button".
    apply memberName_free. rewrite Hnames.
    intros H. repeat (apply elem_of_cons in H as [H | H]; [discriminate |]). inversion H.
  - intros root Hnames.
    assert (forall s, s ∈ ["button"; "button1"; "button2"] ->
                      is_Some (getComponentWithMemberName root s)) as Htaken.
    { intros s Hs. apply memberName_taken. by apply Hnames. }
    assert (getComponentWithMemberName root "button3" = None) as Hfree.
    { apply memberName_free. rewrite Hnames. intros H.
      repeat (apply elem_of_cons in H as [H | H]; [discriminate |]). inversion H. }
    assert (memberNameLoop root 3 "button" "button" 1 = Some ("button3", 3%nat)) as Hrun.
    { cbn [memberNameLoop].
      destruct (Htaken "button") as [? ->]; [compute_done |].
      change (numbered "button" 1) with "button1".
      destruct (Htaken "button1") as [? ->]; [compute_done |].
      change (numbered "button" (wrap32 (1 + 1))) with "button2".
      destruct (Htaken "button2") as [? ->]; [compute_done |].
      change (numbered "button" (wrap32 (wrap32 (1 + 1) + 1))) with "button3".
      by rewrite Hfree. }
    assert (3 <= getNumComponents root)%nat as Hsize.
    { pose proof (memberNames_length root) as Hlen.
      assert (["button"; "button1"; "button2"] ⊆+ memberNames root) as Hsub.
      { apply NoDup_submseteq; [| intros s Hs; by apply Hnames].
        repeat (apply NoDup_cons; split; [compute_done |]). apply NoDup_nil_2. }
      apply submseteq_length in Hsub. simpl in Hsub. lia. }
    unfold getNonExistentMemberName, runMemberNameLoop.
    change (makeValidCppIdentifierModel "button") with "button".
    by rewrite (memberNameLoop_more_fuel _ _ 3%nat (S (getNumComponents root)) _ _ _
                  ltac:(lia) Hrun).
  - intros mk root suggestedName. apply getNonExistentMemberName_free.
Qed.

Lemma getNonExistentMemberName_spec_witness :
  getNonExistentMemberName makeValidCppIdentifierModel Demo.twoButtons "button" = "button"
  /\ getNonExistentMemberName makeValidCppIdentifierModel Demo.threeButtons "button" = "button3"
  /\ getNonExistentMemberName makeValidCppIdentifierModel Demo.threeButtons "my slider"
     = "myslider".
Proof.
  destruct getNonExistentMemberName_spec as (H1 & H2 & H3).
  split; [| split].
  - apply (H1 Demo.twoButtons). intros s. vm_compute. done.
  - apply (H2 Demo.threeButtons). intros s. vm_compute. done.
  - apply (H3 makeValidCppIdentifierModel Demo.threeButtons "my slider"). vm_compute. reflexivity.
Defined.

(** ** Writes into the component group *)

Lemma alterFirst_count (p : ValueTree -> bool) (f : ValueTree -> ValueTree)
    (l : list ValueTree) :
  (forall x, p (f x) = p x) ->
  length (List.filter p (alterFirst p f l)) = length (List.filter p l).
Proof.
  intros Hf. induction l as [|x l IH]; [done |]. cbn [alterFirst].
  destruct (p x) eqn:Hx.
  - cbn [List.filter]. by rewrite Hf, Hx.
  - cbn [List.filter]. by rewrite Hx.
Qed.

Lemma rootFrame_updateComponentGroup (f : ValueTree -> ValueTree) (tree : ValueTree) :
  (forall x, vtType (f x) = vtType x) ->
  rootFrame (updateComponentGroup f tree) = rootFrame tree.
Proof.
  intros Hf. unfold rootFrame, countComponentGroups, updateComponentGroup. cbn. f_equal.
  apply alterFirst_count. intros x. unfold hasType. by rewrite Hf.
Qed.

Lemma rootFrame_updateComponentAt (i : nat) (f : ValueTree -> ValueTree) (tree : ValueTree) :
  rootFrame (updateComponentAt i f tree) = rootFrame tree.
Proof. by apply rootFrame_updateComponentGroup. Qed.

Lemma rootFrame_undoAction (tree : ValueTree) (a : UndoableAction) :
  rootFrame (undoAction tree a) = rootFrame tree.
Proof.
  destruct a as [i name new [old|] | child | owner i name new old]; cbn [undoAction];
    [apply rootFrame_updateComponentAt .. | by apply rootFrame_updateComponentGroup | done].
Qed.

Lemma rootFrame_undoActions (actions : list UndoableAction) (tree : ValueTree) :
  rootFrame (undoActions actions tree) = rootFrame tree.
Proof.
  revert tree. induction actions as [|a actions IH]; intros tree; [done |].
  unfold undoActions in *. cbn [fold_left]. by rewrite IH, rootFrame_undoAction.
Qed.

Lemma find_None_filter {A} (p : A -> bool) (l : list A) :
  List.find p l = None -> List.filter p l = [].
Proof.
  induction l as [|x l IH]; [done |]. cbn. destruct (p x); [discriminate | done].
Qed.

Lemma find_Some_filter {A} (p : A -> bool) (l : list A) (x : A) :
  List.find p l = Some x -> (1 <= length (List.filter p l))%nat.
Proof.
  induction l as [|y l IH]; [discriminate |]. cbn. destruct (p y); cbn; [lia | done].
Qed.

Lemma checkRootObject_checked (tree : ValueTree) :
  rootChecked (checkRootObject tree)
  /\ countComponentGroups (checkRootObject tree)
     = Nat.max 1 (countComponentGroups tree).
Proof.
  unfold checkRootObject.
  set (tree1 := match getComponentGroup tree with
                | Some _ => tree
                | None => appendChild (newValueTree componentGroupTag) tree
                end).
  assert (countComponentGroups tree1 = Nat.max 1 (countComponentGroups tree)) as Hcount.
  { subst tree1. unfold getComponentGroup, getChildWithName, countComponentGroups.
    destruct (List.find _ (vtChildren tree)) as [g|] eqn:Hfind.
    - apply find_Some_filter in Hfind. lia.
    - apply find_None_filter in Hfind. cbn [appendChild vtChildren].
      rewrite List.filter_app, Hfind. done. }
  assert (forall t, countComponentGroups (setProperty classNameProperty "NewComponent" t)
                    = countComponentGroups t) as Hset by done.
  unfold rootChecked. case_decide as Hname.
  - rewrite Hset, Hcount. split; [split; [lia |] | done].
    unfold getClassName, getProperty, setProperty. cbn [vtProperties].
    by rewrite lookup_insert_eq.
  - rewrite Hcount. split; [split; [lia | done] | done].
Qed.

(** *** Undoing a write *)

Lemma alter_alter {A} (f g : A -> A) (i : nat) (l : list A) :
  alter f i (alter g i l) = alter (fun x => f (g x)) i l.
Proof. revert i. induction l as [|x l IH]; intros [|i]; cbn; f_equal; auto. Qed.

Lemma alter_fixed {A} (f : A -> A) (i : nat) (l : list A) (x : A) :
  l !! i = Some x -> f x = x -> alter f i l = l.
Proof.
  revert i. induction l as [|y l IH]; intros [|i] Hi Hf; cbn in *; try done.
  - injection Hi as ->. by rewrite Hf.
  - f_equal. by apply IH.
Qed.

Lemma alterFirst_alterFirst (p : ValueTree -> bool) (f g : ValueTree -> ValueTree)
    (l : list ValueTree) :
  (forall x, p (g x) = p x) ->
  alterFirst p f (alterFirst p g l) = alterFirst p (fun x => f (g x)) l.
Proof.
  intros Hg. induction l as [|x l IH]; [done |]. cbn [alterFirst].
  destruct (p x) eqn:Hx; cbn [alterFirst].
  - by rewrite Hg, Hx.
  - by rewrite Hx, IH.
Qed.

Lemma alterFirst_fixed (p : ValueTree -> bool) (f : ValueTree -> ValueTree)
    (l : list ValueTree) :
  (forall x, List.find p l = Some x -> f x = x) -> alterFirst p f l = l.
Proof.
  induction l as [|x l IH]; intros Hf; [done |]. cbn [alterFirst List.find] in *.
  destruct (p x); [by rewrite Hf | by rewrite IH].
Qed.

Lemma restore_setProperty (v : ValueTree) (name value : string) :
  match getProperty v name with
  | Some old => setProperty name old (setProperty name value v)
  | None => removeProperty name (setProperty name value v)
  end = v.
Proof.
  destruct v as [tag props children]. unfold getProperty, setProperty, removeProperty.
  cbn [vtType vtProperties vtChildren]. destruct (props !! name) as [old|] eqn:Hold.
  - by rewrite insert_insert_eq, insert_id.
  - by rewrite delete_insert_id.
Qed.

Lemma undoAction_setProperty (tree v : ValueTree) (i : nat) (name value : string) :
  components tree !! i = Some v ->
  undoAction (updateComponentAt i (setProperty name value) tree)
    (SetPropertyAction i name value (getProperty v name))
  = tree.
Proof.
  intros Hv.
  set (restore := fun x : ValueTree =>
                    match getProperty v name with
                    | Some old => setProperty name old x
                    | None => removeProperty name x
                    end).
  assert (undoAction (updateComponentAt i (setProperty name value) tree)
            (SetPropertyAction i name value (getProperty v name))
          = updateComponentAt i restore (updateComponentAt i (setProperty name value) tree))
    as -> by (unfold restore; cbn [undoAction]; by destruct (getProperty v name)).
  unfold updateComponentAt, updateComponentGroup, setChildren.
  cbn [vtChildren vtType vtProperties].
  rewrite alterFirst_alterFirst by done.
  rewrite alterFirst_fixed; [by destruct tree |].
  intros g Hg. cbn [vtChildren vtType vtProperties].
  unfold components, getComponentGroup, getChildWithName in Hv. rewrite Hg in Hv.
  rewrite alter_alter, (alter_fixed _ _ _ v Hv); [by destruct g |].
  unfold restore. apply restore_setProperty.
Qed.

Lemma find_alterFirst (p : ValueTree -> bool) (f : ValueTree -> ValueTree)
    (l : list ValueTree) :
  (forall x, p (f x) = p x) -> List.find p (alterFirst p f l) = f <$> List.find p l.
Proof.
  intros Hf. induction l as [|x l IH]; [done |]. cbn [alterFirst List.find].
  destruct (p x) eqn:Hx; cbn [List.find]; [by rewrite Hf, Hx | by rewrite Hx].
Qed.

Lemma components_updateComponentAt (i : nat) (f : ValueTree -> ValueTree) (tree : ValueTree) :
  components (updateComponentAt i f tree) = alter f i (components tree).
Proof.
  unfold components, getComponentGroup, getChildWithName, updateComponentAt,
    updateComponentGroup, setChildren.
  cbn [vtChildren]. rewrite find_alterFirst by done.
  by destruct (List.find _ (vtChildren tree)).
Qed.

Lemma boundsAt_updateComponentAt (tree : ValueTree) (i j : nat) (value : string) :
  is_Some (components tree !! i) ->
  boundsAt (updateComponentAt i (setProperty compBoundsProperty value) tree) j
  = if decide (i = j) then Some value else boundsAt tree j.
Proof.
  intros [v Hv]. unfold boundsAt. rewrite components_updateComponentAt.
  case_decide as Hij.
  - subst j. rewrite list_lookup_alter_eq, Hv. cbn.
    unfold getProperty, setProperty. cbn [vtProperties]. by rewrite lookup_insert_eq.
  - by rewrite list_lookup_alter_ne.
Qed.

(** ** The serialized form reads back *)

Lemma append_assoc (a b c : string) : (a +:+ b) +:+ c = a +:+ (b +:+ c).
Proof.
  induction a as [|x a IH]; [reflexivity |].
  change (String x ((a +:+ b) +:+ c) = String x (a +:+ (b +:+ c))). by rewrite IH.
Qed.

Lemma length_append (a b : string) :
  String.length (a +:+ b) = (String.length a + String.length b)%nat.
Proof.
  induction a as [|c a IH]; [done |].
  change (String c a +:+ b) with (String c (a +:+ b)). cbn [String.length]. by rewrite IH.
Qed.

Lemma stripPrefix_app (p s : string) : stripPrefix p (p +:+ s) = Some s.
Proof.
  induction p as [|c p IH]; [done |].
  change (String c p +:+ s) with (String c (p +:+ s)). cbn [stripPrefix].
  by rewrite decide_True.
Qed.

Lemma nameChar_facts (c : ascii) :
  containsChar xmlNameChars c = true ->
  Ascii.is_space c = false /\ c <> "/"%char /\ c <> ">"%char /\ c <> "<"%char
  /\ c <> "="%char.
Proof.
  destruct c as [[|] [|] [|] [|] [|] [|] [|] [|]]; vm_compute; intros H;
    try discriminate H; repeat split; discriminate.
Qed.

Lemma skipWhitespace_spaces (n : nat) (s : string) :
  skipWhitespace (spaces n +:+ s) = skipWhitespace s.
Proof. induction n as [|n IH]; [done |]. exact IH. Qed.

Lemma skipWhitespace_newLine (s : string) :
  skipWhitespace (newLine +:+ s) = skipWhitespace s.
Proof. reflexivity. Qed.

Lemma skipWhitespace_idem (s : string) :
  skipWhitespace (skipWhitespace s) = skipWhitespace s.
Proof.
  induction s as [|c s IH]; [done |]. cbn [skipWhitespace].
  destruct (Ascii.is_space c) eqn:Hc; [done |]. cbn [skipWhitespace]. by rewrite Hc.
Qed.

Lemma readName_app (n rest : string) :
  allIn xmlNameChars n = true -> stopsName rest = true ->
  readName (n +:+ rest) = (n, rest).
Proof.
  intros Hn Hrest. induction n as [|c n IH].
  - change (EmptyString +:+ rest) with rest. destruct rest as [|c r]; [done |].
    cbn [readName]. cbn [stopsName] in Hrest. apply negb_true_iff in Hrest. by rewrite Hrest.
  - change (String c n +:+ rest) with (String c (n +:+ rest)). cbn [readName].
    cbn [allIn] in Hn. apply andb_true_iff in Hn as [Hc Hn]. by rewrite Hc, IH.
Qed.

(** *** Attribute values *)

Lemma unescape_escapeChar (c : ascii) (s : string) :
  unescape None (escapeChar c +:+ s) = String c <$> unescape None s.
Proof.
  unfold escapeChar. repeat case_decide; subst; try reflexivity.
  match goal with |- unescape None (String ?x _ +:+ _) = _ =>
    change (String x EmptyString +:+ s) with (String x s) end.
  cbn [unescape]. by rewrite decide_False.
Qed.

Lemma unescape_escape (v : string) :
  unescape None (escapeIllegalXmlChars v) = Some v.
Proof.
  induction v as [|c v IH]; [done |]. cbn [escapeIllegalXmlChars].
  by rewrite unescape_escapeChar, IH.
Qed.

Lemma readQuoted_cons (c : ascii) (s : string) :
  c <> quoteChar ->
  readQuoted (String c s)
  = match readQuoted s with
    | Some (v, rest) => Some (String c v, rest)
    | None => None
    end.
Proof. intros Hc. cbn [readQuoted]. by rewrite decide_False. Qed.

Lemma readQuoted_escapeChar (c : ascii) (s : string) :
  readQuoted (escapeChar c +:+ s)
  = match readQuoted s with
    | Some (v, rest) => Some (escapeChar c +:+ v, rest)
    | None => None
    end.
Proof.
  unfold escapeChar. repeat case_decide; subst; cbv [String.append];
    rewrite !readQuoted_cons by done; by destruct (readQuoted s) as [[? ?]|].
Qed.

Lemma readQuoted_escape (v rest : string) :
  readQuoted (escapeIllegalXmlChars v +:+ String quoteChar rest)
  = Some (escapeIllegalXmlChars v, rest).
Proof.
  induction v as [|c v IH]; [done |]. cbn [escapeIllegalXmlChars].
  by rewrite append_assoc, readQuoted_escapeChar, IH.
Qed.

(** *** Attributes *)

Lemma opensOrCloses_facts (s : string) :
  opensOrCloses s = true -> skipWhitespace s = s /\ stopsName s = true.
Proof.
  unfold opensOrCloses. destruct s as [|c s]; [done |]. cbn [startsWith].
  repeat case_decide; subst; try done.
Qed.

Lemma isXmlName_facts (n : string) :
  isXmlName n = true ->
  allIn xmlNameChars n = true
  /\ exists c n', n = String c n' /\ containsChar xmlNameChars c = true.
Proof.
  unfold isXmlName. intros [Hne Hall]%andb_true_iff. split; [done |].
  destruct n as [|c n']; [done |]. exists c, n'. split; [done |].
  cbn [allIn] in Hall. by apply andb_true_iff in Hall as [? _].
Qed.

Lemma writeAttribute_app (a : string * string) (rest : string) :
  writeAttribute a +:+ rest
  = String " " (fst a +:+ ("=" +:+ String quoteChar "")
                  +:+ escapeIllegalXmlChars (snd a) +:+ String quoteChar rest).
Proof.
  unfold writeAttribute. rewrite !append_assoc. reflexivity.
Qed.

Lemma parseAttributes_write (attrs : list (string * string)) :
  forall (fuel : nat) (rest : string),
    (length attrs < fuel)%nat ->
    forallb (fun a => isXmlName (fst a)) attrs = true ->
    opensOrCloses rest = true ->
    parseAttributes fuel (concatenate (List.map writeAttribute attrs) +:+ rest)
    = Some (attrs, rest).
Proof.
  induction attrs as [|[name v] attrs IH]; intros fuel rest Hfuel Hnames Hrest;
    (destruct fuel as [|fuel]; [cbn in Hfuel; lia |]).
  - change (concatenate (List.map writeAttribute []) +:+ rest) with rest.
    cbn [parseAttributes]. destruct (opensOrCloses_facts _ Hrest) as [-> _].
    unfold opensOrCloses in Hrest. by rewrite Hrest.
  - cbn [forallb fst] in Hnames. apply andb_true_iff in Hnames as [Hname Hnames].
    destruct (isXmlName_facts _ Hname) as (Hall & c & n' & Hn & Hc).
    destruct (nameChar_facts _ Hc) as (Hspace & Hslash & Hgt & _).
    cbn [List.map concatenate foldr]. fold (concatenate (List.map writeAttribute attrs)).
    rewrite append_assoc, writeAttribute_app. cbn [fst snd].
    cbn [parseAttributes].
    assert (forall X, skipWhitespace (String " " (name +:+ X)) = name +:+ X) as ->.
    { intros X. subst name. cbn [skipWhitespace Ascii.is_space].
      change (String c n' +:+ X) with (String c (n' +:+ X)). cbn [skipWhitespace].
      by rewrite Hspace. }
    assert (forall X, startsWith (name +:+ X) "/" || startsWith (name +:+ X) ">" = false) as ->.
    { intros X. subst name. change (String c n' +:+ X) with (String c (n' +:+ X)).
      cbn [startsWith]. by rewrite !decide_False by done. }
    rewrite readName_app by done.
    rewrite decide_False by (subst name; done).
    rewrite stripPrefix_app, readQuoted_escape, unescape_escape.
    rewrite IH by (done || cbn in Hfuel; lia). done.
Qed.

Lemma attributes_length (attrs : list (string * string)) (rest : string) :
  (length attrs
   <= String.length (concatenate (List.map writeAttribute attrs) +:+ rest))%nat.
Proof.
  rewrite length_append.
  assert (length attrs <= String.length (concatenate (List.map writeAttribute attrs)))%nat;
    [| lia].
  induction attrs as [|a attrs IH]; [cbn; lia |].
  cbn [List.map concatenate foldr length]. fold (concatenate (List.map writeAttribute attrs)).
  rewrite length_append. unfold writeAttribute at 1.
  change (" " +:+ ?x) with (String " " x). cbn [String.length]. lia.
Qed.

Lemma attributes_stop (attrs : list (string * string)) (rest : string) :
  opensOrCloses rest = true ->
  stopsName (concatenate (List.map writeAttribute attrs) +:+ rest) = true.
Proof.
  intros Hrest. destruct attrs as [|a attrs].
  - by apply opensOrCloses_facts.
  - cbn [List.map concatenate foldr]. by rewrite append_assoc, writeAttribute_app.
Qed.

(** *** Elements *)

Lemma XmlElement_induction (P : XmlElement -> Prop) :
  (forall tag attrs children, Forall P children -> P (mkXmlElement tag attrs children)) ->
  forall e, P e.
Proof.
  intros H.
  refine (fix IH (e : XmlElement) : P e :=
            match e with
            | mkXmlElement tag attrs children =>
                H tag attrs children
                  ((fix go (l : list XmlElement) : Forall P l :=
                      match l with
                      | [] => @List.Forall_nil _ P
                      | x :: l' => @List.Forall_cons _ P x l' (IH x) (go l')
                      end) children)
            end).
Qed.

Lemma childrenText_concatenate (indent : nat) (children : list XmlElement) (k : string) :
  concatenate (List.map (fun c => writeElementAsText indent c +:+ newLine) children) +:+ k
  = childrenText indent children k.
Proof.
  induction children as [|c cs IH]; [done |].
  cbn [List.map concatenate foldr childrenText].
  fold (concatenate (List.map (fun c => writeElementAsText indent c +:+ newLine) cs)).
  fold (childrenText indent cs k). by rewrite !append_assoc, IH.
Qed.

Lemma writeElement_app (indent : nat) (tag : string) (attrs : list (string * string))
    (children : list XmlElement) (rest : string) :
  writeElementAsText indent (mkXmlElement tag attrs children) +:+ rest
  = spaces indent
      +:+ "<" +:+ tag +:+ concatenate (List.map writeAttribute attrs)
      +:+ match children with
          | [] => "/>" +:+ rest
          | _ :: _ =>
              ">" +:+ newLine
                  +:+ childrenText (indent + 2) children
                        (spaces indent +:+ "</" +:+ tag +:+ ">" +:+ rest)
          end.
Proof.
  cbn [writeElementAsText]. rewrite !append_assoc. do 3 f_equal.
  destruct children as [|c cs]; [done |].
  rewrite !append_assoc. do 2 f_equal.
  fold (writeElementAsText (indent + 2)).
  by rewrite <- childrenText_concatenate.
Qed.

Lemma parseElement_skip (fuel : nat) (s : string) :
  parseElement fuel (skipWhitespace s) = parseElement fuel s.
Proof. destruct fuel; [done |]. cbn [parseElement]. by rewrite skipWhitespace_idem. Qed.

Lemma parseChildren_newLine (fuel : nat) (tag s : string) :
  parseChildren fuel tag (newLine +:+ s) = parseChildren fuel tag s.
Proof. destruct fuel; [done |]. cbn [parseChildren]. by rewrite skipWhitespace_newLine. Qed.

Lemma parseElement_newLine (fuel : nat) (s : string) :
  parseElement fuel (newLine +:+ s) = parseElement fuel s.
Proof. destruct fuel; [done |]. cbn [parseElement]. by rewrite skipWhitespace_newLine. Qed.

(** The text of a well-formed element starts, after the white space, with
    the opening of its tag. *)
Lemma writeElement_starts (indent : nat) (e : XmlElement) (rest : string) :
  wellFormedXml e = true ->
  exists c tail,
    skipWhitespace (writeElementAsText indent e +:+ rest) = String "<" (String c tail)
    /\ c <> "/"%char.
Proof.
  destruct e as [tag attrs children]. cbn [wellFormedXml].
  intros [[Htag _]%andb_true_iff _]%andb_true_iff.
  destruct (isXmlName_facts _ Htag) as (_ & c & n' & -> & Hc).
  destruct (nameChar_facts _ Hc) as (_ & Hslash & _).
  rewrite writeElement_app, skipWhitespace_spaces.
  eexists c, _. split; [reflexivity | done].
Qed.

Lemma fuelForChildren_cons (c : XmlElement) (cs : list XmlElement) :
  fuelForChildren (c :: cs) = S (Nat.max (fuelForElement c) (fuelForChildren cs)).
Proof. reflexivity. Qed.

Lemma fuelForElement_children (tag : string) (attrs : list (string * string))
    (children : list XmlElement) :
  fuelForElement (mkXmlElement tag attrs children) = S (fuelForChildren children).
Proof. reflexivity. Qed.

Lemma childrenText_cons (indent : nat) (c : XmlElement) (cs : list XmlElement)
    (k : string) :
  childrenText indent (c :: cs) k
  = writeElementAsText indent c +:+ newLine +:+ childrenText indent cs k.
Proof. reflexivity. Qed.

Lemma parseChildren_write (tag : string) (children : list XmlElement) :
  isXmlName tag = true ->
  Forall (fun e => wellFormedXml e = true ->
                   forall fuel indent rest,
                     (fuelForElement e <= fuel)%nat ->
                     parseElement fuel (writeElementAsText indent e +:+ rest)
                     = Some (e, rest)) children ->
  forallb wellFormedXml children = true ->
  forall (fuel indent outer : nat) (rest : string),
    (fuelForChildren children <= fuel)%nat ->
    parseChildren fuel tag
      (childrenText indent children (spaces outer +:+ "</" +:+ tag +:+ ">" +:+ rest))
    = Some (children, rest).
Proof.
  intros Htag Hall. destruct (isXmlName_facts _ Htag) as (Hchars & _).
  induction Hall as [|c cs Hc _ IH]; intros Hwf fuel indent outer rest Hfuel.
  - destruct fuel as [|fuel]; [cbn in Hfuel; lia |].
    cbn [childrenText foldr parseChildren]. rewrite skipWhitespace_spaces.
    change (skipWhitespace ("</" +:+ tag +:+ ">" +:+ rest)) with ("</" +:+ tag +:+ ">" +:+ rest).
    rewrite stripPrefix_app, readName_app by done. rewrite decide_True by done.
    change (skipWhitespace (">" +:+ rest)) with (">" +:+ rest).
    by rewrite stripPrefix_app.
  - cbn [forallb] in Hwf. apply andb_true_iff in Hwf as [Hwfc Hwfcs].
    rewrite fuelForChildren_cons in Hfuel.
    destruct fuel as [|fuel]; [lia |].
    rewrite childrenText_cons. cbn [parseChildren].
    destruct (writeElement_starts indent c
                (newLine +:+ childrenText indent cs
                               (spaces outer +:+ "</" +:+ tag +:+ ">" +:+ rest)) Hwfc)
      as (ch & tail & Hstart & Hch).
    assert (stripPrefix "</"
              (skipWhitespace
                 (writeElementAsText indent c
                    +:+ newLine +:+ childrenText indent cs
                                      (spaces outer +:+ "</" +:+ tag +:+ ">" +:+ rest)))
            = None) as ->.
    { rewrite Hstart. cbn [stripPrefix]. rewrite decide_True by done.
      by rewrite decide_False by done. }
    rewrite parseElement_skip, Hc by (done || lia).
    rewrite parseChildren_newLine, IH by (done || lia). done.
Qed.

Lemma parseElement_write (e : XmlElement) :
  wellFormedXml e = true ->
  forall (fuel indent : nat) (rest : string),
    (fuelForElement e <= fuel)%nat ->
    parseElement fuel (writeElementAsText indent e +:+ rest) = Some (e, rest).
Proof.
  induction e as [tag attrs children IH] using XmlElement_induction.
  intros Hwf fuel indent rest Hfuel.
  cbn [wellFormedXml] in Hwf.
  apply andb_true_iff in Hwf as [[Htag Hattrs]%andb_true_iff Hchildren].
  destruct (isXmlName_facts _ Htag) as (Hchars & c & n' & Hn & Hc).
  rewrite fuelForElement_children in Hfuel.
  destruct fuel as [|fuel]; [lia |].
  rewrite writeElement_app. cbn [parseElement]. rewrite skipWhitespace_spaces.
  set (tail := match children with
               | [] => "/>" +:+ rest
               | _ :: _ => _
               end).
  assert (opensOrCloses tail = true) as Htail by (subst tail; by destruct children).
  change (skipWhitespace ("<" +:+ ?x)) with ("<" +:+ x).
  rewrite stripPrefix_app, readName_app by (done || by apply attributes_stop).
  rewrite decide_False by (subst tag; done).
  rewrite parseAttributes_write
    by (done || pose proof (attributes_length attrs tail); lia).
  subst tail. destruct children as [|child children']; [by rewrite stripPrefix_app |].
  change (stripPrefix "/>" (">" +:+ ?x)) with (@None string).
  rewrite stripPrefix_app, parseChildren_newLine.
  rewrite parseChildren_write by (done || lia). done.
Qed.

(** *** The fuel is there *)

Lemma fuelForChildren_length (indent : nat) (children : list XmlElement) :
  Forall (fun e => forall indent,
              (fuelForElement e <= String.length (writeElementAsText indent e))%nat)
    children ->
  (fuelForChildren children
   <= 1 + String.length
            (concatenate
               (List.map (fun c => writeElementAsText indent c +:+ newLine) children)))%nat.
Proof.
  induction 1 as [|c cs Hc _ IH]; [cbn; lia |].
  rewrite fuelForChildren_cons. cbn [List.map concatenate foldr].
  fold (concatenate (List.map (fun c => writeElementAsText indent c +:+ newLine) cs)).
  rewrite !length_append. specialize (Hc indent). cbn [newLine String.length]. lia.
Qed.

Lemma fuelForElement_length (e : XmlElement) :
  forall indent, (fuelForElement e <= String.length (writeElementAsText indent e))%nat.
Proof.
  induction e as [tag attrs children IH] using XmlElement_induction. intros indent.
  rewrite fuelForElement_children. cbn [writeElementAsText].
  rewrite !length_append. cbn [String.length].
  destruct children as [|c cs].
  - cbn. lia.
  - pose proof (fuelForChildren_length (indent + 2) (c :: cs) IH) as Hlen.
    fold (writeElementAsText (indent + 2)).
    rewrite !length_append. cbn [String.length]. lia.
Qed.

Lemma getDocumentElement_write (e : XmlElement) :
  wellFormedXml e = true ->
  getDocumentElement (newLine +:+ writeToStream e +:+ newLine) = Some e.
Proof.
  intros Hwf. unfold getDocumentElement, writeToStream.
  rewrite parseElement_newLine, parseElement_write; [done | done |].
  pose proof (fuelForElement_length e 0). rewrite !length_append. lia.
Qed.

Lemma fromXml_createXml (tree : ValueTree) : fromXml (createXml tree) = tree.
Proof.
  revert tree.
  refine (fix IH (tree : ValueTree) : fromXml (createXml tree) = tree :=
            match tree with
            | mkValueTree tag props children => _
            end).
  cbn [createXml fromXml]. rewrite list_to_map_to_list. f_equal.
  induction children as [|c cs IHcs]; [done |].
  cbn [List.map]. by rewrite IH, IHcs.
Qed.

(** ** The document *)

Section DocumentFacts.

Context {Zone : Type}.
Variable stringToComponentBounds : string -> Rectangle.
Variable componentBoundsToString : Rectangle -> string.
Variable resizeRectangleBy : Zone -> Rectangle -> Point -> Rectangle.
Variable handlers : list ComponentTypeHandler.
Variable makeValidCppIdentifier : string -> string.

Local Abbreviation Doc := (@ComponentDocument Zone).
Local Abbreviation continueDrag' := (continueDrag componentBoundsToString resizeRectangleBy).
Local Abbreviation endDrag' := (endDrag componentBoundsToString resizeRectangleBy).
Local Abbreviation drag' := (drag componentBoundsToString resizeRectangleBy).
Local Abbreviation step' :=
  (step stringToComponentBounds componentBoundsToString resizeRectangleBy handlers
     makeValidCppIdentifier).

(** *** Actions on the tree and actions on nodes that have left it *)

Lemma undoActions_cons (a : UndoableAction) (actions : list UndoableAction)
    (tree : ValueTree) :
  undoActions (a :: actions) tree = undoActions actions (undoAction tree a).
Proof. done. Qed.

Lemma undoActions_off_tree (actions : list UndoableAction) (tree : ValueTree) :
  existsb touchesTree actions = false -> undoActions actions tree = tree.
Proof.
  induction actions as [|a actions IH]; [done |].
  cbn [existsb]. intros [Ha Hrest]%orb_false_elim. rewrite undoActions_cons.
  destruct a; try discriminate. cbn [undoAction]. by apply IH.
Qed.

(** The id of a new handler is that of no handler whose writes the history
    records. *)
Lemma nextOwner_fresh (um : UndoManager) (owner i : nat) (name new : string)
    (old : option string) :
  (SetDetachedPropertyAction owner i name new old
     ∈ (currentTransaction um ++ concat (transactions um))%list) ->
  (owner < nextOwner um)%nat.
Proof.
  unfold nextOwner. induction (currentTransaction um ++ concat (transactions um))%list
    as [|a actions IH]; intros Hin; [by apply elem_of_nil in Hin |].
  cbn [List.map foldr]. apply elem_of_cons in Hin as [<- | Hin].
  - cbn [actionOwner]. lia.
  - specialize (IH Hin). lia.
Qed.

Lemma reload_fields (fs : FileSystem) (doc : Doc) :
  cppFile (snd (reload fs doc)) = cppFile doc
  /\ dragger (snd (reload fs doc))
     = if fst (reload fs doc) then detachAll (components (root doc)) <$> dragger doc
       else dragger doc.
Proof.
  unfold reload. destruct (createInputStream fs (cppFile doc)); [| done].
  destruct (getDocumentElement _); [| done].
  destruct (hasTagName _ _); done.
Qed.

Lemma reload_failure (fs : FileSystem) (doc : Doc) :
  fst (reload fs doc) = false -> snd (reload fs doc) = doc.
Proof.
  unfold reload. destruct (createInputStream fs (cppFile doc)); [| done].
  destruct (getDocumentElement _); [| done].
  destruct (hasTagName _ _); [discriminate | done].
Qed.

Lemma reload_success (fs : FileSystem) (doc : Doc) :
  fst (reload fs doc) = true ->
  exists text xml,
    createInputStream fs (cppFile doc) = Some text
    /\ getDocumentElement (readMetadata (streamLines text)) = Some xml
    /\ hasTagName xml componentDocumentTag = true
    /\ snd (reload fs doc)
       = mkComponentDocument (cppFile doc) (checkRootObject (fromXml xml)) false
           emptyUndoManager (detachAll (components (root doc)) <$> dragger doc).
Proof.
  unfold reload. destruct (createInputStream fs (cppFile doc)) as [text|]; [| discriminate].
  destruct (getDocumentElement _) as [xml|] eqn:Hxml; [| discriminate].
  destruct (hasTagName _ _) eqn:Htag; [| discriminate].
  intros _. by exists text, xml.
Qed.

(** C10: with no drag handler ([dragger] null: no [beginDrag] yet, or
    [endDrag] done) [continueDrag] and [endDrag] return the document as it
    is: tree, undo manager and dirty flag unchanged.  A new document has no
    handler, and [endDrag] leaves none. *)
Theorem drag_without_handler_changes_nothing :
  (forall (doc : Doc) (e : MouseEvent),
      dragger doc = None -> continueDrag' e doc = doc /\ endDrag' e doc = doc)
  /\ (forall (fs : FileSystem) (f : File),
         dragger (newComponentDocument (Zone := Zone) fs f) = None)
  /\ (forall (doc : Doc) (e : MouseEvent), dragger (endDrag' e doc) = None).
Proof.
  split; [| split].
  - intros doc e Hnone. unfold continueDrag, endDrag. by rewrite Hnone.
  - intros fs f. unfold newComponentDocument. cbn [dragger].
    rewrite (proj2 (reload_fields _ _)). by destruct (fst (reload _ _)).
  - intros doc e. unfold endDrag. destruct (dragger doc) eqn:Hd; done.
Qed.

Lemma save_document (fs : FileSystem) (doc : Doc) :
  snd (save fs doc)
  = if fst (fst (save fs doc))
    then mkComponentDocument (cppFile doc) (root doc) false (undoManager doc) (dragger doc)
    else doc.
Proof.
  unfold save. cbn [writeCode fst snd].
  destruct (overwriteFileWithNewDataIfDifferent fs (cppFile doc) _) as [[|] fs1];
    cbn [fst snd]; [| done].
  destruct (overwriteFileWithNewDataIfDifferent fs1 _ _) as [[|] fs2]; cbn [fst snd]; done.
Qed.

Lemma save_flag (fs : FileSystem) (doc : Doc) :
  changedSinceSaved (snd (save fs doc))
  = if fst (fst (save fs doc)) then false else changedSinceSaved doc.
Proof.
  rewrite save_document. by destruct (fst (fst (save fs doc))).
Qed.

Lemma save_keeps (fs : FileSystem) (doc : Doc) :
  root (snd (save fs doc)) = root doc
  /\ undoManager (snd (save fs doc)) = undoManager doc
  /\ dragger (snd (save fs doc)) = dragger doc.
Proof.
  rewrite save_document. by destruct (fst (fst (save fs doc))).
Qed.

(** The flag is never cleared by a write through a handle, by the undoing of
    the open transaction or by the moves of a drag. *)
Lemma setPropertyUndoable_flag (handle : option nat) (name value : string) (doc : Doc) :
  changedSinceSaved doc = true ->
  changedSinceSaved (setPropertyUndoable handle name value doc) = true.
Proof.
  intros Hflag. unfold setPropertyUndoable. destruct handle as [i|]; [| done].
  destruct (detachedNode doc i) as [[h v]|]; [by case_decide |].
  destruct (components (root doc) !! i); [| done]. by case_decide.
Qed.

Lemma undoCurrentTransactionOnly_flag (doc : Doc) :
  changedSinceSaved doc = true -> changedSinceSaved (undoCurrentTransactionOnly doc) = true.
Proof.
  intros Hflag. unfold undoCurrentTransactionOnly.
  destruct (currentTransaction (undoManager doc)); [done |].
  cbn [changedSinceSaved]. by rewrite Hflag.
Qed.

Lemma moveAll_flag (h : DragHandler) (distance : Point) (vs : list (option nat))
    (ps : list Rectangle) (doc : Doc) :
  changedSinceSaved doc = true ->
  changedSinceSaved (moveAll componentBoundsToString resizeRectangleBy h distance vs ps doc)
  = true.
Proof.
  revert ps doc. induction vs as [|v vs IH]; intros [|p ps] doc Hflag; try done.
  cbn [moveAll]. apply IH. by apply setPropertyUndoable_flag.
Qed.

Lemma drag_flag (h : DragHandler) (e : MouseEvent) (doc : Doc) :
  changedSinceSaved doc = true -> changedSinceSaved (drag' h e doc) = true.
Proof. intros Hflag. apply moveAll_flag. by apply undoCurrentTransactionOnly_flag. Qed.

Lemma step_flag (op : Operation) (fs : FileSystem) (doc : Doc) :
  changedSinceSaved doc = true ->
  succeeds op (fs, doc) = false ->
  changedSinceSaved (snd (step' op (fs, doc))) = true.
Proof.
  intros Hflag Hop. destruct op; cbn [step snd succeeds fst] in *; try done.
  - pose proof (save_flag fs doc) as Hsave. destruct (save fs doc) as [[ok fs1] doc1].
    cbn [fst snd] in *. by rewrite Hsave, Hop.
  - by rewrite (reload_failure _ _ Hop).
  - unfold performNewComponentMenuItem.
    destruct (_ && _); [| done]. destruct (getHandler _ _); [| done].
    unfold addComponent. by destruct (getComponentGroup (root doc)).
  - unfold beginDrag, newDragHandler. by destruct (dragger doc).
  - unfold continueDrag. destruct (dragger doc); [by apply drag_flag | done].
  - unfold endDrag. destruct (dragger doc); [| done]. cbn. by apply drag_flag.
  - unfold undo. destruct (transactions _); [done |].
    cbn [snd changedSinceSaved]. by rewrite Hflag.
Qed.

(** A change of the tree sets the flag. *)
Lemma setPropertyUndoable_change (handle : option nat) (name value : string) (doc : Doc) :
  root (setPropertyUndoable handle name value doc) = root doc
  \/ changedSinceSaved (setPropertyUndoable handle name value doc) = true.
Proof.
  unfold setPropertyUndoable. destruct handle as [i|]; [| by left].
  destruct (detachedNode doc i) as [[h v]|]; [left; by case_decide |].
  destruct (components (root doc) !! i); [| by left]. case_decide; [by left | by right].
Qed.

Lemma moveAll_change (h : DragHandler) (distance : Point) (vs : list (option nat))
    (ps : list Rectangle) (doc : Doc) :
  root (moveAll componentBoundsToString resizeRectangleBy h distance vs ps doc) = root doc
  \/ changedSinceSaved (moveAll componentBoundsToString resizeRectangleBy h distance vs ps doc)
     = true.
Proof.
  revert ps doc. induction vs as [|v vs IH]; intros [|p ps] doc; try (by left).
  cbn [moveAll]. unfold move.
  destruct (setPropertyUndoable_change v compBoundsProperty
              (componentBoundsToString (resizeRectangleBy (zone h) p distance)) doc)
    as [<- | Hflag]; [apply IH | right; by apply moveAll_flag].
Qed.

Lemma undoCurrentTransactionOnly_change (doc : Doc) :
  root (undoCurrentTransactionOnly doc) = root doc
  \/ changedSinceSaved (undoCurrentTransactionOnly doc) = true.
Proof.
  unfold undoCurrentTransactionOnly.
  destruct (currentTransaction (undoManager doc)) as [|a actions]; [by left |].
  cbn [root changedSinceSaved].
  destruct (existsb touchesTree (a :: actions)) eqn:Htree.
  - right. apply orb_true_r.
  - left. by apply undoActions_off_tree.
Qed.

Lemma drag_change (h : DragHandler) (e : MouseEvent) (doc : Doc) :
  root (drag' h e doc) = root doc \/ changedSinceSaved (drag' h e doc) = true.
Proof.
  unfold drag.
  destruct (undoCurrentTransactionOnly_change doc) as [<- | Hflag].
  - apply moveAll_change.
  - right. by apply moveAll_flag.
Qed.

Lemma step_change (op : Operation) (fs : FileSystem) (doc : Doc) :
  succeeds op (fs, doc) = false ->
  root (snd (step' op (fs, doc))) = root doc
  \/ changedSinceSaved (snd (step' op (fs, doc))) = true.
Proof.
  intros Hop. destruct op; cbn [step snd succeeds fst] in *;
    try (by left); try (by right).
  - left. pose proof (save_keeps fs doc) as (Hroot & _).
    by destruct (save fs doc) as [[ok fs1] doc1].
  - left. by rewrite (reload_failure _ _ Hop).
  - unfold performNewComponentMenuItem.
    destruct (_ && _); [| by left]. destruct (getHandler _ _); [| by left].
    unfold addComponent. destruct (getComponentGroup (root doc)); [by right | by left].
  - left. unfold beginDrag, newDragHandler. by destruct (dragger doc).
  - unfold continueDrag. destruct (dragger doc); [apply drag_change | by left].
  - unfold endDrag. destruct (dragger doc); [| by left]. cbn. apply drag_change.
  - unfold undo. destruct (transactions _) as [|t older]; [by left |].
    cbn [snd root changedSinceSaved]. destruct (existsb touchesTree t) eqn:Htree.
    + right. apply orb_true_r.
    + left. by apply undoActions_off_tree.
Qed.

(** C7: [save] returns true exactly when both calls of
    [overwriteFileWithNewDataIfDifferent] do (the .cpp file, then the .h
    file); then the dirty flag is cleared and nothing else of the document
    changes; when a write fails [save] returns false and the document, its
    dirty flag included, is as before. *)
Theorem save_clears_flag_iff_written (fs : FileSystem) (doc : Doc) :
  let cppText := writeMetadata (fst writeCode) (root doc) in
  let first := overwriteFileWithNewDataIfDifferent fs (cppFile doc) cppText in
  let second :=
    overwriteFileWithNewDataIfDifferent (snd first)
      (withFileExtension (cppFile doc) ".h") (snd writeCode) in
  let result := save fs doc in
  fst (fst result) = fst first && fst second
  /\ (fst (fst result) = true ->
      snd result
      = mkComponentDocument (cppFile doc) (root doc) false (undoManager doc) (dragger doc))
  /\ (fst (fst result) = false -> snd result = doc).
Proof.
  unfold save. cbn [writeCode fst snd].
  destruct (overwriteFileWithNewDataIfDifferent fs (cppFile doc) _) as [[|] fs1];
    cbn [fst snd]; [| done].
  destruct (overwriteFileWithNewDataIfDifferent fs1 _ _) as [[|] fs2]; cbn [fst snd]; done.
Qed.

Lemma save_writable (fs : FileSystem) (doc : Doc) :
  canWrite fs (cppFile doc) = true ->
  canWrite fs (withFileExtension (cppFile doc) ".h") = true ->
  fst (fst (save fs doc)) = true.
Proof.
  intros Hcpp Hheader. unfold save. cbn [writeCode fst snd].
  unfold overwriteFileWithNewDataIfDifferent at 1.
  case_decide; [| rewrite Hcpp]; unfold overwriteFileWithNewDataIfDifferent;
    cbn [fileContents canWrite]; case_decide; rewrite ?Hheader; done.
Qed.

(** C6: [hasChangedSinceLastSave] is false for a new document.  [reload]
    clears it exactly when it succeeds, as it does whenever the file holds a
    block that parses to an element tagged COMPONENT, and [save] clears it
    exactly when it succeeds, as it does whenever both files can be written;
    when they fail the flag is as it was.  Each of the three listener
    callbacks sets it, and so do a write that changes a property of a node
    of the tree and the adding of a child to the component group, while a
    write on a node that has left the tree changes neither the tree nor the
    flag.  Once set it stays set through every operation that is not a
    successful [save] or [reload]; and an operation that changes the tree, a
    successful [reload] apart, leaves it set. *)
Theorem dirty_flag_lifecycle :
  (forall (fs : FileSystem) (f : File),
      hasChangedSinceLastSave (newComponentDocument (Zone := Zone) fs f) = false)
  /\ (forall (fs : FileSystem) (doc : Doc),
         hasChangedSinceLastSave (snd (reload fs doc))
         = hasChangedSinceLastSave doc && negb (fst (reload fs doc)))
  /\ (forall (fs : FileSystem) (doc : Doc) (text : string) (xml : XmlElement),
         createInputStream fs (cppFile doc) = Some text ->
         getDocumentElement (readMetadata (streamLines text)) = Some xml ->
         hasTagName xml componentDocumentTag = true ->
         fst (reload fs doc) = true)
  /\ (forall (fs : FileSystem) (doc : Doc),
         hasChangedSinceLastSave (snd (save fs doc))
         = hasChangedSinceLastSave doc && negb (fst (fst (save fs doc))))
  /\ (forall (fs : FileSystem) (doc : Doc),
         canWrite fs (cppFile doc) = true ->
         canWrite fs (withFileExtension (cppFile doc) ".h") = true ->
         fst (fst (save fs doc)) = true)
  /\ (forall doc : Doc,
         hasChangedSinceLastSave (valueTreePropertyChanged doc) = true
         /\ hasChangedSinceLastSave (valueTreeChildrenChanged doc) = true
         /\ hasChangedSinceLastSave (valueTreeParentChanged doc) = true)
  /\ (forall (i : nat) (name value : string) (doc : Doc) (v : ValueTree),
         detachedNode doc i = None ->
         components (root doc) !! i = Some v ->
         getProperty v name <> Some value ->
         hasChangedSinceLastSave (setPropertyUndoable (Some i) name value doc) = true)
  /\ (forall (child : ValueTree) (doc : Doc),
         is_Some (getComponentGroup (root doc)) ->
         hasChangedSinceLastSave (addComponent child doc) = true)
  /\ (forall (i : nat) (name value : string) (doc : Doc),
         is_Some (detachedNode doc i) ->
         root (setPropertyUndoable (Some i) name value doc) = root doc
         /\ hasChangedSinceLastSave (setPropertyUndoable (Some i) name value doc)
            = hasChangedSinceLastSave doc)
  /\ (forall (op : Operation) (fs : FileSystem) (doc : Doc),
         hasChangedSinceLastSave doc = true ->
         succeeds op (fs, doc) = false ->
         hasChangedSinceLastSave (snd (step' op (fs, doc))) = true)
  /\ (forall (op : Operation) (fs : FileSystem) (doc : Doc),
         succeeds op (fs, doc) = false ->
         root (snd (step' op (fs, doc))) = root doc
         \/ hasChangedSinceLastSave (snd (step' op (fs, doc))) = true).
Proof.
  unfold hasChangedSinceLastSave.
  split; [| split; [| split; [| split; [| split; [| split; [| split; [| split; [| split;
    [| split]]]]]]]]].
  - intros fs f. unfold newComponentDocument. cbn [changedSinceSaved].
    set (doc := mkComponentDocument f _ _ _ _).
    destruct (fst (reload fs doc)) eqn:Hok.
    + destruct (reload_success _ _ Hok) as (? & ? & _ & _ & _ & ->). done.
    + by rewrite (reload_failure _ _ Hok).
  - intros fs doc. destruct (fst (reload fs doc)) eqn:Hok.
    + destruct (reload_success _ _ Hok) as (? & ? & _ & _ & _ & ->).
      by rewrite andb_false_r.
    + by rewrite (reload_failure _ _ Hok), andb_true_r.
  - intros fs doc text xml Htext Hxml Htag. unfold reload. by rewrite Htext, Hxml, Htag.
  - intros fs doc. rewrite save_flag.
    destruct (fst (fst (save fs doc))); [by rewrite andb_false_r | by rewrite andb_true_r].
  - apply save_writable.
  - done.
  - intros i name value doc v Hnode Hv Hnew. unfold setPropertyUndoable.
    rewrite Hnode, Hv. by rewrite decide_False.
  - intros child doc [g Hg]. unfold addComponent. by rewrite Hg.
  - intros i name value doc [[h v] Hnode]. unfold setPropertyUndoable. rewrite Hnode.
    by case_decide.
  - apply step_flag.
  - apply step_change.
Qed.

(** C5: for a node whose type has no handler [createFromStoredType] returns
    null, and [createComponent] on the index of that node then uses the null
    pointer (line 370). *)
Theorem createComponent_unknown_type (doc : Doc) (index : Z) (v : ValueTree) :
  getComponent (root doc) index = Some v ->
  getHandlerFor handlers (vtType v) = None ->
  createFromStoredType stringToComponentBounds handlers v = None
  /\ createComponent stringToComponentBounds handlers doc index = NullPointerDereference.
Proof.
  intros Hv Hnone. unfold createComponent, createFromStoredType. by rewrite Hv, Hnone.
Qed.

(** *** Reading the metadata block *)

Lemma readUntilMetadataEnd_layout (body after : list string) :
  Forall (fun l => contains l metadataTagEnd = false) body ->
  (after = [] \/ exists endLine rest,
      after = endLine :: rest /\ contains endLine metadataTagEnd = true) ->
  readUntilMetadataEnd (body ++ after)
  = concatenate (List.map (fun l => l +:+ newLine) body).
Proof.
  intros Hbody Hafter. induction Hbody as [|l body Hl _ IH].
  - destruct Hafter as [-> | (endLine & rest & -> & Hend)]; [done |].
    cbn. by rewrite Hend.
  - cbn [app readUntilMetadataEnd List.map concatenate foldr]. rewrite Hl.
    fold (concatenate (List.map (fun l => l +:+ newLine) body)). rewrite IH.
    by rewrite append_assoc.
Qed.

Lemma readMetadata_layout (before : list string) (startLine : string)
    (body after : list string) :
  metadataLayout before startLine body after ->
  readMetadata (before ++ startLine :: body ++ after)
  = concatenate (List.map (fun l => l +:+ newLine) body).
Proof.
  intros (Hbefore & Hstart & Hbody & Hafter).
  induction Hbefore as [|l before Hl _ IH].
  - cbn [app readMetadata]. rewrite Hstart. by apply readUntilMetadataEnd_layout.
  - cbn [app readMetadata]. by rewrite Hl.
Qed.

Lemma readMetadata_no_start (lines : list string) :
  Forall (fun l => contains l metadataTagStart = false) lines ->
  readMetadata lines = EmptyString.
Proof.
  induction 1 as [|l lines Hl _ IH]; [done |]. cbn [readMetadata]. by rewrite Hl.
Qed.

(** C2, in the form that holds of the code: [reload] returns true exactly
    when the file exists and the text that [readMetadata] cuts out of it
    parses to an element tagged COMPONENT; then the root is the tree of that
    element as [checkRootObject] completes it, the undo history is empty and
    the dirty flag cleared, and a drag handler is left with the nodes of the
    old tree, which are no longer in the document; when it returns false the
    document is as before.
    The text cut out is what lies between the first line with the start tag
    and the next line with the end tag, or the end of the file when no such
    line follows; without a line with the start tag [reload] returns
    false. *)
Theorem reload_spec (fs : FileSystem) (doc : Doc) :
  (fst (reload fs doc) = true <->
   exists text xml,
     createInputStream fs (cppFile doc) = Some text
     /\ getDocumentElement (readMetadata (streamLines text)) = Some xml
     /\ hasTagName xml componentDocumentTag = true)
  /\ (forall text xml,
         createInputStream fs (cppFile doc) = Some text ->
         getDocumentElement (readMetadata (streamLines text)) = Some xml ->
         hasTagName xml componentDocumentTag = true ->
         snd (reload fs doc)
         = mkComponentDocument (cppFile doc) (checkRootObject (fromXml xml)) false
             emptyUndoManager (detachAll (components (root doc)) <$> dragger doc))
  /\ (fst (reload fs doc) = false -> snd (reload fs doc) = doc)
  /\ (forall before startLine body after,
         metadataLayout before startLine body after ->
         readMetadata (before ++ startLine :: body ++ after)
         = concatenate (List.map (fun l => l +:+ newLine) body))
  /\ (forall text,
         createInputStream fs (cppFile doc) = Some text ->
         Forall (fun l => contains l metadataTagStart = false) (streamLines text) ->
         fst (reload fs doc) = false).
Proof.
  split; [| split; [| split; [| split]]].
  - split.
    + intros Hok. destruct (reload_success _ _ Hok) as (text & xml & ? & ? & ? & _).
      by exists text, xml.
    + intros (text & xml & Htext & Hxml & Htag). unfold reload. by rewrite Htext, Hxml, Htag.
  - intros text xml Htext Hxml Htag. unfold reload. by rewrite Htext, Hxml, Htag.
  - apply reload_failure.
  - apply readMetadata_layout.
  - intros text Htext Hnone. unfold reload. rewrite Htext.
    by rewrite (readMetadata_no_start _ Hnone).
Qed.

(** *** What the operations leave of the root *)

Lemma rootFrame_setPropertyUndoable (handle : option nat) (name value : string) (doc : Doc) :
  rootFrame (root (setPropertyUndoable handle name value doc)) = rootFrame (root doc).
Proof.
  unfold setPropertyUndoable. destruct handle as [i|]; [| done].
  destruct (detachedNode doc i) as [[h v]|]; [by case_decide |].
  destruct (components (root doc) !! i); [| done].
  case_decide; [done | apply rootFrame_updateComponentAt].
Qed.

Lemma rootFrame_moveAll (h : DragHandler) (distance : Point) (vs : list (option nat))
    (ps : list Rectangle) (doc : Doc) :
  rootFrame (root (moveAll componentBoundsToString resizeRectangleBy h distance vs ps doc))
  = rootFrame (root doc).
Proof.
  revert ps doc. induction vs as [|v vs IH]; intros [|p ps] doc; try done.
  cbn [moveAll]. rewrite IH. apply rootFrame_setPropertyUndoable.
Qed.

Lemma rootFrame_drag (h : DragHandler) (e : MouseEvent) (doc : Doc) :
  rootFrame (root (drag' h e doc)) = rootFrame (root doc).
Proof.
  unfold drag. rewrite rootFrame_moveAll. unfold undoCurrentTransactionOnly.
  destruct (currentTransaction (undoManager doc)) eqn:Hc; [done |].
  cbn [root]. apply rootFrame_undoActions.
Qed.

Lemma rootFrame_step (op : Operation) (fs : FileSystem) (doc : Doc) :
  op <> OpReload ->
  rootFrame (root (snd (step' op (fs, doc)))) = rootFrame (root doc).
Proof.
  intros Hop. destruct op; cbn [step snd]; try done.
  - pose proof (save_keeps fs doc) as (Hroot & _).
    destruct (save fs doc) as [[ok fs1] doc1]. cbn [snd] in *. by rewrite Hroot.
  - unfold performNewComponentMenuItem.
    destruct (_ && _); [| done]. destruct (getHandler _ _); [| done].
    unfold addComponent. destruct (getComponentGroup (root doc)); [| done].
    cbn [root]. by apply rootFrame_updateComponentGroup.
  - unfold beginDrag, newDragHandler. by destruct (dragger doc).
  - unfold continueDrag. destruct (dragger doc); [apply rootFrame_drag | done].
  - unfold endDrag. destruct (dragger doc); [| done]. cbn. apply rootFrame_drag.
  - unfold undo. destruct (transactions _); [done |]. cbn. apply rootFrame_undoActions.
Qed.

Lemma rootChecked_frame (t t' : ValueTree) :
  rootFrame t' = rootFrame t -> rootChecked t -> rootChecked t'.
Proof. unfold rootFrame, rootChecked. intros [= -> ->]. done. Qed.

(** C8, in the form that holds of the code: [checkRootObject] leaves at
    least one component group and a non-empty class name, the number of
    groups being the greater of one and their number before; so it is for a
    new document and after a [reload] that succeeds; every operation
    preserves the two facts, and every operation but [reload] leaves the
    number of groups and the class name as they are. *)
Theorem root_object_checked :
  (forall tree : ValueTree,
      rootChecked (checkRootObject tree)
      /\ countComponentGroups (checkRootObject tree)
         = Nat.max 1 (countComponentGroups tree))
  /\ (forall (fs : FileSystem) (f : File),
         rootChecked (root (newComponentDocument (Zone := Zone) fs f)))
  /\ (forall (fs : FileSystem) (doc : Doc),
         fst (reload fs doc) = true -> rootChecked (root (snd (reload fs doc))))
  /\ (forall (op : Operation) (fs : FileSystem) (doc : Doc),
         rootChecked (root doc) -> rootChecked (root (snd (step' op (fs, doc)))))
  /\ (forall (op : Operation) (fs : FileSystem) (doc : Doc),
         op <> OpReload ->
         countComponentGroups (root (snd (step' op (fs, doc))))
         = countComponentGroups (root doc)
         /\ getClassName (root (snd (step' op (fs, doc)))) = getClassName (root doc)).
Proof.
  assert (forall (fs : FileSystem) (doc : Doc),
             fst (reload fs doc) = true -> rootChecked (root (snd (reload fs doc))))
    as Hreload.
  { intros fs doc Hok. destruct (reload_success _ _ Hok) as (? & ? & _ & _ & _ & ->).
    apply checkRootObject_checked. }
  split; [| split; [| split; [| split]]].
  - apply checkRootObject_checked.
  - intros fs f. unfold newComponentDocument. cbn [root]. apply checkRootObject_checked.
  - done.
  - intros op fs doc Hinv.
    assert (op = OpReload \/ op <> OpReload) as [-> | Hop]
      by (destruct op; (by left) || (by right)).
    + cbn [step snd]. destruct (fst (reload fs doc)) eqn:Hok; [by apply Hreload |].
      by rewrite (reload_failure _ _ Hok).
    + by apply (rootChecked_frame _ _ (rootFrame_step op fs doc Hop)).
  - intros op fs doc Hop. pose proof (rootFrame_step op fs doc Hop) as Hframe.
    unfold rootFrame in Hframe. by injection Hframe.
Qed.

(** *** A drag gesture and the undo history *)

Lemma withDetachedNodes_same (h : @DragHandler Zone) :
  withDetachedNodes (detachedNodes h) h = h.
Proof. by destruct h. Qed.

Lemma restore_detached (nodes : gmap nat ValueTree) (i : nat) (v : ValueTree)
    (name value : string) :
  nodes !! i = Some v ->
  alter (restoreProperty name (getProperty v name)) i
    (<[i := setProperty name value v]> nodes)
  = nodes.
Proof.
  intros Hv. apply map_eq. intros j. destruct (decide (i = j)) as [<- | Hij].
  - rewrite lookup_alter_eq, lookup_insert_eq, Hv. cbn [fmap option_fmap option_map].
    f_equal. unfold restoreProperty. apply restore_setProperty.
  - by rewrite lookup_alter_ne, lookup_insert_ne.
Qed.

Lemma handlerFrame_keepNode (i : nat) (v : ValueTree) (h : @DragHandler Zone) :
  handlerFrame (keepNode i v h) = handlerFrame h.
Proof.
  unfold keepNode. case_bool_decide; [| done]. by destruct (detachedNodes h !! i).
Qed.

Lemma handlerFrame_undoHandlerAction (tree : ValueTree) (h : @DragHandler Zone)
    (a : UndoableAction) :
  handlerFrame (undoHandlerAction tree h a) = handlerFrame h.
Proof.
  destruct a as [| child | owner i name new old]; cbn [undoHandlerAction]; [done | |].
  - unfold keepLastNode.
    destruct (last (components tree)); [apply handlerFrame_keepNode | done].
  - by case_decide.
Qed.

Lemma handlerFrame_undoHandlerActions (actions : list UndoableAction) (tree : ValueTree)
    (h : @DragHandler Zone) :
  handlerFrame (undoHandlerActions actions tree h) = handlerFrame h.
Proof.
  revert tree h. induction actions as [|a actions IH]; intros tree h; [done |].
  cbn [undoHandlerActions]. by rewrite IH, handlerFrame_undoHandlerAction.
Qed.

Lemma draggerBeforeTransaction_Some (doc : Doc) (h0 : DragHandler) :
  draggerBeforeTransaction doc = Some h0 ->
  exists h, dragger doc = Some h /\ handlerFrame h = handlerFrame h0.
Proof.
  unfold draggerBeforeTransaction. destruct (dragger doc) as [h|]; [| discriminate].
  intros [= <-]. exists h. by rewrite handlerFrame_undoHandlerActions.
Qed.

Lemma undoCurrentTransactionOnly_fields (doc : Doc) :
  cppFile (undoCurrentTransactionOnly doc) = cppFile doc
  /\ root (undoCurrentTransactionOnly doc) = treeBeforeTransaction doc
  /\ undoManager (undoCurrentTransactionOnly doc)
     = mkUndoManager (transactions (undoManager doc)) []
  /\ dragger (undoCurrentTransactionOnly doc) = draggerBeforeTransaction doc.
Proof.
  unfold undoCurrentTransactionOnly, treeBeforeTransaction, draggerBeforeTransaction.
  destruct (currentTransaction (undoManager doc)) eqn:Hcur; [| done].
  repeat split; [| by destruct (dragger doc)].
  destruct (undoManager doc). cbn in *. by subst.
Qed.

Lemma setPropertyUndoable_undone (handle : option nat) (name value : string) (doc : Doc) :
  let doc' := setPropertyUndoable handle name value doc in
  treeBeforeTransaction doc' = treeBeforeTransaction doc
  /\ transactions (undoManager doc') = transactions (undoManager doc)
  /\ draggerBeforeTransaction doc' = draggerBeforeTransaction doc
  /\ cppFile doc' = cppFile doc.
Proof.
  unfold setPropertyUndoable. destruct handle as [i|]; [| done].
  destruct (detachedNode doc i) as [[h v]|] eqn:Hnode.
  - case_decide; [done |]. unfold detachedNode in Hnode.
    destruct (dragger doc) as [h'|] eqn:Hh; [| discriminate]. cbn in Hnode.
    destruct (detachedNodes h' !! i) as [v'|] eqn:Hv; [| discriminate].
    injection Hnode as -> ->.
    split; [done |]. split; [done |]. split; [| done].
    unfold draggerBeforeTransaction.
    cbn [undoManager perform root dragger currentTransaction undoHandlerActions undoAction
           undoHandlerAction handlerId withDetachedNodes detachedNodes fmap option_fmap
           option_map].
    rewrite decide_True by done.
    unfold withDetachedNodes at 1.
    cbn [draggedComponents originalPositions zone handlerId detachedNodes withDetachedNodes].
    rewrite (restore_detached _ _ _ _ _ Hv), Hh. by destruct h.
  - destruct (components (root doc) !! i) as [v|] eqn:Hv; [| done].
    case_decide; [done |].
    pose proof (undoAction_setProperty _ _ _ name value Hv) as Hundo.
    split; [| split; [done | split; [| done]]].
    + unfold treeBeforeTransaction.
      cbn [undoManager perform root currentTransaction]. by rewrite undoActions_cons, Hundo.
    + unfold draggerBeforeTransaction.
      cbn [undoManager perform root dragger currentTransaction undoHandlerActions
             undoHandlerAction].
      by rewrite Hundo.
Qed.

Lemma moveAll_undone (h : DragHandler) (distance : Point) (vs : list (option nat))
    (ps : list Rectangle) (doc : Doc) :
  let doc' := moveAll componentBoundsToString resizeRectangleBy h distance vs ps doc in
  treeBeforeTransaction doc' = treeBeforeTransaction doc
  /\ transactions (undoManager doc') = transactions (undoManager doc)
  /\ draggerBeforeTransaction doc' = draggerBeforeTransaction doc
  /\ cppFile doc' = cppFile doc.
Proof.
  revert ps doc. induction vs as [|v vs IH]; intros [|p ps] doc; try done.
  cbn [moveAll]. destruct (IH ps (move componentBoundsToString resizeRectangleBy h v distance p doc))
    as (-> & -> & -> & ->).
  apply setPropertyUndoable_undone.
Qed.

Lemma undoCurrentTransactionOnly_undone (doc : Doc) :
  let doc' := undoCurrentTransactionOnly doc in
  treeBeforeTransaction doc' = treeBeforeTransaction doc
  /\ transactions (undoManager doc') = transactions (undoManager doc)
  /\ draggerBeforeTransaction doc' = draggerBeforeTransaction doc
  /\ cppFile doc' = cppFile doc.
Proof.
  destruct (undoCurrentTransactionOnly_fields doc) as (Hfile & Hroot & Hundo & Hdragger).
  unfold treeBeforeTransaction at 1, draggerBeforeTransaction at 1.
  rewrite Hundo, Hroot, Hdragger. cbn [currentTransaction transactions].
  split; [done |]. split; [done |]. split; [| done].
  by destruct (draggerBeforeTransaction doc).
Qed.

Lemma drag_undone (h : DragHandler) (e : MouseEvent) (doc : Doc) :
  treeBeforeTransaction (drag' h e doc) = treeBeforeTransaction doc
  /\ transactions (undoManager (drag' h e doc)) = transactions (undoManager doc)
  /\ draggerBeforeTransaction (drag' h e doc) = draggerBeforeTransaction doc
  /\ cppFile (drag' h e doc) = cppFile doc.
Proof.
  unfold drag.
  destruct (moveAll_undone h (getOffsetFromDragStart e) (draggedComponents h)
              (originalPositions h) (undoCurrentTransactionOnly doc)) as (-> & -> & -> & ->).
  apply undoCurrentTransactionOnly_undone.
Qed.

Lemma continueDrags_undone (es : list MouseEvent) (doc : Doc) :
  let doc' := continueDrags componentBoundsToString resizeRectangleBy es doc in
  treeBeforeTransaction doc' = treeBeforeTransaction doc
  /\ transactions (undoManager doc') = transactions (undoManager doc)
  /\ draggerBeforeTransaction doc' = draggerBeforeTransaction doc
  /\ cppFile doc' = cppFile doc.
Proof.
  revert doc. induction es as [|e es IH]; intros doc; [done |].
  unfold continueDrags in *. cbn [fold_left].
  destruct (IH (continueDrag' e doc)) as (-> & -> & -> & ->).
  unfold continueDrag. destruct (dragger doc) as [h|] eqn:Hh; [| done].
  apply drag_undone.
Qed.

Lemma umBeginNewTransaction_closed (um : UndoManager) :
  currentTransaction (umBeginNewTransaction um) = [].
Proof. unfold umBeginNewTransaction. by destruct (currentTransaction um) eqn:Hc. Qed.

Lemma umBeginNewTransaction_twice (um : UndoManager) :
  umBeginNewTransaction (umBeginNewTransaction um) = umBeginNewTransaction um.
Proof.
  unfold umBeginNewTransaction at 1. by rewrite umBeginNewTransaction_closed.
Qed.

Lemma beginDrag_undone (items : list Component) (e : MouseEvent) (z : Zone) (doc : Doc) :
  let doc' := beginDrag stringToComponentBounds items e z doc in
  treeBeforeTransaction doc' = root doc
  /\ transactions (undoManager doc') = transactions (umBeginNewTransaction (undoManager doc))
  /\ dragger doc' = Some (fst (newDragHandler stringToComponentBounds doc items z))
  /\ cppFile doc' = cppFile doc
  /\ draggerBeforeTransaction doc'
     = Some (fst (newDragHandler stringToComponentBounds doc items z)).
Proof.
  unfold beginDrag, newDragHandler, treeBeforeTransaction, draggerBeforeTransaction,
    beginNewTransaction.
  destruct (dragger doc);
    cbn [setDragger undoManager root dragger cppFile changedSinceSaved fst];
    rewrite ?umBeginNewTransaction_twice, umBeginNewTransaction_closed; eauto 10.
Qed.


(** *** When a drag records something, it has changed the tree *)

Section DragTargets.

Variable original : ValueTree.
Variable h : @DragHandler Zone.
Variable distance : Point.

Local Abbreviation target :=
  (dragTarget stringToComponentBounds componentBoundsToString resizeRectangleBy
     original h distance).
Local Abbreviation moved :=
  (draggedFrom stringToComponentBounds componentBoundsToString resizeRectangleBy
     original h distance).
Local Abbreviation recorded doc :=
  (handlesInTree doc
   /\ (currentTransaction (undoManager doc) <> [] -> changedSinceSaved doc = true)).

Lemma detachedNode_in_tree (doc : Doc) (i : nat) :
  handlesInTree doc -> detachedNode doc i = None.
Proof.
  intros Hin. unfold detachedNode. pose proof (Hin) as Hnone.
  unfold handlesInTree in Hnone. destruct (dragger doc) as [h'|]; [| done].
  cbn. by rewrite (Hnone h' eq_refl), lookup_empty.
Qed.

Lemma move_moved (i : nat) (doc : Doc) :
  recorded doc ->
  moved doc ->
  recorded (setPropertyUndoable (Some i) compBoundsProperty (target i) doc)
  /\ moved (setPropertyUndoable (Some i) compBoundsProperty (target i) doc).
Proof.
  intros [Hin Hflag] [Hall Hsome]. unfold setPropertyUndoable, draggedFrom.
  rewrite (detachedNode_in_tree _ _ Hin).
  destruct (components (root doc) !! i) as [v|] eqn:Hv; [| done].
  case_decide as Hsame; [done |].
  assert (boundsAt (root doc) i = getProperty v compBoundsProperty) as Hi
    by (unfold boundsAt; by rewrite Hv).
  assert (boundsAt original i <> Some (target i)) as Hne.
  { destruct (Hall i) as [Heq | [Heq _]]; congruence. }
  split; [done |].
  split; cbn [root undoManager].
  - intros j. rewrite boundsAt_updateComponentAt by eauto.
    case_decide as Hij; [subst j; by right | apply Hall].
  - intros _. exists i. rewrite boundsAt_updateComponentAt by eauto.
    rewrite decide_True by done. congruence.
Qed.

Lemma moveAll_moved (states : list (option nat)) (doc : Doc) :
  recorded doc ->
  moved doc ->
  let doc' :=
    moveAll componentBoundsToString resizeRectangleBy h distance states
      (List.map (fun v => stringToComponentBounds
                          (varToString (handleNode original v
                                          ≫= fun n => getProperty n compBoundsProperty)))
         states)
      doc in
  recorded doc' /\ moved doc'.
Proof.
  revert doc. induction states as [|[i|] states IH]; intros doc Hrec Hdoc; [done | |].
  - cbn [List.map moveAll]. destruct (move_moved i doc Hrec Hdoc). by apply IH.
  - cbn [List.map moveAll]. by apply IH.
Qed.

End DragTargets.

Lemma moveAll_zone (h h' : DragHandler) (distance : Point) (vs : list (option nat))
    (ps : list Rectangle) (doc : Doc) :
  zone h = zone h' ->
  moveAll componentBoundsToString resizeRectangleBy h distance vs ps doc
  = moveAll componentBoundsToString resizeRectangleBy h' distance vs ps doc.
Proof.
  intros Hzone. revert ps doc. induction vs as [|v vs IH]; intros [|p ps] doc; try done.
  cbn [moveAll]. unfold move. by rewrite Hzone, IH.
Qed.

Lemma drag_frame (h h' : DragHandler) (e : MouseEvent) (doc : Doc) :
  handlerFrame h = handlerFrame h' -> drag' h e doc = drag' h' e doc.
Proof.
  unfold handlerFrame, drag. intros [= -> -> Hzone _]. by apply moveAll_zone.
Qed.

Lemma drag_recorded_changes (original : Doc) (items : list Component) (z : Zone)
    (e : MouseEvent) (doc : Doc) :
  let h := fst (newDragHandler stringToComponentBounds original items z) in
  treeBeforeTransaction doc = root original ->
  draggerBeforeTransaction doc = Some h ->
  currentTransaction (undoManager (drag' h e doc)) <> [] ->
  root (drag' h e doc) <> root (original)
  /\ changedSinceSaved (drag' h e doc) = true.
Proof.
  intros h Hbefore Hhandler Hrecorded.
  destruct (undoCurrentTransactionOnly_fields doc) as (_ & Hroot & Hundo & Hdragger).
  rewrite Hbefore in Hroot. rewrite Hhandler in Hdragger.
  destruct (moveAll_moved (root original) h (getOffsetFromDragStart e)
              (List.map (getComponentState (root original)) items)
              (undoCurrentTransactionOnly doc)) as [[_ Hflag] [_ Hsome]].
  { split.
    - intros h' Hh'. rewrite Hdragger in Hh'. by injection Hh' as <-.
    - by rewrite Hundo. }
  { split; [intros i; left; by rewrite Hroot | by rewrite Hundo]. }
  split; [| by apply Hflag].
  intros Hsame. destruct (Hsome Hrecorded) as [i Hi]. apply Hi.
  exact (f_equal (fun t => boundsAt t i) Hsame).
Qed.

(** C4, in the form that holds of the code: a gesture ([beginDrag], any
    number of [continueDrag]s, [endDrag]) ends with no handler and no open
    transaction, and adds at most one transaction to the history that
    [beginDrag] closed: none when the tree is as it was before the gesture,
    exactly one when the tree has changed, and then [undo] gives back the
    tree as it was. *)
Theorem dragGesture_history (items : list Component) (z : Zone) (start : MouseEvent)
    (updates : list MouseEvent) (finish : MouseEvent) (doc : Doc) :
  let doc' :=
    dragGesture stringToComponentBounds componentBoundsToString resizeRectangleBy items z
      start updates finish doc in
  let before := transactions (umBeginNewTransaction (undoManager doc)) in
  dragger doc' = None
  /\ currentTransaction (undoManager doc') = []
  /\ ((root doc' = root doc /\ transactions (undoManager doc') = before)
      \/ (root doc' <> root doc
          /\ exists t,
              transactions (undoManager doc') = t :: before
              /\ undo doc'
                 = (true, mkComponentDocument (cppFile doc) (root doc) true
                            (mkUndoManager before []) None))).
Proof.
  unfold dragGesture.
  destruct (beginDrag_undone items start z doc) as (Hroot & Htrans & _ & Hfile & Hh).
  set (doc1 := beginDrag stringToComponentBounds items start z doc) in *.
  destruct (continueDrags_undone updates doc1) as (Hroot2 & Htrans2 & Hh2 & Hfile2).
  set (doc2 := continueDrags componentBoundsToString resizeRectangleBy updates doc1) in *.
  set (h := fst (newDragHandler stringToComponentBounds doc items z)) in *.
  rewrite Hh in Hh2.
  destruct (draggerBeforeTransaction_Some _ _ Hh2) as (h2 & Hd2 & Hframe).
  unfold endDrag. rewrite Hd2, (drag_frame h2 h finish doc2 Hframe).
  destruct (drag_undone h finish doc2) as (Hroot3 & Htrans3 & _ & Hfile3).
  rewrite Hroot2, Hroot in Hroot3. rewrite Htrans2, Htrans in Htrans3.
  rewrite Hfile2, Hfile in Hfile3.
  assert (currentTransaction (undoManager (drag' h finish doc2)) <> [] ->
          root (drag' h finish doc2) <> root doc
          /\ changedSinceSaved (drag' h finish doc2) = true) as Hchanged.
  { apply drag_recorded_changes; [by rewrite Hroot2 | done]. }
  set (doc3 := drag' h finish doc2) in *.
  unfold treeBeforeTransaction in Hroot3.
  unfold beginNewTransaction, setDragger, umBeginNewTransaction.
  cbn [undoManager dragger root cppFile changedSinceSaved].
  destruct (currentTransaction (undoManager doc3)) as [|a t] eqn:Hcur.
  - cbn in Hroot3. rewrite Hcur. split; [done | split; [done |]]. left. by rewrite Htrans3.
  - cbn [currentTransaction transactions]. split; [done | split; [done |]]. right.
    destruct Hchanged as [Hne Hflag]; [done |].
    split; [done |].
    exists (a :: t). rewrite Htrans3. split; [done |].
    unfold undo, umBeginNewTransaction.
    cbn [undoManager dragger root cppFile changedSinceSaved currentTransaction transactions].
    by rewrite Hroot3, Hfile3, Hflag.
Qed.

End DocumentFacts.

(** ** Saving and loading *)

Section RoundTrip.

Context {Zone : Type}.
Local Abbreviation Doc := (@ComponentDocument Zone).

Lemma streamLines_newLine (s : string) : streamLines (s +:+ newLine) <> [].
Proof.
  induction s as [|c s IH]; [done |].
  change (String c s +:+ newLine) with (String c (s +:+ newLine)). cbn [streamLines].
  case_decide; [done |]. by destruct (streamLines (s +:+ newLine)).
Qed.

Lemma streamLines_app (s rest : string) :
  streamLines (s +:+ newLine +:+ rest)
  = (streamLines (s +:+ newLine) ++ streamLines rest)%list.
Proof.
  induction s as [|c s IH]; [done |].
  change (String c s +:+ newLine +:+ rest) with (String c (s +:+ newLine +:+ rest)).
  change (String c s +:+ newLine) with (String c (s +:+ newLine)).
  cbn [streamLines]. case_decide; [by rewrite IH |]. rewrite IH.
  pose proof (streamLines_newLine s). by destruct (streamLines (s +:+ newLine)).
Qed.

Lemma concatenate_streamLines (s : string) :
  concatenate (List.map (fun l => l +:+ newLine) (streamLines (s +:+ newLine)))
  = s +:+ newLine.
Proof.
  induction s as [|c s IH]; [done |].
  change (String c s +:+ newLine) with (String c (s +:+ newLine)).
  cbn [streamLines]. case_decide as Hc.
  - subst c. cbn [List.map concatenate foldr]. fold (concatenate). 
    unfold concatenate in *. rewrite IH. done.
  - pose proof (streamLines_newLine s) as Hne.
    destruct (streamLines (s +:+ newLine)) as [|l ls]; [done |].
    unfold concatenate in *. cbn [List.map foldr] in *. rewrite <- IH. done.
Qed.

Lemma overwrite_written (fs : FileSystem) (f : File) (data : string) :
  fst (overwriteFileWithNewDataIfDifferent fs f data) = true ->
  fileContents (snd (overwriteFileWithNewDataIfDifferent fs f data)) !! f = Some data.
Proof.
  unfold overwriteFileWithNewDataIfDifferent. case_decide; [done |].
  destruct (canWrite fs f); [| discriminate]. intros _. cbn. apply lookup_insert_eq.
Qed.

Lemma overwrite_other (fs : FileSystem) (f g : File) (data : string) :
  f <> g ->
  fileContents (snd (overwriteFileWithNewDataIfDifferent fs f data)) !! g
  = fileContents fs !! g.
Proof.
  intros Hfg. unfold overwriteFileWithNewDataIfDifferent. case_decide; [done |].
  destruct (canWrite fs f); [| done]. cbn. by apply lookup_insert_ne.
Qed.

Lemma save_written (fs : FileSystem) (doc : Doc) :
  snd (cppFile doc) <> ".h" ->
  fst (fst (save fs doc)) = true ->
  createInputStream (snd (fst (save fs doc))) (cppFile doc)
  = Some (writeMetadata (fst writeCode) (root doc)).
Proof.
  intros Hext. unfold save, createInputStream. cbn [writeCode fst snd].
  set (text := writeMetadata _ (root doc)).
  assert (withFileExtension (cppFile doc) ".h" <> cppFile doc) as Hother.
  { destruct (cppFile doc) as [stem ext]. unfold withFileExtension. cbn in *. congruence. }
  pose proof (overwrite_written fs (cppFile doc) text) as Hfirst.
  destruct (overwriteFileWithNewDataIfDifferent fs (cppFile doc) text) as [[|] fs1];
    cbn [fst snd] in *; [| discriminate].
  pose proof (overwrite_other fs1 _ (cppFile doc) ("/**  */" +:+ newLine +:+ newLine) Hother)
    as Hsecond.
  destruct (overwriteFileWithNewDataIfDifferent fs1 _ _) as [[|] fs2];
    cbn [fst snd] in *; [| discriminate].
  intros _. rewrite Hsecond. by apply Hfirst.
Qed.

Lemma readMetadata_written (tree : ValueTree) :
  Forall (fun l => contains l metadataTagEnd = false)
    (streamLines (writeToStream (createXml tree) +:+ newLine)) ->
  readMetadata (streamLines (writeMetadata (fst writeCode) tree))
  = newLine +:+ writeToStream (createXml tree) +:+ newLine.
Proof.
  intros Hbody. set (text := writeToStream (createXml tree)) in *.
  set (before := ["/**  */"; ""; "#if 0";
                  "/** Jucer-generated metadata section - Edit this data at own risk!"]).
  set (after := [metadataTagEnd +:+ " */"; "#endif"]).
  assert (streamLines (writeMetadata (fst writeCode) tree)
          = (before ++ metadataTagStart
               :: (EmptyString :: streamLines (text +:+ newLine)) ++ after)%list) as ->.
  { change (writeMetadata (fst writeCode) tree)
      with (("/**  */" +:+ newLine +:+ newLine +:+ "#if 0" +:+ newLine
               +:+ "/** Jucer-generated metadata section - Edit this data at own risk!"
               +:+ newLine +:+ metadataTagStart +:+ newLine)
            +:+ newLine
            +:+ (text +:+ newLine +:+ ((metadataTagEnd +:+ " */" +:+ newLine +:+ "#endif")
                                       +:+ newLine))).
    rewrite streamLines_app, streamLines_app. reflexivity. }
  rewrite readMetadata_layout.
  - cbn [List.map concatenate foldr]. fold concatenate.
    change (foldr String.app "" ?l) with (concatenate l).
    by rewrite concatenate_streamLines.
  - split; [| split; [| split]].
    + subst before. repeat constructor.
    + reflexivity.
    + by constructor.
    + right. exists (metadataTagEnd +:+ " */"), ["#endif"]. by split.
Qed.

(** A document that checks is written and read back as it is, when the
    writing succeeds, no line of the serialized tree holds the end tag and
    the serialized tree itself reads back as the tree. *)
Lemma save_then_reload (fs : FileSystem) (doc : Doc) (xml : XmlElement) :
  let text := writeToStream (createXml (root doc)) in
  snd (cppFile doc) <> ".h" ->
  fst (fst (save fs doc)) = true ->
  Forall (fun l => contains l metadataTagEnd = false) (streamLines (text +:+ newLine)) ->
  getDocumentElement (newLine +:+ text +:+ newLine) = Some xml ->
  hasTagName xml componentDocumentTag = true ->
  fromXml xml = root doc ->
  checkRootObject (root doc) = root doc ->
  reload (snd (fst (save fs doc))) (snd (save fs doc))
  = (true,
      mkComponentDocument (cppFile doc) (root doc) false emptyUndoManager
        (detachAll (components (root doc)) <$> dragger doc)).
Proof.
  intros text Hext Hsaved Hlines Hxml Htag Htree Hchecked.
  pose proof (save_written fs doc Hext Hsaved) as Hfile.
  rewrite save_document, Hsaved.
  unfold reload. cbn [cppFile root undoManager dragger]. rewrite Hfile.
  rewrite readMetadata_written by done. fold text. rewrite Hxml, Htag, Htree, Hchecked.
  reflexivity.
Qed.

Lemma checkRootObject_checked_root (tree : ValueTree) :
  is_Some (getComponentGroup tree) -> getClassName tree <> EmptyString ->
  checkRootObject tree = tree.
Proof.
  intros [g Hg] Hname. unfold checkRootObject. rewrite Hg. by rewrite decide_False.
Qed.

(** A document on a .cpp file whose root is a well-formed COMPONENT with a
    component group and a class name, and in whose serialized form no line
    holds the end tag, is read back as it is from what [save] has written. *)
Lemma save_then_reload_wellFormed (fs : FileSystem) (doc : Doc) :
  snd (cppFile doc) <> ".h" ->
  fst (fst (save fs doc)) = true ->
  wellFormedXml (createXml (root doc)) = true ->
  hasType (root doc) componentDocumentTag = true ->
  is_Some (getComponentGroup (root doc)) ->
  getClassName (root doc) <> EmptyString ->
  Forall (fun l => contains l metadataTagEnd = false)
    (streamLines (writeToStream (createXml (root doc)) +:+ newLine)) ->
  reload (snd (fst (save fs doc))) (snd (save fs doc))
  = (true,
      mkComponentDocument (cppFile doc) (root doc) false emptyUndoManager
        (detachAll (components (root doc)) <$> dragger doc))
  /\ root (newComponentDocument (Zone := Zone) (snd (fst (save fs doc))) (cppFile doc))
     = root doc.
Proof.
  intros Hext Hsaved Hwf Htype Hgroup Hname Hlines.
  assert (hasTagName (createXml (root doc)) componentDocumentTag = true) as Htag
    by (by destruct (root doc)).
  pose proof (checkRootObject_checked_root _ Hgroup Hname) as Hchecked.
  split.
  - apply (save_then_reload fs doc (createXml (root doc))); try done.
    + by apply getDocumentElement_write.
    + apply fromXml_createXml.
  - unfold newComponentDocument.
    set (doc0 := mkComponentDocument (cppFile doc) _ false emptyUndoManager None).
    pose proof (save_written fs doc Hext Hsaved) as Hfile.
    unfold reload. cbn [cppFile root snd]. subst doc0. cbn [cppFile]. rewrite Hfile.
    rewrite readMetadata_written by done.
    rewrite getDocumentElement_write, Htag by done. cbn [snd root].
    by rewrite fromXml_createXml, Hchecked, Hchecked.
Qed.

End RoundTrip.

(** ** Examples *)

Lemma getNonExistentMemberName_terminates_witness :
  exists (r : string) (k : nat),
    (forall fuel, (getNumComponents Demo.threeButtons < fuel)%nat ->
                  runMemberNameLoop makeValidCppIdentifierModel Demo.threeButtons fuel "button"
                  = Some (r, k))
    /\ (k <= getNumComponents Demo.threeButtons + 1)%nat
    /\ getNonExistentMemberName makeValidCppIdentifierModel Demo.threeButtons "button" = r
    /\ getComponentWithMemberName Demo.threeButtons r = None
    /\ containsChar digits
         (getLastCharacter (withoutTrailingDigits (makeValidCppIdentifierModel "button")))
       = false.
Proof.
  apply (getNonExistentMemberName_terminates makeValidCppIdentifierModel Demo.threeButtons
           "button").
  vm_compute. reflexivity.
Defined.

Lemma drag_without_handler_changes_nothing_witness :
  continueDrag Demo.componentBoundsToString Demo.resizeRectangleBy (Demo.pointer 3 4)
    (Demo.holding Demo.panel)
  = Demo.holding Demo.panel
  /\ endDrag Demo.componentBoundsToString Demo.resizeRectangleBy (Demo.pointer 3 4)
       (Demo.holding Demo.panel)
     = Demo.holding Demo.panel.
Proof.
  apply (proj1 (drag_without_handler_changes_nothing Demo.componentBoundsToString
                  Demo.resizeRectangleBy)).
  reflexivity.
Defined.

Lemma save_clears_flag_iff_written_witness :
  snd (save Demo.noFiles (Demo.holding Demo.panel))
  = mkComponentDocument Demo.cpp Demo.panel false emptyUndoManager None
  /\ snd (save (Demo.readOnly Demo.noFiles) (Demo.holding Demo.panel))
     = Demo.holding Demo.panel.
Proof.
  split.
  - apply (save_clears_flag_iff_written Demo.noFiles (Demo.holding Demo.panel)).
    vm_compute. reflexivity.
  - apply (save_clears_flag_iff_written (Demo.readOnly Demo.noFiles)
             (Demo.holding Demo.panel)).
    vm_compute. reflexivity.
Defined.

Lemma dirty_flag_lifecycle_witness :
  (hasChangedSinceLastSave (Demo.holding Demo.panel) = true
   /\ fst (reload (Demo.fileSystemWith Demo.openEndedText) (Demo.holding Demo.panel)) = true
   /\ hasChangedSinceLastSave
        (snd (reload (Demo.fileSystemWith Demo.openEndedText) (Demo.holding Demo.panel)))
      = false)
  /\ hasChangedSinceLastSave (snd (reload Demo.noFiles (Demo.holding Demo.panel))) = true
  /\ (hasChangedSinceLastSave (Demo.clean Demo.panel) = false
      /\ hasChangedSinceLastSave
           (snd (step Demo.stringToComponentBounds Demo.componentBoundsToString
                   Demo.resizeRectangleBy Demo.handlers makeValidCppIdentifierModel
                   (OpNewComponent menuItemOffset "d4" 17 42)
                   (Demo.noFiles, Demo.clean Demo.panel)))
         = true
      /\ hasChangedSinceLastSave
           (snd (step Demo.stringToComponentBounds Demo.componentBoundsToString
                   Demo.resizeRectangleBy Demo.handlers makeValidCppIdentifierModel
                   (OpContinueDrag (Demo.pointer 3 4))
                   (Demo.noFiles, Demo.dragging (Demo.clean Demo.panel))))
         = true
      /\ hasChangedSinceLastSave (valueTreePropertyChanged (Demo.clean Demo.panel)) = true)
  /\ hasChangedSinceLastSave
       (snd (step Demo.stringToComponentBounds Demo.componentBoundsToString
                   Demo.resizeRectangleBy Demo.handlers makeValidCppIdentifierModel
                   OpSave (Demo.readOnly Demo.noFiles, Demo.holding Demo.panel)))
     = true
  /\ hasChangedSinceLastSave (snd (save Demo.noFiles (Demo.holding Demo.panel))) = false
  /\ (root (snd (step Demo.stringToComponentBounds Demo.componentBoundsToString
                   Demo.resizeRectangleBy Demo.handlers makeValidCppIdentifierModel
                   (OpEndDrag (Demo.pointer 5 5))
                   (Demo.saved Demo.panel,
                     snd (reload (Demo.saved Demo.panel) (Demo.dragging (Demo.clean Demo.panel))))))
      = Demo.panel
      /\ hasChangedSinceLastSave
           (snd (step Demo.stringToComponentBounds Demo.componentBoundsToString
                   Demo.resizeRectangleBy Demo.handlers makeValidCppIdentifierModel
                   (OpEndDrag (Demo.pointer 5 5))
                   (Demo.saved Demo.panel,
                     snd (reload (Demo.saved Demo.panel) (Demo.dragging (Demo.clean Demo.panel))))))
         = false).
Proof.
  destruct (dirty_flag_lifecycle Demo.stringToComponentBounds Demo.componentBoundsToString
              Demo.resizeRectangleBy Demo.handlers makeValidCppIdentifierModel)
    as (_ & Hreload & Hloaded & Hsave & Hwritten & Hcallbacks & _ & _ & Hdetached
        & Hstep & Hchange).
  assert (fst (reload (Demo.fileSystemWith Demo.openEndedText) (Demo.holding Demo.panel))
          = true) as Hok.
  { eapply Hloaded; vm_compute; reflexivity. }
  split; [| split; [| split; [| split; [| split]]]].
  - split; [reflexivity |]. split; [exact Hok |]. by rewrite Hreload, Hok.
  - rewrite Hreload. vm_compute. reflexivity.
  - split; [reflexivity |]. split; [| split].
    + destruct (Hchange (OpNewComponent menuItemOffset "d4" 17 42) Demo.noFiles
                  (Demo.clean Demo.panel) eq_refl) as [Hsame | Hflag]; [| exact Hflag].
      vm_compute in Hsame. discriminate.
    + destruct (Hchange (OpContinueDrag (Demo.pointer 3 4)) Demo.noFiles
                  (Demo.dragging (Demo.clean Demo.panel)) eq_refl)
        as [Hsame | Hflag]; [| exact Hflag].
      vm_compute in Hsame. discriminate.
    + apply Hcallbacks.
  - apply Hstep; vm_compute; reflexivity.
  - rewrite Hsave, (Hwritten Demo.noFiles (Demo.holding Demo.panel) eq_refl eq_refl).
    reflexivity.
  - set (doc := snd (reload (Demo.saved Demo.panel) (Demo.dragging (Demo.clean Demo.panel)))).
    assert (snd (step Demo.stringToComponentBounds Demo.componentBoundsToString
                   Demo.resizeRectangleBy Demo.handlers makeValidCppIdentifierModel
                   (OpEndDrag (Demo.pointer 5 5)) (Demo.saved Demo.panel, doc))
            = beginNewTransaction
                (setDragger None
                   (setPropertyUndoable (Some 0%nat) compBoundsProperty "15 25 150 24" doc)))
      as -> by (vm_compute; reflexivity).
    destruct (Hdetached 0%nat compBoundsProperty "15 25 150 24" doc) as [Hroot Hflag].
    { vm_compute. eauto. }
    cbn [beginNewTransaction setDragger root changedSinceSaved hasChangedSinceLastSave].
    unfold hasChangedSinceLastSave in Hflag. rewrite Hroot, Hflag.
    split; vm_compute; reflexivity.
Defined.

Lemma createComponent_unknown_type_witness :
  createFromStoredType Demo.stringToComponentBounds Demo.handlers Demo.slider = None
  /\ createComponent Demo.stringToComponentBounds Demo.handlers (Demo.holding Demo.panel) 1
     = NullPointerDereference.
Proof.
  apply (createComponent_unknown_type Demo.stringToComponentBounds Demo.handlers
           (Demo.holding Demo.panel) 1 Demo.slider).
  - vm_compute. reflexivity.
  - vm_compute. reflexivity.
Defined.

Lemma reload_spec_witness :
  fst (reload (Demo.fileSystemWith Demo.openEndedText) (Demo.holding Demo.panel)) = true
  /\ fst (reload Demo.noFiles (Demo.holding Demo.panel)) = false
  /\ snd (reload Demo.noFiles (Demo.holding Demo.panel)) = Demo.holding Demo.panel.
Proof.
  destruct (reload_spec (Demo.fileSystemWith Demo.openEndedText) (Demo.holding Demo.panel))
    as (Hiff & _).
  destruct (reload_spec Demo.noFiles (Demo.holding Demo.panel)) as (_ & _ & Hfail & _).
  split; [| split].
  - apply Hiff.
    exists Demo.openEndedText,
      (mkXmlElement componentDocumentTag [(classNameProperty, "Demo")] []).
    vm_compute. repeat split; reflexivity.
  - vm_compute. reflexivity.
  - apply Hfail. vm_compute. reflexivity.
Defined.

Lemma root_object_checked_witness :
  rootChecked
    (root (snd (step Demo.stringToComponentBounds Demo.componentBoundsToString
                  Demo.resizeRectangleBy Demo.handlers makeValidCppIdentifierModel
                  (OpNewComponent menuItemOffset "d4" 17 42)
                  (Demo.noFiles, Demo.holding Demo.panel))))
  /\ rootChecked
       (root (snd (reload (Demo.fileSystemWith Demo.openEndedText)
                     (Demo.holding Demo.panel)))).
Proof.
  destruct (root_object_checked Demo.stringToComponentBounds Demo.componentBoundsToString
              Demo.resizeRectangleBy Demo.handlers makeValidCppIdentifierModel)
    as (_ & _ & Hreload & Hstep & _).
  split.
  - apply Hstep. vm_compute. split; [lia | discriminate].
  - apply Hreload. vm_compute. reflexivity.
Defined.

(** The bound on the member-name loop is reached: with the members button1
    and button2 the suggestion button1 takes three turns. *)
Lemma memberNameLoop_bound_reached :
  runMemberNameLoop makeValidCppIdentifierModel Demo.twoButtons 3 "button1"
  = Some ("button3", 3%nat)
  /\ getNumComponents Demo.twoButtons = 2%nat.
Proof. vm_compute. split; reflexivity. Qed.

(** C2, where the spec's sentence fails: a file with the start tag and no
    end tag is loaded. *)
Lemma reload_accepts_missing_end_tag :
  Forall (fun l => contains l metadataTagEnd = false) (streamLines Demo.openEndedText)
  /\ fst (reload (Demo.fileSystemWith Demo.openEndedText) (Demo.holding Demo.panel)) = true
  /\ getNumComponents
       (root (snd (reload (Demo.fileSystemWith Demo.openEndedText)
                     (Demo.holding Demo.panel)))) = 0%nat.
Proof. vm_compute. repeat constructor. Qed.

(** C8, where the spec's sentence fails: a file whose root has two component
    groups gives a root with two of them, not exactly one. *)
Lemma reload_keeps_two_component_groups :
  fst (reload (Demo.fileSystemWith Demo.twoGroupsText) (Demo.holding Demo.panel)) = true
  /\ countComponentGroups
       (root (snd (reload (Demo.fileSystemWith Demo.twoGroupsText)
                     (Demo.holding Demo.panel)))) = 2%nat
  /\ countComponentGroups
       (root (snd (reload (Demo.fileSystemWith Demo.twoGroupsText)
                     (Demo.holding Demo.panel)))) <> 1%nat
  /\ countComponentGroups
       (root (newComponentDocument (Zone := Demo.Zone)
                (Demo.fileSystemWith Demo.twoGroupsText) Demo.cpp)) = 2%nat.
Proof. vm_compute. repeat split; (reflexivity || discriminate). Qed.

(** C4, where the spec's sentence fails: a gesture on no component, and a
    gesture that brings the button back to where it was, leave no transaction
    in the history. *)
Lemma dragGesture_without_effect_adds_nothing :
  transactions
    (undoManager
       (dragGesture Demo.stringToComponentBounds Demo.componentBoundsToString
          Demo.resizeRectangleBy [] Demo.ZoneCentre (Demo.pointer 0 0)
          [Demo.pointer 3 4; Demo.pointer 6 8] (Demo.pointer 9 9) (Demo.holding Demo.panel)))
  = []
  /\ transactions
       (undoManager
          (dragGesture Demo.stringToComponentBounds Demo.componentBoundsToString
             Demo.resizeRectangleBy [Demo.okComponent] Demo.ZoneCentre (Demo.pointer 0 0)
             [Demo.pointer 3 4; Demo.pointer 6 8] (Demo.pointer 0 0) (Demo.holding Demo.panel)))
     = []
  /\ length
       (transactions
          (undoManager
             (dragGesture Demo.stringToComponentBounds Demo.componentBoundsToString
                Demo.resizeRectangleBy [] Demo.ZoneCentre (Demo.pointer 0 0)
                [Demo.pointer 3 4; Demo.pointer 6 8] (Demo.pointer 9 9)
                (Demo.holding Demo.panel))))
     <> 1%nat.
Proof. vm_compute. repeat split; (reflexivity || discriminate). Qed.

(** A gesture that moves the button: one transaction, whose undoing gives the
    tree back. *)
Lemma dragGesture_history_example :
  let doc' :=
    dragGesture Demo.stringToComponentBounds Demo.componentBoundsToString
      Demo.resizeRectangleBy [Demo.okComponent] Demo.ZoneCentre (Demo.pointer 0 0)
      [Demo.pointer 3 4; Demo.pointer 6 8] (Demo.pointer 7 8) (Demo.holding Demo.panel) in
  length (transactions (undoManager doc')) = 1%nat
  /\ boundsAt (root doc') 0 = Some "17 28 150 24"
  /\ root (snd (undo doc')) = Demo.panel.
Proof. vm_compute. repeat split; reflexivity. Qed.

(** A document that holds [Demo.panel] is written and read back as it is. *)
Lemma save_then_reload_example :
  let '(ok, fs, doc) := save Demo.noFiles (Demo.holding Demo.panel) in
  ok = true
  /\ fst (reload fs doc) = true
  /\ root (snd (reload fs doc)) = Demo.panel
  /\ root (newComponentDocument (Zone := Demo.Zone) fs Demo.cpp) = Demo.panel.
Proof. vm_compute. repeat split; reflexivity. Qed.

(** The general fact at [Demo.panel]. *)
Lemma save_then_reload_wellFormed_example :
  root (newComponentDocument (Zone := Demo.Zone)
          (snd (fst (save Demo.noFiles (Demo.holding Demo.panel)))) Demo.cpp)
  = Demo.panel.
Proof.
  apply (save_then_reload_wellFormed Demo.noFiles (Demo.holding Demo.panel));
    vm_compute; try done; eauto.
  repeat constructor.
Qed.

(** C1: the document that holds [Demo.taggedPanel], whose button has the text
    of the end tag as its name, is saved; the serialized tree alone reads
    back as the tree, but [reload] on the written file fails, and a document
    made from the written file has no component where the tree had one: the
    line of the button holds the end tag and ends the block (line 260). *)
Theorem save_then_reload_loses_tagged_name :
  let '(ok, fs, doc) := save Demo.noFiles (Demo.holding Demo.taggedPanel) in
  ok = true
  /\ fromXml <$> getDocumentElement (writeToStream (createXml Demo.taggedPanel))
     = Some Demo.taggedPanel
  /\ fst (reload fs doc) = false
  /\ getNumComponents Demo.taggedPanel = 1%nat
  /\ getNumComponents (root (newComponentDocument (Zone := Demo.Zone) fs Demo.cpp)) = 0%nat.
Proof. vm_compute. repeat split; reflexivity. Qed.

(** * The rest of the file's functions

    ** Scans that run backwards *)

Lemma find_rev_Some {A} (p : A -> bool) (l : list A) (x : A) :
  List.find p (rev l) = Some x
  <-> exists before after,
        l = (before ++ x :: after)%list /\ p x = true
        /\ Forall (fun y => p y = false) after.
Proof.
  induction l as [|a l IH] using rev_ind.
  - split; [discriminate |]. intros (before & after & Hl & _). by destruct before.
  - rewrite rev_app_distr. cbn [rev app List.find]. destruct (p a) eqn:Ha.
    + split.
      * intros [= ->]. exists l, []. by repeat split.
      * intros (before & after & Hl & Hx & Hafter).
        destruct after as [|b after _] using rev_ind.
        -- apply app_inj_tail in Hl as [_ ->]. done.
        -- rewrite app_comm_cons, app_assoc in Hl. apply app_inj_tail in Hl as [_ ->].
           rewrite Forall_app, Forall_singleton in Hafter. destruct Hafter as [_ Hb].
           congruence.
    + rewrite IH. split.
      * intros (before & after & -> & Hx & Hafter).
        exists before, (after ++ [a])%list. split; [by rewrite <- app_assoc |].
        split; [done |]. rewrite Forall_app, Forall_singleton. done.
      * intros (before & after & Hl & Hx & Hafter).
        destruct after as [|b after _] using rev_ind.
        -- apply app_inj_tail in Hl as [_ ->]. congruence.
        -- rewrite app_comm_cons, app_assoc in Hl. apply app_inj_tail in Hl as [-> ->].
           rewrite Forall_app in Hafter. destruct Hafter as [Hafter _]. by exists before, after.
Qed.

Lemma find_rev_None {A} (p : A -> bool) (l : list A) :
  List.find p (rev l) = None <-> Forall (fun y => p y = false) l.
Proof.
  induction l as [|a l IH] using rev_ind.
  - split; [constructor | done].
  - rewrite rev_app_distr. cbn [rev app List.find]. rewrite Forall_app, Forall_singleton.
    destruct (p a); [split; [discriminate | intros [_ ?]; discriminate] |].
    rewrite IH. tauto.
Qed.

(** X1: [getHandlerFor] scans the handlers from the last one registered down
    to the first: it returns a handler exactly when that handler has the tag
    asked for and no handler registered after it has, and it returns null
    exactly when no handler has the tag. *)
Theorem getHandlerFor_last_registered (handlers : list ComponentTypeHandler)
    (type : string) :
  (forall h,
      getHandlerFor handlers type = Some h
      <-> exists before after,
            handlers = (before ++ h :: after)%list /\ handlerXmlTag h = type
            /\ Forall (fun h' => handlerXmlTag h' <> type) after)
  /\ (getHandlerFor handlers type = None
      <-> Forall (fun h' => handlerXmlTag h' <> type) handlers).
Proof.
  unfold getHandlerFor. split.
  - intros h. rewrite find_rev_Some. split.
    + intros (before & after & Hl & Hh & Hafter). exists before, after.
      split; [done |]. split; [by apply bool_decide_eq_true in Hh |].
      eapply Forall_impl; [exact Hafter |]. intros h'. apply bool_decide_eq_false.
    + intros (before & after & Hl & Hh & Hafter). exists before, after.
      split; [done |]. split; [by apply bool_decide_eq_true |].
      eapply Forall_impl; [exact Hafter |]. intros h'. apply bool_decide_eq_false.
  - rewrite find_rev_None. split; intros Hall; (eapply Forall_impl; [exact Hall |]);
      intros h'; apply bool_decide_eq_false.
Qed.

(** X2: [getComponentWithMemberName] scans the group from the last component
    down to the first: it returns a component exactly when that component
    has the member name and no component after it has, and the invalid tree
    exactly when no component has it. *)
Theorem getComponentWithMemberName_last (root : ValueTree) (name : string) :
  (forall v,
      getComponentWithMemberName root name = Some v
      <-> exists before after,
            components root = (before ++ v :: after)%list
            /\ getProperty v memberNameProperty = Some name
            /\ Forall (fun w => getProperty w memberNameProperty <> Some name) after)
  /\ (getComponentWithMemberName root name = None
      <-> Forall (fun w => getProperty w memberNameProperty <> Some name) (components root)).
Proof.
  unfold getComponentWithMemberName, hasMemberName. split.
  - intros v. rewrite find_rev_Some. split.
    + intros (before & after & Hl & Hv & Hafter). exists before, after.
      split; [done |]. split; [by apply bool_decide_eq_true in Hv |].
      eapply Forall_impl; [exact Hafter |]. intros w. apply bool_decide_eq_false.
    + intros (before & after & Hl & Hv & Hafter). exists before, after.
      split; [done |]. split; [by apply bool_decide_eq_true |].
      eapply Forall_impl; [exact Hafter |]. intros w. apply bool_decide_eq_false.
  - rewrite find_rev_None. split; intros Hall; (eapply Forall_impl; [exact Hall |]);
      intros w; apply bool_decide_eq_false.
Qed.

(** ** Components and their states *)

Lemma containsComponent_state (tree : ValueTree) (comp : Component) :
  containsComponent tree comp = true <-> is_Some (getComponentState tree comp).
Proof.
  unfold containsComponent, getComponentState. rewrite fmap_is_Some.
  rewrite existsb_exists. split.
  - intros (v & Hv & Hstate). apply list_elem_of_In in Hv.
    apply (list_find_elem_of (fun v => isStateForComponent v comp = true) _ v); done.
  - intros [[i v] Hfind]. apply list_find_Some in Hfind as (Hi & Hstate & _).
    exists v. split; [| done]. apply list_elem_of_In. by eapply list_elem_of_lookup_2.
Qed.

(** X3: [getComponentState] returns the first child of the group whose id
    equals the component's, whatever comes after it; [containsComponent],
    the same loop with a boolean result, is true exactly when that state is
    valid, and false exactly when no child has the component's id. *)
Theorem getComponentState_first (tree : ValueTree) (comp : Component) :
  (forall i,
      getComponentState tree comp = Some i
      <-> exists v,
            components tree !! i = Some v
            /\ getProperty v idProperty = componentProperties comp !! idProperty
            /\ forall j w, (j < i)%nat -> components tree !! j = Some w ->
                           getProperty w idProperty <> componentProperties comp !! idProperty)
  /\ (containsComponent tree comp = true <-> is_Some (getComponentState tree comp))
  /\ (containsComponent tree comp = false
      <-> forall v, v ∈ components tree ->
                    getProperty v idProperty <> componentProperties comp !! idProperty).
Proof.
  split; [| split].
  - intros i. unfold getComponentState. split.
    + intros Hfind. destruct (list_find _ _) as [[i' v]|] eqn:Hlf; [| discriminate].
      cbn in Hfind. injection Hfind as ->.
      apply list_find_Some in Hlf as (Hi & Hstate & Hfirst). exists v.
      split; [done |]. split; [by apply bool_decide_eq_true in Hstate |].
      intros j w Hj Hw Hsame. apply (Hfirst j w Hw Hj). by apply bool_decide_eq_true.
    + intros (v & Hi & Hstate & Hfirst).
      assert (list_find (fun v => isStateForComponent v comp = true) (components tree)
              = Some (i, v)) as ->; [| done].
      apply list_find_Some. split; [done |]. split; [by apply bool_decide_eq_true |].
      intros j w Hw Hj Hsame. apply (Hfirst j w Hj Hw). by apply bool_decide_eq_true in Hsame.
  - apply containsComponent_state.
  - unfold containsComponent. rewrite <- not_true_iff_false, existsb_exists. split.
    + intros Hnone v Hv Hsame. apply Hnone. exists v.
      split; [by apply list_elem_of_In | by apply bool_decide_eq_true].
    + intros Hnone (v & Hv & Hstate). apply (Hnone v); [by apply list_elem_of_In |].
      by apply bool_decide_eq_true in Hstate.
Qed.

(** ** The name that the member-name loop settles on *)

Lemma wrap32_small (z : Z) : - 2 ^ 31 <= z < 2 ^ 31 -> wrap32 z = z.
Proof. intros Hz. unfold wrap32. rewrite Z.mod_small; lia. Qed.

Lemma memberNameLoop_first_free (root : ValueTree) (original : string) :
  forall (fuel : nat) (s : string) (c : Z) (r : string) (k : nat),
    memberNameLoop root fuel original s (wrap32 c) = Some (r, k) ->
    match k with
    | O => r = s /\ getComponentWithMemberName root s = None
    | S k' =>
        is_Some (getComponentWithMemberName root s)
        /\ r = numbered original (wrap32 (c + Z.of_nat k'))
        /\ getComponentWithMemberName root r = None
        /\ forall j, (j < k')%nat ->
                     is_Some (getComponentWithMemberName root
                                (numbered original (wrap32 (c + Z.of_nat j))))
    end.
Proof.
  induction fuel as [|fuel IH]; intros s c r k Hrun; cbn [memberNameLoop] in Hrun;
    destruct (getComponentWithMemberName root s) as [v|] eqn:Hs;
    try discriminate; try (injection Hrun as <- <-; done).
  rewrite wrap32_succ in Hrun.
  destruct (memberNameLoop root fuel original (numbered original (wrap32 c))
              (wrap32 (c + 1))) as [[r0 k0]|] eqn:Hrec; [| discriminate].
  injection Hrun as <- <-. apply IH in Hrec. split; [done |].
  destruct k0 as [|k0].
  - destruct Hrec as [-> Hfree]. rewrite Z.add_0_r. split; [done |].
    split; [done |]. intros j Hj. lia.
  - destruct Hrec as (Htaken & -> & Hfree & Hbefore).
    replace (c + 1 + Z.of_nat k0) with (c + Z.of_nat (S k0)) in * by lia.
    split; [done |]. split; [done |]. intros [|j] Hj.
    + by rewrite Z.add_0_r.
    + replace (c + Z.of_nat (S j)) with (c + 1 + Z.of_nat j) by lia. apply Hbefore. lia.
Qed.

(** X4: [getNonExistentMemberName] returns the first free name of the
    sequence that starts with the normalized suggestion and goes on with its
    stem (the suggestion without trailing digits) followed by 1, 2, 3, ...:
    the suggestion itself when no component has it, and otherwise the stem
    with the least number k from 1 on that gives a free name, every smaller
    number giving a name that is taken; k is at most the number of
    components plus one (for a group of fewer than 2^31 - 1 components, so
    that the counter, an int, does not wrap). *)
Theorem getNonExistentMemberName_first_free
    (makeValidCppIdentifier : string -> string) (root : ValueTree) (suggestedName : string) :
  Z.of_nat (getNumComponents root) < 2 ^ 31 - 1 ->
  let original := makeValidCppIdentifier suggestedName in
  let result := getNonExistentMemberName makeValidCppIdentifier root suggestedName in
  ((original ∉ memberNames root) /\ result = original)
  \/ ((original ∈ memberNames root)
      /\ exists k : Z,
          1 <= k <= Z.of_nat (getNumComponents root) + 1
          /\ result = numbered original k
          /\ (numbered original k ∉ memberNames root)
          /\ forall j : Z, 1 <= j < k -> numbered original j ∈ memberNames root).
Proof.
  intros Hsize original result.
  destruct (candidates_free root original 1) as (d & Hd & Hfree); [lia |].
  destruct (memberNameLoop_run root original d (S (getNumComponents root)) original 1)
    as (r & k & Hrun & Hk & Hr); [lia | done |].
  assert (result = r) as ->.
  { unfold result, getNonExistentMemberName, runMemberNameLoop. fold original.
    change (wrap32 1) with 1 in Hrun. by rewrite Hrun. }
  apply memberNameLoop_first_free in Hrun. destruct k as [|k].
  - left. destruct Hrun as [-> Hnone]. split; [by apply memberName_free | done].
  - right. destruct Hrun as (Htaken & -> & Hnone & Hbefore).
    split; [by apply memberName_taken |].
    exists (1 + Z.of_nat k).
    rewrite (wrap32_small (1 + Z.of_nat k)) in Hnone |- * by lia.
    split; [lia |]. split; [done |]. split; [by apply memberName_free |].
    intros j Hj. apply memberName_taken.
    specialize (Hbefore (Z.to_nat (j - 1)) ltac:(lia)).
    rewrite wrap32_small in Hbefore by lia.
    by replace (1 + Z.of_nat (Z.to_nat (j - 1))) with j in Hbefore by lia.
Qed.

(** ** Creating and updating live components *)

Lemma getComponent_lookup (tree : ValueTree) (index : Z) :
  getComponent tree index
  = if index <? 0 then None else components tree !! Z.to_nat index.
Proof.
  unfold getComponent, components, getChild.
  destruct (getComponentGroup tree); [done |]. by destruct (index <? 0).
Qed.

Lemma getComponent_range (tree : ValueTree) (index : Z) :
  is_Some (getComponent tree index) <-> 0 <= index < Z.of_nat (getNumComponents tree).
Proof.
  rewrite getComponent_lookup. unfold getNumComponents.
  destruct (index <? 0) eqn:Hneg.
  - apply Z.ltb_lt in Hneg. split; [intros [? ?]; discriminate | lia].
  - apply Z.ltb_ge in Hneg. rewrite lookup_lt_is_Some. lia.
Qed.

Lemma isStateForComponent_setComponentId (v : ValueTree) (c : Component) :
  isStateForComponent v (setComponentId v c) = true.
Proof.
  unfold isStateForComponent, setComponentId. cbn [componentProperties].
  apply bool_decide_eq_true. destruct (getProperty v idProperty) as [s|].
  - by rewrite lookup_insert_eq.
  - by rewrite lookup_delete_eq.
Qed.

Section ComponentFacts.

Context {Zone : Type}.
Variable stringToComponentBounds : string -> Rectangle.
Variable handlers : list ComponentTypeHandler.

Local Abbreviation Doc := (@ComponentDocument Zone).
Local Abbreviation createComponent' := (createComponent stringToComponentBounds handlers).
Local Abbreviation updateComponent' := (updateComponent stringToComponentBounds handlers).
Local Abbreviation createFromStoredType' :=
  (createFromStoredType stringToComponentBounds handlers).

Lemma createComponent_created (doc : Doc) (index : Z) (c : Component) :
  createComponent' doc index = Returned (Some c) ->
  exists v h c0,
    0 <= index
    /\ components (root doc) !! Z.to_nat index = Some v
    /\ getHandlerFor handlers (vtType v) = Some h
    /\ handlerCreateComponent h = Some c0
    /\ c = setComponentId v (handlerUpdateComponent stringToComponentBounds c0 v).
Proof.
  unfold createComponent, createFromStoredType. rewrite getComponent_lookup.
  destruct (index <? 0) eqn:Hneg; [discriminate |]. apply Z.ltb_ge in Hneg.
  destruct (components (root doc) !! Z.to_nat index) as [v|] eqn:Hv; [| discriminate].
  destruct (getHandlerFor handlers (vtType v)) as [h|] eqn:Hh; [| discriminate].
  destruct (handlerCreateComponent h) as [c0|] eqn:Hc0; [| discriminate].
  intros [= <-]. by exists v, h, c0.
Qed.

(** X5: [createComponent] returns null exactly when the index is outside
    the component group; it uses a null pointer (line 370) exactly when the
    node at the index has no handler for its type or the handler creates no
    component; and a component that it returns has the id property of the
    node, is contained in the document, and has the bounds and the name that
    the node's position and name properties give. *)
Theorem createComponent_outcomes (doc : Doc) (index : Z) :
  (createComponent' doc index = Returned None
   <-> ~ (0 <= index < Z.of_nat (getNumComponents (root doc))))
  /\ (createComponent' doc index = NullPointerDereference
      <-> exists v,
            getComponent (root doc) index = Some v
            /\ (getHandlerFor handlers (vtType v) = None
                \/ exists h, getHandlerFor handlers (vtType v) = Some h
                             /\ handlerCreateComponent h = None))
  /\ (forall c,
         createComponent' doc index = Returned (Some c) ->
         exists v,
           getComponent (root doc) index = Some v
           /\ componentProperties c !! idProperty = getProperty v idProperty
           /\ containsComponent (root doc) c = true
           /\ componentBounds c
              = stringToComponentBounds (varToString (getProperty v compBoundsProperty))
           /\ componentName c = varToString (getProperty v compNameProperty)).
Proof.
  split; [| split].
  - rewrite <- getComponent_range. unfold createComponent.
    destruct (getComponent (root doc) index) as [v|].
    + split; [by destruct (createFromStoredType' v) | intros H; destruct H; eauto].
    + split; [intros _ [? ?]; discriminate | done].
  - unfold createComponent, createFromStoredType.
    destruct (getComponent (root doc) index) as [v|]; cycle 1.
    { split; [discriminate | intros (v & ? & _); discriminate]. }
    destruct (getHandlerFor handlers (vtType v)) as [h|] eqn:Hh.
    + destruct (handlerCreateComponent h) as [c0|] eqn:Hc0.
      * split; [discriminate |].
        intros (v' & [= <-] & [? | (h' & ? & ?)]); congruence.
      * split; [| done]. intros _. exists v. split; [done |]. right. by exists h.
    + split; [| done]. intros _. exists v. split; [done |]. by left.
  - intros c Hc. destruct (createComponent_created doc index c Hc)
      as (v & h & c0 & Hindex & Hv & Hh & Hc0 & ->).
    exists v. split.
    { rewrite getComponent_lookup. by rewrite (proj2 (Z.ltb_ge _ _) Hindex). }
    pose proof (isStateForComponent_setComponentId v
                  (handlerUpdateComponent stringToComponentBounds c0 v)) as Hstate.
    split; [| split; [| done]].
    + apply bool_decide_eq_true in Hstate. by rewrite Hstate.
    + unfold containsComponent. apply existsb_exists. exists v.
      split; [| done]. apply list_elem_of_In. by eapply list_elem_of_lookup_2.
Qed.

Lemma getComponentState_unique (tree : ValueTree) (comp : Component) (i : nat)
    (v : ValueTree) :
  NoDup (componentIds tree) ->
  components tree !! i = Some v ->
  isStateForComponent v comp = true ->
  getComponentState tree comp = Some i.
Proof.
  intros Hids Hv Hstate. unfold getComponentState.
  assert (list_find (fun w => isStateForComponent w comp = true) (components tree)
          = Some (i, v)) as ->; [| done].
  apply list_find_Some. split; [done |]. split; [done |].
  intros j w Hw Hj Hsame.
  apply bool_decide_eq_true in Hstate. apply bool_decide_eq_true in Hsame.
  assert (i = j); [| lia].
  apply (NoDup_lookup (componentIds tree) i j (getProperty v idProperty)); [done | |];
    unfold componentIds.
  - change (List.map ?f ?l) with (f <$> l). by rewrite list_lookup_fmap, Hv.
  - change (List.map ?f ?l) with (f <$> l). rewrite list_lookup_fmap, Hw.
    change (Some (getProperty w idProperty) = Some (getProperty v idProperty)). congruence.
Qed.

(** X6: when the components of the group have ids that differ from one
    another, the state of a component that [createComponent] has made for an
    index is the node at that index, and [updateComponent] leaves the new
    component as it is: it already shows what the node says. *)
Theorem createComponent_state_round_trip (doc : Doc) (index : Z) (c : Component) :
  NoDup (componentIds (root doc)) ->
  createComponent' doc index = Returned (Some c) ->
  getComponentState (root doc) c = Some (Z.to_nat index)
  /\ handleNode (root doc) (getComponentState (root doc) c) = getComponent (root doc) index
  /\ updateComponent' doc c = c.
Proof.
  intros Hids Hc.
  destruct (createComponent_created doc index c Hc)
    as (v & h & c0 & Hindex & Hv & Hh & Hc0 & ->).
  assert (getComponentState (root doc)
            (setComponentId v (handlerUpdateComponent stringToComponentBounds c0 v))
          = Some (Z.to_nat index)) as Hstate.
  { apply (getComponentState_unique _ _ _ v); [done | done |].
    apply isStateForComponent_setComponentId. }
  split; [done |]. split.
  - rewrite Hstate, getComponent_lookup. by rewrite (proj2 (Z.ltb_ge _ _) Hindex).
  - unfold updateComponent. rewrite Hstate. cbn [handleNode]. by rewrite Hv, Hh.
Qed.

(** X7: [updateComponent] never touches the properties of the component, its
    id among them, so the component keeps its state in the document; a second
    call changes nothing more; and a component that the document does not
    contain is left as it is. *)
Theorem updateComponent_idempotent (doc : Doc) (comp : Component) :
  componentProperties (updateComponent' doc comp) = componentProperties comp
  /\ getComponentState (root doc) (updateComponent' doc comp)
     = getComponentState (root doc) comp
  /\ updateComponent' doc (updateComponent' doc comp) = updateComponent' doc comp
  /\ (containsComponent (root doc) comp = false -> updateComponent' doc comp = comp).
Proof.
  assert (componentProperties (updateComponent' doc comp) = componentProperties comp)
    as Hprops.
  { unfold updateComponent. destruct (handleNode _ _) as [v|]; [| done].
    by destruct (getHandlerFor handlers (vtType v)). }
  assert (getComponentState (root doc) (updateComponent' doc comp)
          = getComponentState (root doc) comp) as Hstate.
  { unfold getComponentState, isStateForComponent. by rewrite Hprops. }
  split; [done |]. split; [done |]. split.
  - unfold updateComponent at 1. rewrite Hstate. unfold updateComponent.
    destruct (handleNode _ _) as [v|]; [| done].
    by destruct (getHandlerFor handlers (vtType v)).
  - intros Hnone. unfold updateComponent.
    destruct (getComponentState (root doc) comp) as [i|] eqn:Hi; [| done].
    assert (containsComponent (root doc) comp = true) as Hyes
      by (apply containsComponent_state; by rewrite Hi).
    congruence.
Qed.

End ComponentFacts.

(** ** New components *)

Lemma getNonExistentMemberName_fresh (mk : string -> string) (tree : ValueTree)
    (suggestedName : string) :
  Z.of_nat (getNumComponents tree) < 2 ^ 31 ->
  getComponentWithMemberName tree (getNonExistentMemberName mk tree suggestedName) = None.
Proof.
  intros Hsize.
  destruct (candidates_free tree (mk suggestedName) 1) as (d & Hd & Hfree); [lia |].
  destruct (memberNameLoop_run tree (mk suggestedName) d (S (getNumComponents tree))
              (mk suggestedName) 1) as (r & k & Hrun & _ & Hr); [lia | done |].
  change (wrap32 1) with 1 in Hrun.
  unfold getNonExistentMemberName, runMemberNameLoop. by rewrite Hrun.
Qed.

Lemma components_updateComponentGroup (f : ValueTree -> ValueTree) (tree : ValueTree) :
  (forall g, vtType (f g) = vtType g) ->
  components (updateComponentGroup f tree)
  = match getComponentGroup tree with
    | Some g => vtChildren (f g)
    | None => []
    end.
Proof.
  intros Hf.
  unfold components, getComponentGroup, getChildWithName, updateComponentGroup, setChildren.
  cbn [vtChildren]. rewrite find_alterFirst by (intros x; unfold hasType; by rewrite Hf).
  by destruct (List.find _ (vtChildren tree)).
Qed.

Lemma undoAction_addChild (tree child : ValueTree) :
  undoAction (updateComponentGroup (appendChild child) tree) (AddChildAction child) = tree.
Proof.
  cbn [undoAction]. unfold updateComponentGroup, setChildren.
  cbn [vtChildren vtType vtProperties].
  rewrite alterFirst_alterFirst by done.
  rewrite alterFirst_fixed; [by destruct tree |].
  intros g _. unfold removeLastChild, appendChild, setChildren.
  cbn [vtChildren vtType vtProperties]. rewrite removelast_last. by destruct g.
Qed.

Lemma memberNames_added (tree : ValueTree) (item : ValueTree) (name : string) :
  is_Some (getComponentGroup tree) ->
  getProperty item memberNameProperty = Some name ->
  memberNames (updateComponentGroup (appendChild item) tree)
  = (memberNames tree ++ [name])%list.
Proof.
  intros [g Hg] Hname. unfold memberNames.
  rewrite components_updateComponentGroup by done. unfold components. rewrite Hg.
  cbn [appendChild vtChildren]. rewrite omap_app.
  change (omap ?f [item]) with (match f item with Some y => [y] | None => [] end).
  cbv beta. by rewrite Hname.
Qed.

Section NewComponents.

Context {Zone : Type}.
Variable componentBoundsToString : Rectangle -> string.
Variable handlers : list ComponentTypeHandler.
Variable makeValidCppIdentifier : string -> string.

Local Abbreviation Doc := (@ComponentDocument Zone).
Local Abbreviation createNewItem' :=
  (createNewItem componentBoundsToString makeValidCppIdentifier).
Local Abbreviation performNewComponentMenuItem' :=
  (performNewComponentMenuItem componentBoundsToString handlers makeValidCppIdentifier).

Lemma createNewItem_memberName (h : ComponentTypeHandler) (tree : ValueTree)
    (uid : string) (rx ry : Z) :
  getProperty (createNewItem' h tree uid rx ry) memberNameProperty
  = Some (getNonExistentMemberName makeValidCppIdentifier tree (handlerMemberNameRoot h)).
Proof.
  unfold createNewItem, getProperty, setProperty. cbn [vtProperties].
  rewrite lookup_insert_ne by done. by rewrite lookup_insert_eq.
Qed.

(** X8: the item that [createNewItem] makes has the handler's tag as its
    type, no children and exactly the four properties id, name, memberName
    and position; the id is the new uid, the name is empty, the member name
    is one that no component of the document has, and the position is the
    handler's default size put at the two random offsets plus 100. *)
Theorem createNewItem_fresh (h : ComponentTypeHandler) (tree : ValueTree)
    (uid : string) (rx ry : Z) :
  Z.of_nat (getNumComponents tree) < 2 ^ 31 ->
  let item := createNewItem' h tree uid rx ry in
  vtType item = handlerXmlTag h
  /\ vtChildren item = []
  /\ (forall p,
         is_Some (getProperty item p)
         <-> p ∈ [idProperty; compNameProperty; memberNameProperty; compBoundsProperty])
  /\ getProperty item idProperty = Some uid
  /\ getProperty item compNameProperty = Some EmptyString
  /\ (exists name,
         getProperty item memberNameProperty = Some name
         /\ (name ∉ memberNames tree)
         /\ getComponentWithMemberName tree name = None)
  /\ (0 <= rx < 100 -> 0 <= ry < 100 ->
      getProperty item compBoundsProperty
      = Some (componentBoundsToString
                (mkRectangle (rx + 100) (ry + 100) (rectW (handlerDefaultSize h))
                   (rectH (handlerDefaultSize h))))).
Proof.
  intros Hsize item.
  pose proof (getNonExistentMemberName_fresh makeValidCppIdentifier tree
                (handlerMemberNameRoot h) Hsize) as Hfresh.
  split; [done |]. split; [done |]. split; [| split; [| split; [| split]]].
  - intros p. unfold item, createNewItem, getProperty, setProperty, newValueTree.
    cbn [vtProperties].
    rewrite !lookup_insert_is_Some', lookup_empty, !elem_of_cons, elem_of_nil.
    split.
    + intros [<- | [<- | [<- | [<- | []%is_Some_None]]]];
        repeat (first [by left | right]).
    + intros [-> | [-> | [-> | [-> | []]]]]; repeat (first [by left | right]).
  - unfold item, createNewItem, getProperty, setProperty. cbn [vtProperties].
    rewrite !lookup_insert_ne by done. by rewrite lookup_insert_eq.
  - unfold item, createNewItem, getProperty, setProperty. cbn [vtProperties].
    rewrite !lookup_insert_ne by done. by rewrite lookup_insert_eq.
  - eexists. split; [apply createNewItem_memberName |].
    split; [by apply memberName_free | done].
  - intros Hrx Hry. unfold item, createNewItem, getProperty, setProperty, withPosition.
    cbn [vtProperties fst snd]. rewrite lookup_insert_eq.
    by rewrite !wrap32_small by lia.
Qed.

(** *** The menu *)

Lemma performNewComponentMenuItem_cases (code : Z) (uid : string) (rx ry : Z) (doc : Doc) :
  Z.of_nat (length handlers) <= 2 ^ 31 - 1 - menuItemOffset ->
  performNewComponentMenuItem' code uid rx ry doc
  = match (if decide (menuItemOffset <= code)
           then handlers !! Z.to_nat (code - menuItemOffset)
           else None) with
    | Some h => addComponent (createNewItem' h (root doc) uid rx ry) doc
    | None => doc
    end.
Proof.
  intros Hsize. unfold performNewComponentMenuItem, getTypeNames, getHandler.
  rewrite length_map. unfold menuItemOffset in *.
  rewrite (wrap32_small (_ + Z.of_nat (length handlers))) by lia.
  destruct (_ <=? code) eqn:Hlow; cbn [andb].
  - apply Z.leb_le in Hlow. rewrite decide_True by done.
    destruct (code <? _) eqn:Hhigh.
    + apply Z.ltb_lt in Hhigh. rewrite wrap32_small by lia.
      by rewrite (proj2 (Z.ltb_ge _ _)) by lia.
    + apply Z.ltb_ge in Hhigh. rewrite lookup_ge_None_2; [done | lia].
  - apply Z.leb_gt in Hlow. by rewrite decide_False by lia.
Qed.

Lemma addComponent_added (item : ValueTree) (doc : Doc) :
  is_Some (getComponentGroup (root doc)) ->
  addComponent item doc
  = mkComponentDocument (cppFile doc) (updateComponentGroup (appendChild item) (root doc))
      true (perform (AddChildAction item) (undoManager doc)) (dragger doc)
  /\ components (root (addComponent item doc)) = (components (root doc) ++ [item])%list.
Proof.
  intros [g Hg]. unfold addComponent. rewrite Hg. split; [done |]. cbn [root].
  rewrite components_updateComponentGroup by done. unfold components. by rewrite Hg.
Qed.

(** X9: [performNewComponentMenuItem] with the code [menuItemOffset + i] of
    the i-th handler adds the item that this handler creates as the last
    component of the group: the other components stay as they are, the
    root keeps its type and properties, the dirty flag is set and the
    addition is recorded in the open transaction.  With a code below
    [menuItemOffset] or past the last handler's, or without a component
    group, it leaves the document as it is. *)
Theorem performNewComponentMenuItem_adds (code : Z) (uid : string) (rx ry : Z) (doc : Doc) :
  Z.of_nat (length handlers) <= 2 ^ 31 - 1 - menuItemOffset ->
  let doc' := performNewComponentMenuItem' code uid rx ry doc in
  (forall (i : nat) (h : ComponentTypeHandler),
      code = menuItemOffset + Z.of_nat i ->
      handlers !! i = Some h ->
      is_Some (getComponentGroup (root doc)) ->
      let item := createNewItem' h (root doc) uid rx ry in
      components (root doc') = (components (root doc) ++ [item])%list
      /\ getNumComponents (root doc') = S (getNumComponents (root doc))
      /\ vtType (root doc') = vtType (root doc)
      /\ vtProperties (root doc') = vtProperties (root doc)
      /\ changedSinceSaved doc' = true
      /\ undoManager doc' = perform (AddChildAction item) (undoManager doc)
      /\ cppFile doc' = cppFile doc
      /\ dragger doc' = dragger doc)
  /\ (code < menuItemOffset
      \/ menuItemOffset + Z.of_nat (length handlers) <= code
      \/ getComponentGroup (root doc) = None ->
      doc' = doc).
Proof.
  intros Hsize doc'. unfold doc'. rewrite performNewComponentMenuItem_cases by done. split.
  - intros i h -> Hh Hgroup. rewrite decide_True by lia.
    replace (Z.to_nat (menuItemOffset + Z.of_nat i - menuItemOffset)) with i by lia.
    rewrite Hh. set (item := createNewItem' h (root doc) uid rx ry).
    destruct (addComponent_added item doc Hgroup) as [Hdoc Hcomps].
    split; [done |]. split.
    { unfold getNumComponents. rewrite Hcomps, length_app. cbn. lia. }
    by rewrite Hdoc.
  - intros [Hlow | [Hhigh | Hnone]].
    + by rewrite decide_False by lia.
    + case_decide; [| done]. rewrite lookup_ge_None_2; [done | lia].
    + case_decide; [| done]. destruct (handlers !! _); [| done].
      unfold addComponent. by rewrite Hnone.
Qed.

(** X10: [performNewComponentMenuItem] keeps the member names of the group
    distinct: when no two components have the same member name before the
    call, none have after it, whatever code is given. *)
Theorem performNewComponentMenuItem_keeps_names_distinct (code : Z) (uid : string)
    (rx ry : Z) (doc : Doc) :
  Z.of_nat (getNumComponents (root doc)) < 2 ^ 31 ->
  NoDup (memberNames (root doc)) ->
  NoDup (memberNames (root (performNewComponentMenuItem' code uid rx ry doc))).
Proof.
  intros Hsize Hnames. unfold performNewComponentMenuItem.
  destruct (_ && _); [| done]. destruct (getHandler _ _) as [h|]; [| done].
  unfold addComponent. destruct (getComponentGroup (root doc)) as [g|] eqn:Hg; [| done].
  cbn [root].
  rewrite (memberNames_added _ _ _ ltac:(by rewrite Hg)
             (createNewItem_memberName h (root doc) uid rx ry)).
  apply NoDup_app. split; [done |]. split; [| apply NoDup_singleton].
  intros name Hname Hnew. apply list_elem_of_singleton in Hnew. subst name.
  apply memberName_taken in Hname.
  rewrite getNonExistentMemberName_fresh in Hname by done. by destruct Hname.
Qed.

(** X11: what [performNewComponentMenuItem] adds can be undone: the tree as
    it was before the open transaction stays the same, no transaction is
    closed, and when the call has changed the tree and nothing else is in
    the open transaction, [undo] gives back the tree as it was before the
    call.  The new item then leaves the tree: a drag handler keeps it if it
    has a handle on it, and is as before the call if it has none, as is
    every handler whose handles are on components that the document had
    before the call. *)
Theorem performNewComponentMenuItem_undone (code : Z) (uid : string) (rx ry : Z)
    (doc : Doc) :
  let doc' := performNewComponentMenuItem' code uid rx ry doc in
  treeBeforeTransaction doc' = treeBeforeTransaction doc
  /\ transactions (undoManager doc') = transactions (undoManager doc)
  /\ (root doc' <> root doc ->
      currentTransaction (undoManager doc) = [] ->
      undo doc'
      = (true,
          mkComponentDocument (cppFile doc) (root doc) true
            (mkUndoManager (transactions (undoManager doc)) [])
            (keepLastNode (root doc') <$> dragger doc)))
  /\ (root doc' <> root doc ->
      forall h : @DragHandler Zone,
        (Some (getNumComponents (root doc)) ∉ draggedComponents h) ->
        keepLastNode (root doc') h = h).
Proof.
  intros doc'. unfold doc', performNewComponentMenuItem.
  destruct (_ && _); [| done]. destruct (getHandler _ _) as [h|]; [| done].
  unfold addComponent. destruct (getComponentGroup (root doc)) as [g|] eqn:Hg; [| done].
  set (item := createNewItem' h (root doc) uid rx ry).
  assert (undoAction (updateComponentGroup (appendChild item) (root doc))
            (AddChildAction item) = root doc) as Hundo by apply undoAction_addChild.
  split; [| split; [done | split]].
  - unfold treeBeforeTransaction, undoActions.
    cbn [root undoManager perform currentTransaction fold_left]. by rewrite Hundo.
  - intros _ Hcur. unfold undo, umBeginNewTransaction, undoActions.
    cbn [root undoManager perform currentTransaction transactions cppFile dragger
           changedSinceSaved].
    cbn [fold_left]. rewrite Hcur. cbn [fold_left]. by rewrite Hundo.
  - intros _ h' Hnone. cbn [root]. unfold keepLastNode.
    rewrite components_updateComponentGroup by done. rewrite Hg.
    cbn [appendChild setChildren vtChildren].
    rewrite last_snoc, length_app, Nat.add_1_r. cbn [pred].
    unfold getNumComponents, components in Hnone. rewrite Hg in Hnone.
    unfold keepNode. by rewrite bool_decide_eq_false_2.
Qed.

End NewComponents.

Lemma addMenuItemsFrom_items (typeNames : list string) :
  forall (i : Z) (menu : PopupMenu),
    0 <= i ->
    i + Z.of_nat (length typeNames) <= 2 ^ 31 - 1 - menuItemOffset ->
    addMenuItemsFrom i typeNames menu
    = (menu ++ imap (fun k name => (menuItemOffset + i + Z.of_nat k, "New " +:+ name))
                 typeNames)%list.
Proof.
  induction typeNames as [|name rest IH]; intros i menu Hi Hsize.
  - cbn. by rewrite app_nil_r.
  - cbn [addMenuItemsFrom imap]. cbn [length] in Hsize. unfold menuItemOffset in *.
    rewrite !wrap32_small by lia. rewrite IH by lia. unfold addItem.
    rewrite <- app_assoc. cbn [app]. do 2 f_equal.
    + f_equal. lia.
    + apply imap_ext. intros k x _. cbn. f_equal. lia.
Qed.

(** X12: [addNewComponentMenuItems] adds one item for each handler, in the
    order of the handlers, with the id [menuItemOffset + i] and the text
    New followed by the handler's name: as many items as [getNumHandlers]
    says, [getHandler] answering for exactly the indices below that number;
    the ids are positive and differ from one another; and these ids are
    exactly the codes on which [performNewComponentMenuItem] changes a
    document that has a component group. *)
Theorem addNewComponentMenuItems_performed {Zone : Type}
    (componentBoundsToString : Rectangle -> string) (handlers : list ComponentTypeHandler)
    (makeValidCppIdentifier : string -> string) (menu : PopupMenu) :
  Z.of_nat (length handlers) <= 2 ^ 31 - 1 - menuItemOffset ->
  addNewComponentMenuItems handlers menu = (menu ++ newComponentItems handlers)%list
  /\ (forall code text,
         (code, text) ∈ newComponentItems handlers
         <-> exists i h,
               handlers !! i = Some h /\ code = menuItemOffset + Z.of_nat i
               /\ text = "New " +:+ handlerName h)
  /\ Z.of_nat (length (newComponentItems handlers)) = getNumHandlers handlers
  /\ (forall index,
         is_Some (getHandler handlers index) <-> 0 <= index < getNumHandlers handlers)
  /\ Forall (fun item => 0 < fst item) (newComponentItems handlers)
  /\ NoDup (List.map fst (newComponentItems handlers))
  /\ (forall (code : Z) (uid : string) (rx ry : Z) (doc : @ComponentDocument Zone),
         is_Some (getComponentGroup (root doc)) ->
         performNewComponentMenuItem componentBoundsToString handlers
           makeValidCppIdentifier code uid rx ry doc <> doc
         <-> code ∈ List.map fst (newComponentItems handlers)).
Proof.
  intros Hsize.
  assert (forall code text,
             (code, text) ∈ newComponentItems handlers
             <-> exists i h,
                   handlers !! i = Some h /\ code = menuItemOffset + Z.of_nat i
                   /\ text = "New " +:+ handlerName h) as Hitems.
  { intros code text. unfold newComponentItems. rewrite elem_of_lookup_imap. split.
    - intros (i & h & [= -> ->] & Hh). by exists i, h.
    - intros (i & h & Hh & -> & ->). by exists i, h. }
  assert (forall code,
             code ∈ List.map fst (newComponentItems handlers)
             <-> exists i, (i < length handlers)%nat /\ code = menuItemOffset + Z.of_nat i)
    as Hcodes.
  { intros code. change (List.map ?f ?l) with (f <$> l). rewrite list_elem_of_fmap. split.
    - intros ([code' text] & -> & Hin). apply Hitems in Hin as (i & h & Hh & -> & _).
      exists i. split; [by eapply lookup_lt_Some | done].
    - intros (i & Hi & ->). apply lookup_lt_is_Some in Hi as [h Hh].
      exists (menuItemOffset + Z.of_nat i, "New " +:+ handlerName h).
      split; [done |]. apply Hitems. by exists i, h. }
  split; [| split; [done |]; split; [| split; [| split; [| split]]]].
  - unfold addNewComponentMenuItems, getTypeNames.
    rewrite addMenuItemsFrom_items by (rewrite ?length_map; lia).
    f_equal. unfold newComponentItems. change (List.map ?f ?l) with (f <$> l).
    rewrite imap_fmap. apply imap_ext. intros i h _. cbn. f_equal; lia.
  - unfold newComponentItems, getNumHandlers. by rewrite length_imap.
  - intros index. unfold getHandler, getNumHandlers.
    destruct (index <? 0) eqn:Hneg.
    + apply Z.ltb_lt in Hneg. split; [intros [? ?]; discriminate | lia].
    + apply Z.ltb_ge in Hneg. rewrite lookup_lt_is_Some. lia.
  - apply Forall_forall. intros [code text] Hin.
    apply Hitems in Hin as (i & h & _ & -> & _). cbn. unfold menuItemOffset. lia.
  - unfold newComponentItems. change (List.map ?f ?l) with (f <$> l).
    rewrite fmap_imap. apply NoDup_alt. intros i j code Hi Hj.
    rewrite list_lookup_imap in Hi, Hj.
    destruct (handlers !! i); [| discriminate]. destruct (handlers !! j); [| discriminate].
    cbn in Hi, Hj. injection Hi as <-. injection Hj as Hj. lia.
  - intros code uid rx ry doc Hgroup. rewrite Hcodes.
    rewrite performNewComponentMenuItem_cases by done. split.
    + intros Hchanged. case_decide as Hlow; [| done].
      destruct (handlers !! Z.to_nat (code - menuItemOffset)) as [h|] eqn:Hh; [| done].
      exists (Z.to_nat (code - menuItemOffset)).
      split; [by eapply lookup_lt_Some | lia].
    + intros (i & Hi & ->). rewrite decide_True by lia.
      replace (Z.to_nat (menuItemOffset + Z.of_nat i - menuItemOffset)) with i by lia.
      apply lookup_lt_is_Some in Hi as [h ->].
      destruct (addComponent_added (createNewItem componentBoundsToString
                                      makeValidCppIdentifier h (root doc) uid rx ry)
                  doc Hgroup) as [_ Hcomps].
      intros Hsame. rewrite Hsame in Hcomps.
      apply (f_equal length) in Hcomps. rewrite length_app in Hcomps. cbn in Hcomps. lia.
Qed.

(** ** The root object *)

Lemma componentGroup_counted (tree : ValueTree) :
  (1 <= countComponentGroups tree)%nat -> is_Some (getComponentGroup tree).
Proof.
  unfold countComponentGroups, getComponentGroup, getChildWithName. intros Hcount.
  destruct (List.find _ (vtChildren tree)) as [g|] eqn:Hfind; [done |].
  apply find_None_filter in Hfind. rewrite Hfind in Hcount. cbn in Hcount. lia.
Qed.

Lemma find_app_None {A} (p : A -> bool) (l l' : list A) :
  List.find p l = None -> List.find p (l ++ l') = List.find p l'.
Proof.
  induction l as [|x l IH]; [done |]. cbn. destruct (p x); [discriminate | done].
Qed.

Lemma checkRootObject_again (tree : ValueTree) :
  checkRootObject (checkRootObject tree) = checkRootObject tree.
Proof.
  destruct (checkRootObject_checked tree) as [[Hgroup Hname] _].
  apply checkRootObject_checked_root; [by apply componentGroup_counted | done].
Qed.

(** X13: [checkRootObject] only completes the root: a second call changes
    nothing more; the type of the root, its properties other than the class
    name, and a class name that is not empty stay as they are; the children
    stay in place, with at most a new, empty component group after them; and
    the components of the group are the same before and after. *)
Theorem checkRootObject_idempotent (tree : ValueTree) :
  checkRootObject (checkRootObject tree) = checkRootObject tree
  /\ vtType (checkRootObject tree) = vtType tree
  /\ (forall name, name <> classNameProperty ->
                   getProperty (checkRootObject tree) name = getProperty tree name)
  /\ (getClassName tree <> EmptyString ->
      getClassName (checkRootObject tree) = getClassName tree)
  /\ vtChildren (checkRootObject tree)
     = (vtChildren tree
          ++ match getComponentGroup tree with
             | Some _ => []
             | None => [newValueTree componentGroupTag]
             end)%list
  /\ components (checkRootObject tree) = components tree.
Proof.
  split; [apply checkRootObject_again |].
  unfold checkRootObject.
  set (tree1 := match getComponentGroup tree with
                | Some _ => tree
                | None => appendChild (newValueTree componentGroupTag) tree
                end).
  assert (vtType tree1 = vtType tree /\ vtProperties tree1 = vtProperties tree
          /\ vtChildren tree1
             = (vtChildren tree
                  ++ match getComponentGroup tree with
                     | Some _ => []
                     | None => [newValueTree componentGroupTag]
                     end)%list
          /\ components tree1 = components tree) as (Htype & Hprops & Hchildren & Hcomps).
  { subst tree1. destruct (getComponentGroup tree) as [g|] eqn:Hg.
    - by rewrite app_nil_r.
    - repeat split. unfold components. rewrite Hg.
      unfold getComponentGroup, getChildWithName in *. cbn [appendChild vtChildren].
      by rewrite (find_app_None _ _ _ Hg). }
  assert (getClassName tree1 = getClassName tree) as Hname
    by (unfold getClassName, getProperty; by rewrite Hprops).
  rewrite Hname. case_decide as Hempty.
  - split; [done |]. split.
    { intros name Hne. unfold getProperty, setProperty. cbn [vtProperties].
      rewrite lookup_insert_ne by done. by rewrite Hprops. }
    split; [done |]. split; [done |]. by rewrite <- Hcomps.
  - split; [done |]. split.
    { intros name _. unfold getProperty. by rewrite Hprops. }
    done.
Qed.

(** ** The files *)

Lemma existsb_false_Forall {A} (p : A -> bool) (l : list A) :
  existsb p l = false -> Forall (fun x => p x = false) l.
Proof.
  induction l as [|x l IH]; [constructor |]. cbn [existsb].
  intros [Hx Hl]%orb_false_elim. constructor; [done | by apply IH].
Qed.

Lemma save_unfold {Zone : Type} (fs : FileSystem) (doc : @ComponentDocument Zone) :
  let first :=
    overwriteFileWithNewDataIfDifferent fs (cppFile doc)
      (writeMetadata (fst writeCode) (root doc)) in
  let second :=
    overwriteFileWithNewDataIfDifferent (snd first) (withFileExtension (cppFile doc) ".h")
      (snd writeCode) in
  save fs doc
  = if fst first
    then if fst second
         then (true, snd second,
                mkComponentDocument (cppFile doc) (root doc) false (undoManager doc)
                  (dragger doc))
         else (false, snd second, doc)
    else (false, snd first, doc).
Proof.
  unfold save. cbn [writeCode fst snd].
  destruct (overwriteFileWithNewDataIfDifferent fs (cppFile doc) _) as [[|] fs1];
    cbn [fst snd]; [| done].
  by destruct (overwriteFileWithNewDataIfDifferent fs1 _ _) as [[|] fs2].
Qed.

Lemma overwrite_canWrite (fs : FileSystem) (f : File) (data : string) :
  canWrite (snd (overwriteFileWithNewDataIfDifferent fs f data)) = canWrite fs.
Proof.
  unfold overwriteFileWithNewDataIfDifferent. case_decide; [done |].
  by destruct (canWrite fs f).
Qed.

Lemma overwrite_failed (fs : FileSystem) (f : File) (data : string) :
  fst (overwriteFileWithNewDataIfDifferent fs f data) = false ->
  snd (overwriteFileWithNewDataIfDifferent fs f data) = fs.
Proof.
  unfold overwriteFileWithNewDataIfDifferent. case_decide; [done |].
  by destruct (canWrite fs f).
Qed.

Lemma overwrite_same (fs : FileSystem) (f : File) (data : string) :
  fileContents fs !! f = Some data ->
  overwriteFileWithNewDataIfDifferent fs f data = (true, fs).
Proof. intros Hsame. unfold overwriteFileWithNewDataIfDifferent. by rewrite decide_True. Qed.

Lemma streamLines_writeMetadata (tree : ValueTree) :
  streamLines (writeMetadata (fst writeCode) tree)
  = (["/**  */"; ""; "#if 0";
      "/** Jucer-generated metadata section - Edit this data at own risk!"]
       ++ metadataTagStart
       :: (EmptyString :: streamLines (writeToStream (createXml tree) +:+ newLine))
       ++ [metadataTagEnd +:+ " */"; "#endif"])%list.
Proof.
  set (text := writeToStream (createXml tree)).
  change (writeMetadata (fst writeCode) tree)
    with (("/**  */" +:+ newLine +:+ newLine +:+ "#if 0" +:+ newLine
             +:+ "/** Jucer-generated metadata section - Edit this data at own risk!"
             +:+ newLine +:+ metadataTagStart +:+ newLine)
          +:+ newLine
          +:+ (text +:+ newLine +:+ ((metadataTagEnd +:+ " */" +:+ newLine +:+ "#endif")
                                     +:+ newLine))).
  rewrite streamLines_app, streamLines_app. reflexivity.
Qed.

Section FileFacts.

Context {Zone : Type}.
Variable hasFileExtension : File -> string -> bool.

Local Abbreviation Doc := (@ComponentDocument Zone).
Local Abbreviation isComponentFile' := (isComponentFile hasFileExtension).

(** X14: the .cpp file that a successful [save] has written is recognized by
    [isComponentFile]: one of its lines holds the start tag. *)
Theorem save_makes_component_file (fs : FileSystem) (doc : Doc) :
  hasFileExtension (cppFile doc) ".cpp" = true ->
  snd (cppFile doc) <> ".h" ->
  fst (fst (save fs doc)) = true ->
  isComponentFile' (snd (fst (save fs doc))) (cppFile doc) = true.
Proof.
  intros Hcpp Hext Hsaved. unfold isComponentFile.
  rewrite Hcpp, (save_written fs doc Hext Hsaved), streamLines_writeMetadata.
  rewrite existsb_app. apply orb_true_iff. right. reflexivity.
Qed.

(** X15: [reload] succeeds only on a file in which [isComponentFile] finds
    the start tag: when the document's file has the .cpp extension and
    [reload] returns true, [isComponentFile] is true of the file; and
    [isComponentFile] is false of a file that does not exist or has another
    extension. *)
Theorem reload_needs_component_file (fs : FileSystem) (doc : Doc) :
  (hasFileExtension (cppFile doc) ".cpp" = true ->
   fst (reload fs doc) = true ->
   isComponentFile' fs (cppFile doc) = true)
  /\ (forall file, createInputStream fs file = None -> isComponentFile' fs file = false)
  /\ (forall file, hasFileExtension file ".cpp" = false -> isComponentFile' fs file = false).
Proof.
  split; [| split].
  - intros Hcpp Hok.
    destruct (reload_success fs doc Hok) as (text & xml & Hfile & Hxml & _ & _).
    unfold isComponentFile. rewrite Hcpp, Hfile.
    destruct (existsb _ (streamLines text)) eqn:Hlines; [done |].
    apply existsb_false_Forall in Hlines.
    rewrite (readMetadata_no_start _ Hlines) in Hxml. vm_compute in Hxml. discriminate.
  - intros file Hnone. unfold isComponentFile. rewrite Hnone. by destruct (hasFileExtension _ _).
  - intros file Hext. unfold isComponentFile. by rewrite Hext.
Qed.

End FileFacts.

Section SaveFacts.

Context {Zone : Type}.
Local Abbreviation Doc := (@ComponentDocument Zone).

Lemma save_header_written (fs : FileSystem) (doc : Doc) :
  fst (fst (save fs doc)) = true ->
  createInputStream (snd (fst (save fs doc))) (withFileExtension (cppFile doc) ".h")
  = Some (snd writeCode).
Proof.
  rewrite save_unfold. cbv zeta. unfold createInputStream.
  destruct (fst (overwriteFileWithNewDataIfDifferent fs _ _)); [| discriminate].
  destruct (fst (overwriteFileWithNewDataIfDifferent _ _ (snd writeCode))) eqn:Hsecond;
    [| discriminate].
  intros _. cbn [fst snd]. by apply overwrite_written.
Qed.

(** X16: what [save] does to the files: every file other than the document's
    file and its header stays as it is, and so does what can be written; when
    the first write fails nothing is written at all, the header is not even
    tried; when the first write succeeds the document's file holds the code
    and the metadata, also when [save] then fails on the header; and after a
    successful [save] the header holds the header text. *)
Theorem save_file_effects (fs : FileSystem) (doc : Doc) :
  let cppText := writeMetadata (fst writeCode) (root doc) in
  let header := withFileExtension (cppFile doc) ".h" in
  let fs' := snd (fst (save fs doc)) in
  (forall g, g <> cppFile doc -> g <> header ->
             createInputStream fs' g = createInputStream fs g)
  /\ canWrite fs' = canWrite fs
  /\ (fst (overwriteFileWithNewDataIfDifferent fs (cppFile doc) cppText) = false ->
      fs' = fs /\ fst (fst (save fs doc)) = false)
  /\ (fst (overwriteFileWithNewDataIfDifferent fs (cppFile doc) cppText) = true ->
      header <> cppFile doc ->
      createInputStream fs' (cppFile doc) = Some cppText)
  /\ (fst (fst (save fs doc)) = true -> createInputStream fs' header = Some (snd writeCode)).
Proof.
  intros cppText header fs'.
  split; [| split; [| split; [| split]]].
  - intros g Hcpp Hheader. unfold fs', createInputStream. rewrite save_unfold. cbv zeta.
    fold cppText header.
    assert (fileContents
              (snd (overwriteFileWithNewDataIfDifferent
                      (snd (overwriteFileWithNewDataIfDifferent fs (cppFile doc) cppText))
                      header (snd writeCode))) !! g
            = fileContents fs !! g) as Hboth
      by (rewrite !overwrite_other; done).
    destruct (fst (overwriteFileWithNewDataIfDifferent fs (cppFile doc) cppText)).
    + by destruct (fst (overwriteFileWithNewDataIfDifferent _ header _)).
    + cbn [fst snd]. by rewrite overwrite_other.
  - unfold fs'. rewrite save_unfold. cbv zeta. fold cppText header.
    destruct (fst (overwriteFileWithNewDataIfDifferent fs (cppFile doc) cppText)).
    + destruct (fst (overwriteFileWithNewDataIfDifferent _ header _)); cbn [fst snd];
        by rewrite !overwrite_canWrite.
    + cbn [fst snd]. apply overwrite_canWrite.
  - intros Hfirst. unfold fs'. rewrite save_unfold. cbv zeta. fold cppText.
    rewrite Hfirst. cbn [fst snd]. split; [by apply overwrite_failed | done].
  - intros Hfirst Hother. unfold fs', createInputStream. rewrite save_unfold. cbv zeta.
    fold cppText header. rewrite Hfirst.
    assert (fileContents
              (snd (overwriteFileWithNewDataIfDifferent
                      (snd (overwriteFileWithNewDataIfDifferent fs (cppFile doc) cppText))
                      header (snd writeCode))) !! cppFile doc
            = Some cppText) as Hkept
      by (rewrite overwrite_other by done; by apply overwrite_written).
    by destruct (fst (overwriteFileWithNewDataIfDifferent _ header _)).
  - apply save_header_written.
Qed.

(** X17: a document bound to a file with the extension .h loses its metadata
    when it is saved: the header text is written over the file that has just
    received the metadata, [save] returns true all the same, and [reload]
    then fails on what is left. *)
Theorem save_on_header_file (fs : FileSystem) (doc : Doc) :
  snd (cppFile doc) = ".h" ->
  fst (fst (save fs doc)) = true ->
  createInputStream (snd (fst (save fs doc))) (cppFile doc) = Some (snd writeCode)
  /\ changedSinceSaved (snd (save fs doc)) = false
  /\ reload (snd (fst (save fs doc))) (snd (save fs doc)) = (false, snd (save fs doc)).
Proof.
  intros Hext Hsaved.
  assert (withFileExtension (cppFile doc) ".h" = cppFile doc) as Hsame.
  { destruct (cppFile doc) as [stem ext]. unfold withFileExtension. cbn in *. by subst. }
  pose proof (save_header_written fs doc Hsaved) as Hfile. rewrite Hsame in Hfile.
  split; [done |]. split; [by rewrite save_flag, Hsaved |].
  unfold reload. rewrite save_document, Hsaved. cbn [cppFile]. by rewrite Hfile.
Qed.

(** X18: a successful [save] leaves the files such that a second [save] of
    the unchanged document finds nothing to write: it returns true and
    changes neither the files nor the document, even when no file can be
    written any more. *)
Theorem save_again_writes_nothing (fs : FileSystem) (doc : Doc) (locked : File -> bool) :
  snd (cppFile doc) <> ".h" ->
  fst (fst (save fs doc)) = true ->
  let fs' := snd (fst (save fs doc)) in
  let doc' := snd (save fs doc) in
  save fs' doc' = (true, fs', doc')
  /\ save (mkFileSystem (fileContents fs') locked) doc'
     = (true, mkFileSystem (fileContents fs') locked, doc').
Proof.
  intros Hext Hsaved fs' doc'.
  pose proof (save_written fs doc Hext Hsaved) as Hcpp.
  pose proof (save_header_written fs doc Hsaved) as Hheader.
  assert (doc' = mkComponentDocument (cppFile doc) (root doc) false (undoManager doc)
                   (dragger doc)) as Hdoc
    by (unfold doc'; by rewrite save_document, Hsaved).
  fold fs' in Hcpp, Hheader. unfold createInputStream in Hcpp, Hheader.
  assert (forall fs2, fileContents fs2 = fileContents fs' -> save fs2 doc' = (true, fs2, doc'))
    as Hagain.
  { intros fs2 Hfiles. rewrite save_unfold. cbv zeta. rewrite Hdoc. cbn [cppFile root].
    rewrite (overwrite_same fs2 (cppFile doc)) by (by rewrite Hfiles).
    cbn [fst snd]. rewrite (overwrite_same fs2) by (by rewrite Hfiles). done. }
  split; by apply Hagain.
Qed.

(** X19: a document whose root is a well-formed COMPONENT, and in whose
    serialized form no line holds the end tag, is read back from what [save]
    has written as [checkRootObject] completes it: [reload] returns true,
    the root is the saved root with a component group and a class name added
    where they were missing, the undo history is empty and the dirty flag
    cleared, and a drag handler is left with the components of the saved
    root, which are no longer in the document; a new document on the written
    file has the same root; and a root that has a component group and a
    class name comes back as it is. *)
Theorem save_then_reload_checked (fs : FileSystem) (doc : Doc) :
  snd (cppFile doc) <> ".h" ->
  fst (fst (save fs doc)) = true ->
  wellFormedXml (createXml (root doc)) = true ->
  hasType (root doc) componentDocumentTag = true ->
  Forall (fun l => contains l metadataTagEnd = false)
    (streamLines (writeToStream (createXml (root doc)) +:+ newLine)) ->
  let fs' := snd (fst (save fs doc)) in
  reload fs' (snd (save fs doc))
  = (true,
      mkComponentDocument (cppFile doc) (checkRootObject (root doc)) false emptyUndoManager
        (detachAll (components (root doc)) <$> dragger doc))
  /\ newComponentDocument fs' (cppFile doc)
     = mkComponentDocument (cppFile doc) (checkRootObject (root doc)) false emptyUndoManager
         (@None (@DragHandler Zone))
  /\ (is_Some (getComponentGroup (root doc)) ->
      getClassName (root doc) <> EmptyString ->
      root (snd (reload fs' (snd (save fs doc)))) = root doc).
Proof.
  intros Hext Hsaved Hwf Htype Hlines fs'.
  assert (hasTagName (createXml (root doc)) componentDocumentTag = true) as Htag
    by (by destruct (root doc)).
  pose proof (save_written fs doc Hext Hsaved) as Hfile. fold fs' in Hfile.
  assert (forall d : Doc,
             cppFile d = cppFile doc ->
             reload fs' d
             = (true,
                 mkComponentDocument (cppFile doc) (checkRootObject (root doc)) false
                   emptyUndoManager (detachAll (components (root d)) <$> dragger d)))
    as Hreload.
  { intros d Hd. unfold reload. rewrite Hd, Hfile.
    rewrite readMetadata_written by done.
    rewrite getDocumentElement_write, Htag by done. by rewrite fromXml_createXml. }
  assert (reload fs' (snd (save fs doc))
          = (true,
              mkComponentDocument (cppFile doc) (checkRootObject (root doc)) false
                emptyUndoManager (detachAll (components (root doc)) <$> dragger doc)))
    as Hback.
  { rewrite Hreload by (by rewrite save_document, Hsaved).
    by rewrite (proj2 (proj2 (save_keeps fs doc))), (proj1 (save_keeps fs doc)). }
  split; [done |]. split.
  - unfold newComponentDocument. rewrite Hreload by done. cbn [snd root cppFile
      changedSinceSaved undoManager dragger]. by rewrite checkRootObject_again.
  - intros Hgroup Hname. rewrite Hback. cbn [snd root].
    by apply checkRootObject_checked_root.
Qed.

(** X20: a new document has the default root - a COMPONENT with the class
    name NewComponent and an empty component group - unless its file exists
    and the metadata block parses to an element tagged COMPONENT; then the
    root is the parsed tree as one call of [checkRootObject] completes it,
    the second call of the constructor changing nothing.  In both cases the
    document is not dirty, has no undo history and no drag handler. *)
Theorem newComponentDocument_root (fs : FileSystem) (f : File) :
  newComponentDocument fs f
  = mkComponentDocument f
      (match createInputStream fs f
             ≫= (fun text => getDocumentElement (readMetadata (streamLines text))) with
       | Some xml =>
           if hasTagName xml componentDocumentTag
           then checkRootObject (fromXml xml)
           else defaultRoot
       | None => defaultRoot
       end)
      false emptyUndoManager (@None (@DragHandler Zone)).
Proof.
  assert (checkRootObject (newValueTree componentDocumentTag) = defaultRoot) as Hdefault
    by (vm_compute; reflexivity).
  unfold newComponentDocument, reload. cbn [cppFile].
  destruct (createInputStream fs f) as [text|]; cbn [mbind option_bind];
    [| cbn [snd root cppFile changedSinceSaved undoManager dragger]; by rewrite Hdefault].
  destruct (getDocumentElement _) as [xml|];
    [| cbn [snd root cppFile changedSinceSaved undoManager dragger]; by rewrite Hdefault].
  destruct (hasTagName xml componentDocumentTag);
    cbn [snd root cppFile changedSinceSaved undoManager dragger];
    [by rewrite checkRootObject_again | by rewrite Hdefault].
Qed.

End SaveFacts.

(** ** What a drag gesture comes to *)

Lemma alterFirst_ext (p : ValueTree -> bool) (f g : ValueTree -> ValueTree)
    (l : list ValueTree) :
  (forall x, List.find p l = Some x -> f x = g x) -> alterFirst p f l = alterFirst p g l.
Proof.
  induction l as [|x l IH]; intros Hfg; [done |]. cbn [alterFirst List.find] in *.
  destruct (p x); [by rewrite Hfg | by rewrite IH].
Qed.

(** A write into the group leaves the rest of the tree as it is. *)
Lemma updateComponentAt_rest (tree : ValueTree) (i : nat) (f : ValueTree -> ValueTree) :
  updateComponentAt i f tree
  = updateComponentGroup (setChildren (components (updateComponentAt i f tree))) tree.
Proof.
  rewrite components_updateComponentAt.
  unfold updateComponentAt, updateComponentGroup. f_equal. apply alterFirst_ext.
  intros g Hg. unfold components, getComponentGroup, getChildWithName. by rewrite Hg.
Qed.

Lemma updateComponentGroup_same (tree : ValueTree) :
  updateComponentGroup (setChildren (components tree)) tree = tree.
Proof.
  unfold updateComponentGroup. rewrite alterFirst_fixed; [by destruct tree |].
  intros g Hg. unfold components, getComponentGroup, getChildWithName. rewrite Hg.
  by destruct g.
Qed.

Lemma updateComponentGroup_twice (tree : ValueTree) (cs cs' : list ValueTree) :
  updateComponentGroup (setChildren cs') (updateComponentGroup (setChildren cs) tree)
  = updateComponentGroup (setChildren cs') tree.
Proof.
  unfold updateComponentGroup, setChildren. cbn [vtChildren vtType vtProperties].
  by rewrite alterFirst_alterFirst.
Qed.

Lemma getComponentState_componentIds (tree : ValueTree) (comp : Component) :
  getComponentState tree comp
  = fst <$> list_find (fun o => bool_decide (o = componentProperties comp !! idProperty)
                                = true)
              (componentIds tree).
Proof.
  unfold getComponentState, componentIds. change (List.map ?f ?l) with (f <$> l).
  rewrite list_find_fmap.
  change ((fun o => bool_decide (o = componentProperties comp !! idProperty) = true)
          ∘ (fun v => getProperty v idProperty))
    with (fun v => isStateForComponent v comp = true).
  by destruct (list_find _ (components tree)) as [[i v]|].
Qed.

Section DragFacts.

Context {Zone : Type}.
Variable stringToComponentBounds : string -> Rectangle.
Variable componentBoundsToString : Rectangle -> string.
Variable resizeRectangleBy : Zone -> Rectangle -> Point -> Rectangle.

Local Abbreviation Doc := (@ComponentDocument Zone).
Local Abbreviation drag' := (drag componentBoundsToString resizeRectangleBy).
Local Abbreviation moveAll' := (moveAll componentBoundsToString resizeRectangleBy).
Local Abbreviation continueDrag' := (continueDrag componentBoundsToString resizeRectangleBy).
Local Abbreviation endDrag' := (endDrag componentBoundsToString resizeRectangleBy).
Local Abbreviation dragGesture' :=
  (dragGesture stringToComponentBounds componentBoundsToString resizeRectangleBy).

Lemma setPropertyUndoable_sameButFlag (handle : option nat) (name value : string)
    (a b : Doc) :
  sameButFlag a b ->
  sameButFlag (setPropertyUndoable handle name value a)
    (setPropertyUndoable handle name value b).
Proof.
  intros (Hfile & Hroot & Hundo & Hdragger). unfold setPropertyUndoable.
  destruct handle as [i|]; [| done]. unfold detachedNode. rewrite Hroot, Hdragger.
  destruct (dragger b ≫= _) as [[h v]|].
  - case_decide; [done |]. unfold sameButFlag. cbn. by rewrite Hfile, Hundo.
  - destruct (components (root b) !! i) as [v|]; [| done].
    case_decide; [done |]. unfold sameButFlag. cbn. by rewrite Hfile, Hundo.
Qed.

Lemma moveAll_sameButFlag (h : DragHandler) (distance : Point) (vs : list (option nat))
    (ps : list Rectangle) (a b : Doc) :
  sameButFlag a b ->
  sameButFlag (moveAll' h distance vs ps a) (moveAll' h distance vs ps b).
Proof.
  revert ps a b. induction vs as [|v vs IH]; intros [|p ps] a b Hab; try done.
  cbn [moveAll]. apply IH. by apply setPropertyUndoable_sameButFlag.
Qed.

(** A drag update starts from the tree as it was before the open
    transaction, so two documents that agree on that tree, on the closed
    transactions, on the file and on the handler as it was before the open
    transaction come out the same. *)
Lemma drag_from_before (h : DragHandler) (e : MouseEvent) (a b : Doc) :
  cppFile a = cppFile b ->
  treeBeforeTransaction a = treeBeforeTransaction b ->
  transactions (undoManager a) = transactions (undoManager b) ->
  draggerBeforeTransaction a = draggerBeforeTransaction b ->
  sameButFlag (drag' h e a) (drag' h e b).
Proof.
  intros Hfile Hbefore Hclosed Hdragger. unfold drag. apply moveAll_sameButFlag.
  unfold sameButFlag.
  destruct (undoCurrentTransactionOnly_fields a) as (-> & -> & -> & ->).
  destruct (undoCurrentTransactionOnly_fields b) as (-> & -> & -> & ->).
  by rewrite Hclosed.
Qed.

Lemma dragGesture_last_event (items : list Component) (z : Zone)
    (start start' : MouseEvent) (updates : list MouseEvent) (finish : MouseEvent)
    (doc : Doc) :
  sameButFlag (dragGesture' items z start updates finish doc)
    (dragGesture' items z start' [] finish doc).
Proof.
  unfold dragGesture.
  change (continueDrags componentBoundsToString resizeRectangleBy []
            (beginDrag stringToComponentBounds items start' z doc))
    with (beginDrag stringToComponentBounds items start z doc).
  set (doc1 := beginDrag stringToComponentBounds items start z doc).
  destruct (continueDrags_undone componentBoundsToString resizeRectangleBy updates doc1)
    as (Hbefore & Hclosed & Hdragger & Hfile).
  destruct (beginDrag_undone stringToComponentBounds items start z doc)
    as (_ & _ & Hh & _ & Hh0).
  fold doc1 in Hh, Hh0.
  set (h := fst (newDragHandler stringToComponentBounds doc items z)) in *.
  pose proof Hdragger as Hh2. rewrite Hh0 in Hh2.
  destruct (draggerBeforeTransaction_Some _ _ Hh2) as (h2 & Hd2 & Hframe).
  unfold endDrag. rewrite Hd2, Hh.
  rewrite (drag_frame componentBoundsToString resizeRectangleBy h2 h finish _ Hframe).
  destruct (drag_from_before h finish _ doc1 Hfile Hbefore Hclosed Hdragger)
    as (Hfile' & Hroot' & Hundo' & Hdragger').
  unfold sameButFlag, beginNewTransaction, setDragger.
  cbn [cppFile root undoManager dragger]. by rewrite Hfile', Hroot', Hundo'.
Qed.

(** X21: a drag update depends on the latest mouse event only: after
    [continueDrag] for one event and then for another, the tree, the undo
    manager and the handler are what the second [continueDrag] alone gives;
    and a whole gesture gives the tree and the undo manager that the same
    gesture without any [continueDrag] gives.  Only the dirty flag can tell
    them apart. *)
Theorem drag_depends_on_last_event :
  (forall (e1 e2 : MouseEvent) (doc : Doc),
      sameButFlag (continueDrag' e2 (continueDrag' e1 doc)) (continueDrag' e2 doc))
  /\ (forall (items : list Component) (z : Zone) (start start' : MouseEvent)
             (updates : list MouseEvent) (finish : MouseEvent) (doc : Doc),
         sameButFlag (dragGesture' items z start updates finish doc)
           (dragGesture' items z start' [] finish doc)).
Proof.
  split; [| apply dragGesture_last_event].
  intros e1 e2 doc. unfold continueDrag at 2 3.
  destruct (dragger doc) as [h|] eqn:Hh; cycle 1.
  { unfold continueDrag. by rewrite Hh. }
  destruct (drag_undone componentBoundsToString resizeRectangleBy h e1 doc)
    as (Hbefore & Hclosed & Hdragger & Hfile).
  assert (draggerBeforeTransaction doc
          = Some (undoHandlerActions (currentTransaction (undoManager doc)) (root doc) h))
    as Hh0 by (unfold draggerBeforeTransaction; by rewrite Hh).
  pose proof Hdragger as Hh1. rewrite Hh0 in Hh1.
  destruct (draggerBeforeTransaction_Some _ _ Hh1) as (h1 & Hd1 & Hframe).
  rewrite handlerFrame_undoHandlerActions in Hframe.
  unfold continueDrag. rewrite Hd1.
  rewrite (drag_frame componentBoundsToString resizeRectangleBy h1 h e2 _ Hframe).
  by apply drag_from_before.
Qed.

(** *** The tree after a gesture *)

Lemma setPropertyUndoable_components (i : nat) (name value : string) (doc : Doc) :
  handlesInTree doc ->
  components (root (setPropertyUndoable (Some i) name value doc))
  = alter (setProperty name value) i (components (root doc))
  /\ root (setPropertyUndoable (Some i) name value doc)
     = updateComponentGroup
         (setChildren (components (root (setPropertyUndoable (Some i) name value doc))))
         (root doc)
  /\ handlesInTree (setPropertyUndoable (Some i) name value doc).
Proof.
  intros Hin. unfold setPropertyUndoable. rewrite (detachedNode_in_tree _ _ Hin).
  destruct (components (root doc) !! i) as [v|] eqn:Hv.
  - case_decide as Hsame.
    + split; [| split; [by rewrite updateComponentGroup_same | done]]. symmetry.
      apply (alter_fixed _ _ _ v Hv). destruct v as [tag props children].
      unfold setProperty, getProperty in *. cbn [vtProperties vtType vtChildren] in *.
      by rewrite insert_id.
    + cbn [root].
      split; [apply components_updateComponentAt | split; [apply updateComponentAt_rest |]].
      done.
  - split; [| split; [by rewrite updateComponentGroup_same | done]]. symmetry.
    apply list_eq. intros j. destruct (decide (i = j)) as [<- | Hij].
    + by rewrite list_lookup_alter_eq, Hv.
    + by rewrite list_lookup_alter_ne.
Qed.

Section Targets.

Variable h : @DragHandler Zone.
Variable distance : Point.
Variable position : option nat -> Rectangle.

Local Abbreviation target :=
  (fun i : nat => componentBoundsToString (resizeRectangleBy (zone h) (position (Some i)) distance)).

Lemma moveAll_components (states : list (option nat)) (doc : Doc) :
  handlesInTree doc ->
  let doc' := moveAll' h distance states (List.map position states) doc in
  (forall j,
      components (root doc') !! j
      = if decide (Some j ∈ states)
        then setProperty compBoundsProperty (target j) <$> components (root doc) !! j
        else components (root doc) !! j)
  /\ root doc' = updateComponentGroup (setChildren (components (root doc'))) (root doc).
Proof.
  revert doc. induction states as [|[i|] states IH]; intros doc Htree;
    cbn [List.map moveAll].
  - split; [| by rewrite updateComponentGroup_same].
    intros j. rewrite decide_False; [done |]. apply not_elem_of_nil.
  - unfold move at 1.
    destruct (setPropertyUndoable_components i compBoundsProperty (target i) doc Htree)
      as (Hwrite & Hrest1 & Htree1).
    destruct (IH (setPropertyUndoable (Some i) compBoundsProperty (target i) doc) Htree1)
      as [Hcomps Hrest].
    split.
    + intros j. rewrite Hcomps, Hwrite.
      destruct (decide (i = j)) as [<- | Hij].
      * rewrite list_lookup_alter_eq. rewrite (decide_True (P := Some i ∈ Some i :: states))
          by left.
        destruct (components (root doc) !! i) as [v|]; [| by case_decide].
        case_decide; [| done]. cbn. f_equal.
        destruct v as [tag props children]. unfold setProperty.
        cbn [vtProperties vtType vtChildren]. by rewrite insert_insert_eq.
      * rewrite list_lookup_alter_ne by done.
        destruct (decide (Some j ∈ states)) as [Hin | Hout].
        -- by rewrite decide_True by (by right).
        -- rewrite decide_False; [done |]. intros [[=] | Hin]%elem_of_cons; congruence.
    + rewrite Hrest at 1. rewrite Hrest1 at 1. apply updateComponentGroup_twice.
  - unfold move at 1. cbn [setPropertyUndoable].
    destruct (IH doc Htree) as [Hcomps Hrest]. split; [| done].
    intros j. rewrite Hcomps.
    destruct (decide (Some j ∈ states)) as [Hin | Hout].
    + by rewrite decide_True by (by right).
    + rewrite decide_False; [done |]. intros [[=] | Hin]%elem_of_cons; congruence.
Qed.

End Targets.

(** X22: the tree that a gesture leaves: every component that is the state
    of one of the dragged items has, as its position, the text of its bounds
    at [beginDrag] resized by the zone for the offset of the last event, and
    is otherwise as it was; every other component is as it was; the tree
    outside the components is as it was; and every live component has the
    state it had. *)
Theorem dragGesture_result (items : list Component) (z : Zone) (start : MouseEvent)
    (updates : list MouseEvent) (finish : MouseEvent) (doc : Doc) :
  let doc' := dragGesture' items z start updates finish doc in
  let h := fst (newDragHandler stringToComponentBounds doc items z) in
  let target :=
    dragTarget stringToComponentBounds componentBoundsToString resizeRectangleBy (root doc)
      h (getOffsetFromDragStart finish) in
  draggedComponents h = List.map (getComponentState (root doc)) items
  /\ (forall j,
         components (root doc') !! j
         = if decide (Some j ∈ draggedComponents h)
           then setProperty compBoundsProperty (target j) <$> components (root doc) !! j
           else components (root doc) !! j)
  /\ root doc' = updateComponentGroup (setChildren (components (root doc'))) (root doc)
  /\ (forall comp, getComponentState (root doc') comp = getComponentState (root doc) comp).
Proof.
  intros doc' h target.
  destruct (dragGesture_last_event items z start start updates finish doc)
    as (_ & Hroot & _).
  fold doc' in Hroot.
  set (doc1 := beginDrag stringToComponentBounds items start z doc).
  destruct (beginDrag_undone stringToComponentBounds items start z doc)
    as (Hbefore & _ & Hdragger & _ & Hdragger0).
  fold doc1 h in Hbefore, Hdragger, Hdragger0.
  destruct (undoCurrentTransactionOnly_fields doc1) as (_ & Hstart & _ & Hhandler).
  rewrite Hbefore in Hstart. rewrite Hdragger0 in Hhandler.
  assert (root doc'
          = root (moveAll' h (getOffsetFromDragStart finish) (draggedComponents h)
                    (originalPositions h) (undoCurrentTransactionOnly doc1))) as Hdoc'.
  { rewrite Hroot. unfold dragGesture, continueDrags. cbn [fold_left]. fold doc1.
    unfold endDrag. by rewrite Hdragger. }
  destruct (moveAll_components h (getOffsetFromDragStart finish)
              (fun v => stringToComponentBounds
                          (varToString (handleNode (root doc) v
                                          ≫= fun n => getProperty n compBoundsProperty)))
              (draggedComponents h) (undoCurrentTransactionOnly doc1)) as [Hcomps Hrest].
  { intros h' Hh'. rewrite Hhandler in Hh'. by injection Hh' as <-. }
  change (List.map _ (draggedComponents h)) with (originalPositions h) in Hcomps, Hrest.
  rewrite <- Hdoc', Hstart in Hcomps, Hrest.
  split; [done |]. split; [exact Hcomps |]. split; [exact Hrest |].
  intros comp. rewrite !getComponentState_componentIds.
  assert (componentIds (root doc') = componentIds (root doc)) as ->; [| done].
  unfold componentIds. change (List.map ?f ?l) with (f <$> l).
  apply list_eq. intros j. rewrite !list_lookup_fmap, Hcomps.
  case_decide; [| done]. destruct (components (root doc) !! j) as [v|]; [| done].
  cbn [fmap option_fmap option_map]. f_equal. unfold getProperty, setProperty.
  cbn [vtProperties]. by rewrite lookup_insert_ne.
Qed.

End DragFacts.

(** ** Reading again, and components that stay *)

Section MoreDocumentFacts.

Context {Zone : Type}.
Variable stringToComponentBounds : string -> Rectangle.
Variable componentBoundsToString : Rectangle -> string.
Variable handlers : list ComponentTypeHandler.
Variable makeValidCppIdentifier : string -> string.

Local Abbreviation Doc := (@ComponentDocument Zone).
Local Abbreviation createComponent' := (createComponent stringToComponentBounds handlers).
Local Abbreviation performNewComponentMenuItem' :=
  (performNewComponentMenuItem componentBoundsToString handlers makeValidCppIdentifier).

Lemma keepHandleNode_kept (comps : list ValueTree) (nodes : gmap nat ValueTree)
    (handles : list (option nat)) :
  (forall i, Some i ∈ handles -> is_Some (nodes !! i)) ->
  foldr (keepHandleNode comps) nodes handles = nodes.
Proof.
  induction handles as [|handle handles IH]; intros Hkept; [done |].
  cbn [foldr]. rewrite IH by (intros i Hi; apply Hkept; by right).
  destruct handle as [i|]; [| done]. cbn [keepHandleNode].
  destruct (Hkept i) as [v ->]; [by left | done].
Qed.

(** After [detachAll] the handler keeps a node for each of its handles. *)
Lemma detachAll_detached (comps : list ValueTree) (h : @DragHandler Zone) (i : nat) :
  (Some i ∈ draggedComponents (detachAll comps h)) ->
  is_Some (detachedNodes (detachAll comps h) !! i).
Proof.
  unfold detachAll. cbn [draggedComponents detachedNodes]. intros Hi.
  apply list_elem_of_In, in_map_iff in Hi. destruct Hi as ([j|] & Hj & _); [| done].
  cbn in Hj. destruct (foldr _ _ _ !! j) as [v|] eqn:Hv; [| done].
  cbn in Hj. injection Hj as <-. by rewrite Hv.
Qed.

(** The nodes that have left the tree cannot leave it again. *)
Lemma detachAll_twice (comps comps' : list ValueTree) (h : @DragHandler Zone) :
  detachAll comps' (detachAll comps h) = detachAll comps h.
Proof.
  unfold detachAll at 1.
  set (h1 := detachAll comps h).
  assert (forall i, Some i ∈ draggedComponents h1 -> is_Some (detachedNodes h1 !! i))
    as Hkept by apply detachAll_detached.
  rewrite (keepHandleNode_kept _ _ _ Hkept).
  assert (List.map (fun handle => handle ≫= fun i => const i <$> detachedNodes h1 !! i)
            (draggedComponents h1)
          = draggedComponents h1) as ->; [| by destruct h1].
  rewrite <- (map_id (draggedComponents h1)) at 2. apply map_ext_in.
  intros [i|] Hi; [| done]. apply list_elem_of_In in Hi.
  cbn [mbind option_bind]. by destruct (Hkept i Hi) as [v ->].
Qed.

(** X23: [reload] depends on the document only through its file: two
    documents on the same file get the same answer and, when it is true, the
    same tree; so the old tree, the dirty flag and the undo history play no
    part in what is loaded, and a second [reload] of the same files changes
    nothing more. *)
Theorem reload_depends_on_file_only (fs : FileSystem) (a : Doc) :
  (forall b : Doc,
      cppFile b = cppFile a ->
      fst (reload fs b) = fst (reload fs a)
      /\ (fst (reload fs a) = true ->
          root (snd (reload fs b)) = root (snd (reload fs a))
          /\ changedSinceSaved (snd (reload fs b)) = false
          /\ undoManager (snd (reload fs b)) = emptyUndoManager))
  /\ reload fs (snd (reload fs a)) = reload fs a.
Proof.
  split.
  - intros b Hfile. unfold reload. rewrite Hfile.
    destruct (createInputStream fs (cppFile a)) as [text|]; [| done].
    destruct (getDocumentElement _) as [xml|]; [| done].
    by destruct (hasTagName xml componentDocumentTag).
  - unfold reload.
    destruct (createInputStream fs (cppFile a)) as [text|] eqn:Hfile;
      cbn [snd]; [| by rewrite Hfile].
    destruct (getDocumentElement _) as [xml|] eqn:Hxml; cbn [snd];
      [| by rewrite Hfile, Hxml].
    destruct (hasTagName xml componentDocumentTag) eqn:Htag; cbn [snd cppFile];
      rewrite Hfile, Hxml, Htag; [| done].
    cbn [dragger root]. do 2 f_equal.
    destruct (dragger a) as [h|]; [| done].
    cbn [fmap option_fmap option_map]. f_equal. apply detachAll_twice.
Qed.

(** X24: the components that are there keep their states when
    [performNewComponentMenuItem] adds one: the new item goes last, so the
    state that [getComponentState] finds for a live component is the same
    node, at the same place, after the call. *)
Theorem performNewComponentMenuItem_keeps_states (code : Z) (uid : string) (rx ry : Z)
    (doc : Doc) (comp : Component) (i : nat) :
  getComponentState (root doc) comp = Some i ->
  getComponentState (root (performNewComponentMenuItem' code uid rx ry doc)) comp = Some i
  /\ components (root (performNewComponentMenuItem' code uid rx ry doc)) !! i
     = components (root doc) !! i.
Proof.
  intros Hstate. unfold performNewComponentMenuItem.
  destruct (_ && _); [| done]. destruct (getHandler _ _) as [h|]; [| done].
  unfold addComponent. destruct (getComponentGroup (root doc)) as [g|] eqn:Hg; [| done].
  cbn [root]. unfold getComponentState in *.
  rewrite components_updateComponentGroup by done. rewrite Hg.
  assert (components (root doc) = vtChildren g) as Hcomps
    by (unfold components; by rewrite Hg).
  rewrite Hcomps in *. cbn [appendChild vtChildren].
  destruct (list_find _ (vtChildren g)) as [[i' v]|] eqn:Hfind; [| discriminate].
  cbn in Hstate. injection Hstate as ->.
  rewrite (list_find_app_l _ _ _ _ _ Hfind). split; [done |].
  apply list_find_Some in Hfind as (Hi & _). apply lookup_app_l. by eapply lookup_lt_Some.
Qed.

(** X25: when every handler creates a component and every component of the
    group has a type that some handler answers for, [createComponent] uses
    no null pointer, whatever the index; and [performNewComponentMenuItem]
    keeps the group such, since the type of the item it adds is the tag of
    one of the handlers. *)
Theorem createComponent_safe (doc : Doc) :
  Forall (fun h => is_Some (handlerCreateComponent h)) handlers ->
  knownTypes handlers (root doc) ->
  (forall index, createComponent' doc index <> NullPointerDereference)
  /\ (forall code uid rx ry,
         knownTypes handlers (root (performNewComponentMenuItem' code uid rx ry doc))).
Proof.
  intros Hcreate Hknown. split.
  - intros index. unfold createComponent, createFromStoredType.
    rewrite getComponent_lookup. destruct (index <? 0); [done |].
    destruct (components (root doc) !! Z.to_nat index) as [v|] eqn:Hv; [| done].
    unfold knownTypes in Hknown. rewrite Forall_forall in Hknown.
    destruct (Hknown v) as (h & Hh & Htag); [by eapply list_elem_of_lookup_2 |].
    destruct (getHandlerFor handlers (vtType v)) as [h'|] eqn:Hfind.
    + apply find_rev_Some in Hfind as (before & after & Hhandlers & _ & _).
      rewrite Forall_forall in Hcreate. destruct (Hcreate h') as [c ->]; [| done].
      rewrite Hhandlers. apply elem_of_app. right. left.
    + apply find_rev_None in Hfind. rewrite Forall_forall in Hfind.
      specialize (Hfind h Hh). by apply bool_decide_eq_false in Hfind.
  - intros code uid rx ry. unfold performNewComponentMenuItem.
    destruct (_ && _); [| done]. destruct (getHandler _ _) as [h|] eqn:Hh; [| done].
    unfold addComponent. destruct (getComponentGroup (root doc)) as [g|] eqn:Hg; [| done].
    cbn [root]. unfold knownTypes in *.
    rewrite components_updateComponentGroup by done. rewrite Hg.
    unfold components in Hknown. rewrite Hg in Hknown. cbn [appendChild vtChildren].
    apply Forall_app. split; [done |]. apply Forall_singleton. exists h. split; [| done].
    unfold getHandler in Hh. destruct (_ <? 0); [discriminate |].
    by eapply list_elem_of_lookup_2.
Qed.

End MoreDocumentFacts.


(** ** A reload in the middle of a drag *)

Section DetachedFacts.

Context {Zone : Type}.
Variable componentBoundsToString : Rectangle -> string.
Variable resizeRectangleBy : Zone -> Rectangle -> Point -> Rectangle.

Local Abbreviation Doc := (@ComponentDocument Zone).
Local Abbreviation drag' := (drag componentBoundsToString resizeRectangleBy).
Local Abbreviation moveAll' := (moveAll componentBoundsToString resizeRectangleBy).
Local Abbreviation continueDrag' := (continueDrag componentBoundsToString resizeRectangleBy).
Local Abbreviation continueDrags' :=
  (continueDrags componentBoundsToString resizeRectangleBy).
Local Abbreviation endDrag' := (endDrag componentBoundsToString resizeRectangleBy).

(** What a step leaves as it is when it stays off the document's tree: the
    tree, the dirty flag, what the handler was made with, and the nodes the
    handler keeps, whatever their properties. *)
Local Abbreviation offTree doc doc' :=
  (root doc' = root doc
   /\ changedSinceSaved doc' = changedSinceSaved doc
   /\ handlerFrame <$> dragger doc' = handlerFrame <$> dragger doc
   /\ (forall j, is_Some (detachedNode doc j) -> is_Some (detachedNode doc' j))
   /\ (recordsOffTree doc -> recordsOffTree doc')).

Lemma detachedNode_is_Some (doc : Doc) (i : nat) :
  is_Some (detachedNode doc i)
  <-> exists h, dragger doc = Some h /\ is_Some (detachedNodes h !! i).
Proof.
  unfold detachedNode. destruct (dragger doc) as [h|]; cbn [mbind option_bind].
  - destruct (detachedNodes h !! i) as [v|] eqn:Hv; cbn [fmap option_fmap option_map].
    + split; [intros _; exists h; by rewrite Hv | by eexists].
    + split; [by intros [? ?] |]. intros (h' & [= <-] & [v Hv']). congruence.
  - split; [by intros [? ?] | by intros (h & ? & _)].
Qed.

Lemma undoHandlerActions_off_tree (actions : list UndoableAction) (tree : ValueTree)
    (h : @DragHandler Zone) (j : nat) :
  existsb touchesTree actions = false ->
  is_Some (detachedNodes h !! j) ->
  is_Some (detachedNodes (undoHandlerActions actions tree h) !! j).
Proof.
  revert tree h. induction actions as [|a actions IH]; intros tree h; [done |].
  cbn [existsb]. intros [Ha Hrest]%orb_false_elim Hj. cbn [undoHandlerActions].
  apply IH; [done |]. destruct a as [| | owner i name new old]; try discriminate.
  cbn [undoHandlerAction]. case_decide; [| done].
  cbn [withDetachedNodes detachedNodes]. by apply lookup_alter_is_Some.
Qed.

Lemma setPropertyUndoable_off_tree (handle : option nat) (name value : string)
    (doc : Doc) :
  (forall i, handle = Some i -> is_Some (detachedNode doc i)) ->
  offTree doc (setPropertyUndoable handle name value doc).
Proof.
  intros Hhandle. unfold setPropertyUndoable. destruct handle as [i|]; [| done].
  destruct (Hhandle i eq_refl) as [[h v] Hnode]. rewrite Hnode.
  case_decide; [done |].
  unfold detachedNode in Hnode. destruct (dragger doc) as [h'|] eqn:Hh; [| discriminate].
  cbn in Hnode. destruct (detachedNodes h' !! i) as [v'|] eqn:Hv; [| discriminate].
  injection Hnode as -> ->.
  split; [done |]. split; [done |]. split; [done |]. split.
  - intros j. rewrite !detachedNode_is_Some. intros (h' & Hh' & Hj).
    rewrite Hh in Hh'. injection Hh' as <-. eexists. split; [done |].
    cbn [withDetachedNodes detachedNodes]. by apply lookup_insert_is_Some'; right.
  - unfold recordsOffTree. by cbn.
Qed.

Lemma moveAll_off_tree (h : DragHandler) (distance : Point) (vs : list (option nat))
    (ps : list Rectangle) (doc : Doc) :
  (forall i, Some i ∈ vs -> is_Some (detachedNode doc i)) ->
  offTree doc (moveAll' h distance vs ps doc).
Proof.
  revert ps doc. induction vs as [|v vs IH]; intros [|p ps] doc Hvs; try done.
  cbn [moveAll]. unfold move.
  set (doc1 := setPropertyUndoable v compBoundsProperty _ doc).
  destruct (setPropertyUndoable_off_tree v compBoundsProperty
              (componentBoundsToString (resizeRectangleBy (zone h) p distance)) doc)
    as (Hroot & Hflag & Hframe & Hnodes & Hrec).
  { intros i ->. apply Hvs. by left. }
  fold doc1 in Hroot, Hflag, Hframe, Hnodes, Hrec.
  destruct (IH ps doc1) as (Hroot' & Hflag' & Hframe' & Hnodes' & Hrec').
  { intros i Hi. apply Hnodes, Hvs. by right. }
  rewrite Hroot', Hflag', Hframe'. repeat split; auto.
Qed.

Lemma undoCurrentTransactionOnly_off_tree (doc : Doc) :
  recordsOffTree doc ->
  offTree doc (undoCurrentTransactionOnly doc)
  /\ currentTransaction (undoManager (undoCurrentTransactionOnly doc)) = [].
Proof.
  unfold recordsOffTree, undoCurrentTransactionOnly. intros Hoff.
  destruct (currentTransaction (undoManager doc)) as [|a actions] eqn:Hcur;
    [by rewrite Hcur |].
  cbn [root changedSinceSaved dragger undoManager currentTransaction].
  rewrite Hoff, orb_false_r, (undoActions_off_tree _ _ Hoff).
  split; [| done]. split; [done |]. split; [done |]. split; [| split; [| done]].
  - destruct (dragger doc) as [h|]; [| done]. cbn [fmap option_fmap option_map].
    by rewrite handlerFrame_undoHandlerActions.
  - intros j. rewrite !detachedNode_is_Some. intros (h & Hh & Hj). rewrite Hh.
    eexists. split; [done |]. by apply undoHandlerActions_off_tree.
Qed.

Lemma handlesDetached_frame (doc doc' : Doc) :
  handlerFrame <$> dragger doc' = handlerFrame <$> dragger doc ->
  (forall j, is_Some (detachedNode doc j) -> is_Some (detachedNode doc' j)) ->
  handlesDetached doc -> handlesDetached doc'.
Proof.
  intros Hframe Hnodes Hdoc h' i Hh' Hi. rewrite Hh' in Hframe.
  destruct (dragger doc) as [h|] eqn:Hh; [| discriminate].
  cbn in Hframe. injection Hframe as Hhandles _ _ _.
  apply Hnodes, (Hdoc h i Hh). by rewrite <- Hhandles.
Qed.

Lemma drag_off_tree (h : DragHandler) (e : MouseEvent) (doc : Doc) :
  dragger doc = Some h ->
  handlesDetached doc ->
  recordsOffTree doc ->
  offTree doc (drag' h e doc).
Proof.
  intros Hh Hdetached Hoff. unfold drag.
  destruct (undoCurrentTransactionOnly_off_tree doc Hoff)
    as [(Hroot & Hflag & Hframe & Hnodes & Hrec) Hcur].
  destruct (moveAll_off_tree h (getOffsetFromDragStart e) (draggedComponents h)
              (originalPositions h) (undoCurrentTransactionOnly doc))
    as (Hroot' & Hflag' & Hframe' & Hnodes' & Hrec').
  { intros i Hi. by apply Hnodes, (Hdetached h i). }
  rewrite Hroot', Hflag', Hframe'. repeat split; auto.
Qed.

Lemma continueDrags_off_tree (es : list MouseEvent) (doc : Doc) :
  handlesDetached doc ->
  recordsOffTree doc ->
  offTree doc (continueDrags' es doc) /\ handlesDetached (continueDrags' es doc).
Proof.
  revert doc. induction es as [|e es IH]; intros doc Hdetached Hoff;
    [repeat split; auto |].
  unfold continueDrags in *. cbn [fold_left].
  assert (offTree doc (continueDrag' e doc)) as (Hroot & Hflag & Hframe & Hnodes & Hrec).
  { unfold continueDrag. destruct (dragger doc) as [h|] eqn:Hh;
      [| repeat split; auto; by rewrite Hh].
    rewrite <- Hh. by apply drag_off_tree. }
  destruct (IH (continueDrag' e doc)) as [(Hroot' & Hflag' & Hframe' & Hnodes' & Hrec') Hd].
  { by apply (handlesDetached_frame doc). }
  { by apply Hrec. }
  rewrite Hroot', Hflag', Hframe'. repeat split; auto.
Qed.

(** X26: after a [reload] that succeeds while a drag is going on, the
    handler is left with nodes that are no longer in the document:
    [continueDrag] and [endDrag] then change neither the loaded tree nor the
    dirty flag, which stays cleared, and [endDrag] leaves no handler. *)
Theorem drag_after_reload (fs : FileSystem) (doc : Doc) (updates : list MouseEvent)
    (finish : MouseEvent) :
  fst (reload fs doc) = true ->
  let loaded := snd (reload fs doc) in
  let doc' := endDrag' finish (continueDrags' updates loaded) in
  root (continueDrags' updates loaded) = root loaded
  /\ hasChangedSinceLastSave (continueDrags' updates loaded) = false
  /\ root doc' = root loaded
  /\ hasChangedSinceLastSave doc' = false
  /\ dragger doc' = None.
Proof.
  intros Hok loaded doc'.
  destruct (reload_success _ _ Hok) as (text & xml & _ & _ & _ & Hloaded).
  fold loaded in Hloaded.
  assert (handlesDetached loaded) as Hdetached.
  { intros h i Hh Hi. apply detachedNode_is_Some. exists h. split; [done |].
    rewrite Hloaded in Hh. cbn [dragger] in Hh.
    destruct (dragger doc) as [h0|]; [| discriminate]. injection Hh as <-.
    by apply detachAll_detached. }
  assert (recordsOffTree loaded) as Hoff by (by rewrite Hloaded).
  assert (changedSinceSaved loaded = false) as Hclean by (by rewrite Hloaded).
  destruct (continueDrags_off_tree updates loaded Hdetached Hoff)
    as [(Hroot & Hflag & _ & _ & Hrec) Hdetached'].
  set (doc2 := continueDrags' updates loaded) in *.
  unfold hasChangedSinceLastSave.
  split; [done |]. split; [by rewrite Hflag |].
  unfold doc', endDrag. destruct (dragger doc2) as [h|] eqn:Hh.
  - destruct (drag_off_tree h finish doc2 Hh Hdetached' (Hrec Hoff))
      as (Hroot' & Hflag' & _).
    cbn [beginNewTransaction setDragger root changedSinceSaved dragger].
    by rewrite Hroot', Hflag', Hroot, Hflag.
  - by rewrite Hroot, Hflag.
Qed.

End DetachedFacts.

(** ** Examples for the rest of the file's functions *)

Lemma createComponent_state_round_trip_witness :
  getComponentState Demo.panel Demo.okComponent = Some 0%nat
  /\ handleNode Demo.panel (getComponentState Demo.panel Demo.okComponent)
     = getComponent Demo.panel 0
  /\ updateComponent Demo.stringToComponentBounds Demo.handlers (Demo.holding Demo.panel)
       Demo.okComponent
     = Demo.okComponent.
Proof.
  apply (createComponent_state_round_trip Demo.stringToComponentBounds Demo.handlers
           (Demo.holding Demo.panel) 0 Demo.okComponent).
  - apply (bool_decide_unpack _). vm_compute. exact I.
  - vm_compute. reflexivity.
Defined.

Lemma createNewItem_fresh_witness :
  exists name,
    getProperty
      (createNewItem Demo.componentBoundsToString makeValidCppIdentifierModel
         Demo.textButtonHandler Demo.threeButtons "d4" 17 42)
      memberNameProperty = Some name
    /\ (name ∉ memberNames Demo.threeButtons)
    /\ getComponentWithMemberName Demo.threeButtons name = None.
Proof.
  apply (createNewItem_fresh Demo.componentBoundsToString makeValidCppIdentifierModel
           Demo.textButtonHandler Demo.threeButtons "d4" 17 42).
  vm_compute. reflexivity.
Defined.

Lemma performNewComponentMenuItem_adds_witness :
  getNumComponents
    (root (performNewComponentMenuItem (Zone := Demo.Zone) Demo.componentBoundsToString
             Demo.handlers makeValidCppIdentifierModel (menuItemOffset + 1) "d4" 17 42
             (Demo.holding Demo.panel)))
  = S (getNumComponents Demo.panel)
  /\ performNewComponentMenuItem (Zone := Demo.Zone) Demo.componentBoundsToString
       Demo.handlers makeValidCppIdentifierModel (menuItemOffset + 2) "d4" 17 42
       (Demo.holding Demo.panel)
     = Demo.holding Demo.panel.
Proof.
  split.
  - destruct (performNewComponentMenuItem_adds Demo.componentBoundsToString Demo.handlers
                makeValidCppIdentifierModel (menuItemOffset + 1) "d4" 17 42
                (Demo.holding Demo.panel)) as [Hadds _].
    + vm_compute. discriminate.
    + apply (Hadds 1%nat Demo.toggleButtonHandler).
      * reflexivity.
      * reflexivity.
      * vm_compute. eauto.
  - apply (performNewComponentMenuItem_adds Demo.componentBoundsToString Demo.handlers
             makeValidCppIdentifierModel (menuItemOffset + 2) "d4" 17 42
             (Demo.holding Demo.panel)).
    + vm_compute. discriminate.
    + right. left. vm_compute. discriminate.
Defined.

Lemma performNewComponentMenuItem_keeps_names_distinct_witness :
  NoDup
    (memberNames
       (root (performNewComponentMenuItem (Zone := Demo.Zone) Demo.componentBoundsToString
                Demo.handlers makeValidCppIdentifierModel (menuItemOffset + 1) "d4" 17 42
                (Demo.holding Demo.panel)))).
Proof.
  apply (performNewComponentMenuItem_keeps_names_distinct Demo.componentBoundsToString
           Demo.handlers makeValidCppIdentifierModel (menuItemOffset + 1) "d4" 17 42
           (Demo.holding Demo.panel)).
  - vm_compute. reflexivity.
  - apply (bool_decide_unpack _). vm_compute. exact I.
Defined.

Lemma addNewComponentMenuItems_performed_witness :
  addNewComponentMenuItems Demo.handlers []
  = ([] ++ newComponentItems Demo.handlers)%list.
Proof.
  apply (addNewComponentMenuItems_performed (Zone := Demo.Zone) Demo.componentBoundsToString
           Demo.handlers makeValidCppIdentifierModel []).
  vm_compute. discriminate.
Defined.

Lemma getNonExistentMemberName_first_free_witness :
  ((makeValidCppIdentifierModel "button" ∉ memberNames Demo.threeButtons)
   /\ getNonExistentMemberName makeValidCppIdentifierModel Demo.threeButtons "button"
      = makeValidCppIdentifierModel "button")
  \/ ((makeValidCppIdentifierModel "button" ∈ memberNames Demo.threeButtons)
      /\ exists k : Z,
          1 <= k <= Z.of_nat (getNumComponents Demo.threeButtons) + 1
          /\ getNonExistentMemberName makeValidCppIdentifierModel Demo.threeButtons "button"
             = numbered (makeValidCppIdentifierModel "button") k
          /\ (numbered (makeValidCppIdentifierModel "button") k
                ∉ memberNames Demo.threeButtons)
          /\ forall j : Z,
              1 <= j < k ->
              numbered (makeValidCppIdentifierModel "button") j
                ∈ memberNames Demo.threeButtons).
Proof.
  apply (getNonExistentMemberName_first_free makeValidCppIdentifierModel Demo.threeButtons
           "button").
  vm_compute. reflexivity.
Defined.

Lemma save_makes_component_file_witness :
  isComponentFile Demo.hasFileExtension
    (snd (fst (save Demo.noFiles (Demo.holding Demo.panel)))) Demo.cpp
  = true.
Proof.
  apply (save_makes_component_file Demo.hasFileExtension Demo.noFiles
           (Demo.holding Demo.panel)).
  - vm_compute. reflexivity.
  - vm_compute. discriminate.
  - vm_compute. reflexivity.
Defined.

Lemma save_then_reload_checked_witness :
  root (snd (reload (snd (fst (save Demo.noFiles (Demo.holding Demo.panel))))
               (snd (save Demo.noFiles (Demo.holding Demo.panel)))))
  = Demo.panel.
Proof.
  apply (save_then_reload_checked Demo.noFiles (Demo.holding Demo.panel)).
  - vm_compute. discriminate.
  - vm_compute. reflexivity.
  - vm_compute. reflexivity.
  - vm_compute. reflexivity.
  - vm_compute. repeat constructor.
  - vm_compute. eauto.
  - vm_compute. discriminate.
Defined.

Lemma save_on_header_file_witness :
  createInputStream (snd (fst (save Demo.noFiles (Demo.onHeader Demo.panel)))) Demo.header
  = Some (snd writeCode)
  /\ changedSinceSaved (snd (save Demo.noFiles (Demo.onHeader Demo.panel))) = false
  /\ reload (snd (fst (save Demo.noFiles (Demo.onHeader Demo.panel))))
       (snd (save Demo.noFiles (Demo.onHeader Demo.panel)))
     = (false, snd (save Demo.noFiles (Demo.onHeader Demo.panel))).
Proof.
  apply (save_on_header_file Demo.noFiles (Demo.onHeader Demo.panel)).
  - reflexivity.
  - vm_compute. reflexivity.
Defined.

Lemma save_again_writes_nothing_witness :
  save (Demo.readOnly (snd (fst (save Demo.noFiles (Demo.holding Demo.panel)))))
    (snd (save Demo.noFiles (Demo.holding Demo.panel)))
  = (true, Demo.readOnly (snd (fst (save Demo.noFiles (Demo.holding Demo.panel)))),
      snd (save Demo.noFiles (Demo.holding Demo.panel))).
Proof.
  apply (save_again_writes_nothing Demo.noFiles (Demo.holding Demo.panel) (fun _ => false)).
  - vm_compute. discriminate.
  - vm_compute. reflexivity.
Defined.

Lemma performNewComponentMenuItem_keeps_states_witness :
  getComponentState
    (root (performNewComponentMenuItem (Zone := Demo.Zone) Demo.componentBoundsToString
             Demo.handlers makeValidCppIdentifierModel menuItemOffset "d4" 17 42
             (Demo.holding Demo.panel)))
    Demo.okComponent
  = Some 0%nat
  /\ components
       (root (performNewComponentMenuItem (Zone := Demo.Zone) Demo.componentBoundsToString
                Demo.handlers makeValidCppIdentifierModel menuItemOffset "d4" 17 42
                (Demo.holding Demo.panel))) !! 0%nat
     = components Demo.panel !! 0%nat.
Proof.
  apply (performNewComponentMenuItem_keeps_states Demo.componentBoundsToString Demo.handlers
           makeValidCppIdentifierModel menuItemOffset "d4" 17 42 (Demo.holding Demo.panel)
           Demo.okComponent 0).
  vm_compute. reflexivity.
Defined.

Lemma createComponent_safe_witness :
  createComponent Demo.stringToComponentBounds Demo.handlers
    (Demo.holding (Demo.documentOf [Demo.okButton])) 0
  <> NullPointerDereference
  /\ knownTypes Demo.handlers
       (root (performNewComponentMenuItem (Zone := Demo.Zone) Demo.componentBoundsToString
                Demo.handlers makeValidCppIdentifierModel menuItemOffset "d4" 17 42
                (Demo.holding (Demo.documentOf [Demo.okButton])))).
Proof.
  destruct (createComponent_safe Demo.stringToComponentBounds Demo.componentBoundsToString
              Demo.handlers makeValidCppIdentifierModel
              (Demo.holding (Demo.documentOf [Demo.okButton]))) as [Hsafe Hkept].
  - repeat constructor; by eexists.
  - repeat constructor. exists Demo.textButtonHandler. split; [left | reflexivity].
  - split; [apply Hsafe | apply Hkept].
Defined.


(** With two components of the same id the state of a component made for the
    second is the first, and [updateComponent] then gives it the bounds and
    the name of the first. *)
Lemma createComponent_state_shared_id :
  let cancelButton := Demo.component "TEXTBUTTON" "a1" "Cancel" "cancelButton" "10 60 150 24" in
  let doc := Demo.holding (Demo.documentOf [Demo.okButton; cancelButton]) in
  let cancelComponent :=
    mkComponent {[ idProperty := "a1" ]} (mkRectangle 10 60 150 24) "Cancel" in
  createComponent Demo.stringToComponentBounds Demo.handlers doc 1
  = Returned (Some cancelComponent)
  /\ getComponentState (root doc) cancelComponent = Some 0%nat
  /\ updateComponent Demo.stringToComponentBounds Demo.handlers doc cancelComponent
     = Demo.okComponent.
Proof. vm_compute. repeat split; reflexivity. Qed.

(** A drag that comes back to where it started leaves the tree and the undo
    manager as a drag that never left, but sets the dirty flag. *)
Lemma drag_back_sets_flag :
  let doc :=
    beginDrag Demo.stringToComponentBounds [Demo.okComponent] (Demo.pointer 0 0)
      Demo.ZoneCentre (mkComponentDocument Demo.cpp Demo.panel false emptyUndoManager None) in
  let there := continueDrag Demo.componentBoundsToString Demo.resizeRectangleBy
                 (Demo.pointer 3 4) doc in
  let back := continueDrag Demo.componentBoundsToString Demo.resizeRectangleBy
                (Demo.pointer 0 0) there in
  let stay := continueDrag Demo.componentBoundsToString Demo.resizeRectangleBy
                (Demo.pointer 0 0) doc in
  root back = root stay
  /\ undoManager back = undoManager stay
  /\ changedSinceSaved back = true
  /\ changedSinceSaved stay = false.
Proof. vm_compute. repeat split; reflexivity. Qed.

Lemma drag_after_reload_witness :
  root (endDrag Demo.componentBoundsToString Demo.resizeRectangleBy (Demo.pointer 5 5)
          (continueDrags Demo.componentBoundsToString Demo.resizeRectangleBy
             [Demo.pointer 3 4]
             (snd (reload (Demo.saved Demo.panel) (Demo.dragging (Demo.clean Demo.panel))))))
  = Demo.panel
  /\ hasChangedSinceLastSave
       (endDrag Demo.componentBoundsToString Demo.resizeRectangleBy (Demo.pointer 5 5)
          (continueDrags Demo.componentBoundsToString Demo.resizeRectangleBy
             [Demo.pointer 3 4]
             (snd (reload (Demo.saved Demo.panel) (Demo.dragging (Demo.clean Demo.panel))))))
     = false.
Proof.
  destruct (drag_after_reload Demo.componentBoundsToString Demo.resizeRectangleBy
              (Demo.saved Demo.panel) (Demo.dragging (Demo.clean Demo.panel))
              [Demo.pointer 3 4] (Demo.pointer 5 5)) as (_ & _ & Hroot & Hflag & _).
  - vm_compute. reflexivity.
  - split; [| exact Hflag]. rewrite Hroot. vm_compute. reflexivity.
Defined.
